(** * Stride: the price-history pipeline of [frontend/src/utils/helpers.ts]

    A shallow embedding of [calculatePriceChange], [transformPriceData]
    and [calculateStats], with the pieces of the JavaScript run time they
    rest on: IEEE-754 numbers, [Math.min]/[Math.max], insertion-ordered
    [Map]s and objects, [Date] and the stable [Array.prototype.sort]. *)

From Stdlib Require Import Floats ZArith List String Ascii Bool Lia.
From Stdlib Require Import QArith Qpower Lqa.
From Stdlib Require Import Sorting.Sorted Sorting.Permutation.
Import ListNotations.

Local Open Scope string_scope.
Local Open Scope Z_scope.

(** ** JavaScript numbers

    A [number] is an IEEE-754 binary64 value: the kernel's primitive
    floats, with [-0], the infinities and NaN. *)

Definition number : Set := float.

Definition NaN : number := nan.
Definition Infinity : number := infinity.

(** [arr.length] as a number (exact below 2^53; arrays are shorter than 2^32). *)
Definition length_number {A} (l : list A) : number :=
  PrimFloat.of_uint63 (Uint63.of_Z (Z.of_nat (List.length l))).

Definition is_neg_zero (x : number) : bool := is_zero x && get_sign x.
Definition is_pos_zero (x : number) : bool := is_zero x && negb (get_sign x).

(** [Math.min(...xs)]: the running value starts at [+Infinity]; a NaN
    argument makes the result NaN; [-0] counts as smaller than [+0]. *)
Fixpoint Math_min_from (lowest : number) (xs : list number) : number :=
  match xs with
  | [] => lowest
  | x :: rest =>
      if is_nan x then NaN
      else if is_neg_zero x && is_pos_zero lowest then Math_min_from x rest
      else if PrimFloat.ltb x lowest then Math_min_from x rest
      else Math_min_from lowest rest
  end.

Definition Math_min (xs : list number) : number := Math_min_from Infinity xs.

(** [Math.max(...xs)]: the running value starts at [-Infinity]; [+0]
    counts as larger than [-0]. *)
Fixpoint Math_max_from (highest : number) (xs : list number) : number :=
  match xs with
  | [] => highest
  | x :: rest =>
      if is_nan x then NaN
      else if is_pos_zero x && is_neg_zero highest then Math_max_from x rest
      else if PrimFloat.ltb highest x then Math_max_from x rest
      else Math_max_from highest rest
  end.

Definition Math_max (xs : list number) : number :=
  Math_max_from neg_infinity xs.

(** [undefined] is [None]; [x || d] on an optional string or number. *)
Definition or_string (x : option string) (d : string) : string :=
  match x with
  | Some s => if String.eqb s "" then d else s
  | None => d
  end.

Definition or_number (x : option number) (d : number) : number :=
  match x with
  | Some n => if is_nan n || is_zero n then d else n
  | None => d
  end.

(** The text a template literal puts for an optional string. *)
Definition template_string (x : option string) : string :=
  match x with
  | Some s => s
  | None => "undefined"
  end.

(** ** The records of [utils/types.ts] *)

Module Sneaker.
Record t : Set := mk {
  sneaker_id : Z;
  name : string;
  sku : string;
  release_date : option string;
  colorway : option string;
  available_sizes : option string;
  price : number;
  ratings : option number;
  brand_id : Z;
  brand_name : string;
  retailer_id : Z
}.
End Sneaker.

Module PricePoint.
Record t : Set := mk {
  timestamp : string;
  price : number;
  sneaker_id : Z
}.
End PricePoint.

Module SneakerStats.
Record t : Set := mk {
  sneaker_id : Z;
  name : string;
  sku : string;
  current_price : number;
  retail_price : number;
  price_change : number;
  price_change_percent : number;
  min_price : number;
  max_price : number;
  avg_price : number;
  release_date : string;
  available_sizes : string;
  ratings : number
}.
End SneakerStats.

(** The series label [`${sneaker.name} - ${sneaker.colorway}`]. *)
Definition series_label (sneaker : Sneaker.t) : string :=
  Sneaker.name sneaker ++ " - " ++ template_string (Sneaker.colorway sneaker).

(** ** [calculatePriceChange] and [calculateStats] *)

Definition calculatePriceChange (oldPrice newPrice : number) : number :=
  PrimFloat.mul (PrimFloat.div (PrimFloat.sub newPrice oldPrice) oldPrice) 100.

(** [prices.reduce((sum, p) => sum + p, 0)] *)
Definition sum_prices (prices : list number) : number :=
  fold_left PrimFloat.add prices 0%float.

(** The samples of one sneaker, in input order. *)
Definition sneakerPrices (sneaker : Sneaker.t) (pricePoints : list PricePoint.t)
  : list PricePoint.t :=
  filter (fun p => PricePoint.sneaker_id p =? Sneaker.sneaker_id sneaker)
         pricePoints.

Definition calculateStats (sneaker : Sneaker.t) (pricePoints : list PricePoint.t)
  : SneakerStats.t :=
  let sneakerPrices := sneakerPrices sneaker pricePoints in
  match sneakerPrices with
  | [] =>
      {| SneakerStats.sneaker_id := Sneaker.sneaker_id sneaker;
         SneakerStats.name := series_label sneaker;
         SneakerStats.sku := Sneaker.sku sneaker;
         SneakerStats.current_price := Sneaker.price sneaker;
         SneakerStats.retail_price := Sneaker.price sneaker;
         SneakerStats.price_change := 0%float;
         SneakerStats.price_change_percent := 0%float;
         SneakerStats.min_price := Sneaker.price sneaker;
         SneakerStats.max_price := Sneaker.price sneaker;
         SneakerStats.avg_price := Sneaker.price sneaker;
         SneakerStats.release_date :=
           or_string (Sneaker.release_date sneaker) "Unknown";
         SneakerStats.available_sizes :=
           or_string (Sneaker.available_sizes sneaker) "N/A";
         SneakerStats.ratings := or_number (Sneaker.ratings sneaker) 0%float |}
  | first :: _ =>
      let prices := map PricePoint.price sneakerPrices in
      let currentPrice := last prices (PricePoint.price first) in
      let minPrice := Math_min prices in
      let maxPrice := Math_max prices in
      let avgPrice := PrimFloat.div (sum_prices prices) (length_number prices) in
      let priceChange := PrimFloat.sub currentPrice (Sneaker.price sneaker) in
      let priceChangePercent :=
        calculatePriceChange (Sneaker.price sneaker) currentPrice in
      {| SneakerStats.sneaker_id := Sneaker.sneaker_id sneaker;
         SneakerStats.name := series_label sneaker;
         SneakerStats.sku := Sneaker.sku sneaker;
         SneakerStats.current_price := currentPrice;
         SneakerStats.retail_price := Sneaker.price sneaker;
         SneakerStats.price_change := priceChange;
         SneakerStats.price_change_percent := priceChangePercent;
         SneakerStats.min_price := minPrice;
         SneakerStats.max_price := maxPrice;
         SneakerStats.avg_price := avgPrice;
         SneakerStats.release_date :=
           or_string (Sneaker.release_date sneaker) "Unknown";
         SneakerStats.available_sizes :=
           or_string (Sneaker.available_sizes sneaker) "N/A";
         SneakerStats.ratings := or_number (Sneaker.ratings sneaker) 0%float |}
  end.

(** ** Completions: a call returns or throws *)

Inductive error : Set :=
| RangeError (message : string)
| TypeError (message : string).

Inductive completion (A : Type) : Type :=
| Normal (a : A)
| Throw (e : error).

Arguments Normal {A} a.
Arguments Throw {A} e.

Definition bind {A B} (c : completion A) (k : A -> completion B)
  : completion B :=
  match c with
  | Normal a => k a
  | Throw e => Throw e
  end.

(** [xs.forEach(x => { acc = step(acc, x) })], stopping at the first throw. *)
Fixpoint forEach {A S} (step : S -> A -> completion S) (xs : list A) (acc : S)
  : completion S :=
  match xs with
  | [] => Normal acc
  | x :: rest => bind (step acc x) (forEach step rest)
  end.

(** ** Insertion-ordered [Map]s and objects

    A [Map] (and the own string-keyed properties of an object) keeps its
    entries in insertion order; setting a key that is present replaces the
    value where it stands. *)

Section JSMap.
Context {K V : Type} (eqb : K -> K -> bool).

Fixpoint Map_get (k : K) (m : list (K * V)) : option V :=
  match m with
  | [] => None
  | (k', v) :: rest => if eqb k' k then Some v else Map_get k rest
  end.

Definition Map_has (k : K) (m : list (K * V)) : bool :=
  match Map_get k m with
  | Some _ => true
  | None => false
  end.

Fixpoint Map_set (k : K) (v : V) (m : list (K * V)) : list (K * V) :=
  match m with
  | [] => [(k, v)]
  | (k', v') :: rest =>
      if eqb k' k then (k', v) :: rest else (k', v') :: Map_set k v rest
  end.
End JSMap.

(** ** Dates

    A [Date] holds a time value: milliseconds since the epoch, or NaN
    ([None], an Invalid Date). *)

Definition Date : Set := option Z.

Definition msPerDay : Z := 86400000.
Definition maxTime : Z := 8640000000000000.

Definition Day (t : Z) : Z := t / msPerDay.
Definition TimeWithinDay (t : Z) : Z := t mod msPerDay.
Definition MakeDate (day time : Z) : Z := day * msPerDay + time.

Definition TimeClip (t : option Z) : Date :=
  match t with
  | Some t => if Z.abs t <=? maxTime then Some t else None
  | None => None
  end.

(** Day number (days since 1970-01-01) of a date of the proleptic
    Gregorian calendar, months counted from 1, and back. Years run from
    March, in eras of 400 years (146097 days). *)
Definition day_of_civil (y m d : Z) : Z :=
  let y' := if m <=? 2 then y - 1 else y in
  let era := y' / 400 in
  let yoe := y' - era * 400 in
  let mp := if 2 <? m then m - 3 else m + 9 in
  let doy := (153 * mp + 2) / 5 + d - 1 in
  let doe := yoe * 365 + yoe / 4 - yoe / 100 + doy in
  era * 146097 + doe - 719468.

Definition civil_of_day (day : Z) : Z * Z * Z :=
  let z := day + 719468 in
  let era := z / 146097 in
  let doe := z - era * 146097 in
  let yoe := (doe - doe / 1460 + doe / 36524 - doe / 146096) / 365 in
  let doy := doe - (365 * yoe + yoe / 4 - yoe / 100) in
  let mp := (5 * doy + 2) / 153 in
  let d := doy - (153 * mp + 2) / 5 + 1 in
  let m := if mp <? 10 then mp + 3 else mp - 9 in
  let y := yoe + era * 400 in
  (if m <=? 2 then y + 1 else y, m, d).

Definition InLeapYear (y : Z) : bool :=
  ((y mod 4 =? 0) && negb (y mod 100 =? 0)) || (y mod 400 =? 0).

Definition DaysInMonth (y m : Z) : Z :=
  if m =? 2 then (if InLeapYear y then 29 else 28)
  else if (m =? 4) || (m =? 6) || (m =? 9) || (m =? 11) then 30
  else 31.

(** Decimal digits. *)
Definition digit (n : Z) : ascii := ascii_of_nat (48 + Z.to_nat n).

Definition digit_val (c : ascii) : option Z :=
  let n := Z.of_nat (nat_of_ascii c) in
  if (48 <=? n) && (n <=? 57) then Some (n - 48) else None.

(** [n] in [w] decimal digits, zero-padded. *)
Fixpoint pad (w : nat) (n : Z) : string :=
  match w with
  | O => ""
  | S w' => String (digit ((n / 10 ^ Z.of_nat w') mod 10)) (pad w' n)
  end.

Definition year_string (y : Z) : string :=
  if (0 <=? y) && (y <=? 9999) then pad 4 y
  else (if y <? 0 then "-" else "+") ++ pad 6 (Z.abs y).

(** [Date.prototype.toISOString] on a valid time value:
    [YYYY-MM-DDTHH:mm:ss.sssZ], the year in six signed digits outside
    0..9999. *)
Definition iso_string (t : Z) : string :=
  let '(y, m, d) := civil_of_day (Day t) in
  let ms := TimeWithinDay t in
  year_string y ++ "-" ++ pad 2 m ++ "-" ++ pad 2 d ++ "T"
    ++ pad 2 (ms / 3600000) ++ ":" ++ pad 2 ((ms / 60000) mod 60) ++ ":"
    ++ pad 2 ((ms / 1000) mod 60) ++ "." ++ pad 3 (ms mod 1000) ++ "Z".

Definition toISOString (d : Date) : completion string :=
  match d with
  | Some t => Normal (iso_string t)
  | None => Throw (RangeError "Invalid time value")
  end.

Definition getTime (d : Date) : option Z := d.

(** [date.setUTCHours(0, 0, 0, 0)]: an Invalid Date stays invalid. *)
Definition setUTCHours0 (d : Date) : Date :=
  match d with
  | Some t => TimeClip (Some (MakeDate (Day t) 0))
  | None => None
  end.

(** *** Reading a date-time string

    [parseISO] reads the UTC forms of the ECMAScript date-time string
    format, [YYYY-MM-DDTHH:mm:ss.sssZ] and [YYYY-MM-DDTHH:mm:ssZ], the year
    possibly in six signed digits, and accepts them when the fields name a
    date of the calendar and a time of day. *)

Local Notation "x <- a ;; b" :=
  (match a with Some x => b | None => None end)
  (at level 61, a at next level, right associativity).
Local Notation "' p <- a ;; b" :=
  (match a with Some p => b | None => None end)
  (at level 61, p pattern, a at next level, right associativity).

Fixpoint read_digits (w : nat) (acc : Z) (s : string) : option (Z * string) :=
  match w with
  | O => Some (acc, s)
  | S w' =>
      match s with
      | String c rest =>
          d <- digit_val c ;; read_digits w' (10 * acc + d) rest
      | EmptyString => None
      end
  end.

Definition expect (c : ascii) (s : string) : option string :=
  match s with
  | String c' rest => if Ascii.eqb c' c then Some rest else None
  | EmptyString => None
  end.

Definition read_year (s : string) : option (Z * string) :=
  match s with
  | String "+" rest => read_digits 6 0 rest
  | String "-" rest =>
      '(y, rest') <- read_digits 6 0 rest ;;
      if y =? 0 then None else Some (- y, rest')
  | _ => read_digits 4 0 s
  end.

Definition read_millis (s : string) : option (Z * string) :=
  match s with
  | String "." rest => read_digits 3 0 rest
  | _ => Some (0, s)
  end.

Definition parseISO (s : string) : option Z :=
  '(y, s) <- read_year s ;;
  s <- expect "-" s ;;
  '(m, s) <- read_digits 2 0 s ;;
  s <- expect "-" s ;;
  '(d, s) <- read_digits 2 0 s ;;
  s <- expect "T" s ;;
  '(hh, s) <- read_digits 2 0 s ;;
  s <- expect ":" s ;;
  '(mm, s) <- read_digits 2 0 s ;;
  s <- expect ":" s ;;
  '(ss, s) <- read_digits 2 0 s ;;
  '(ms, s) <- read_millis s ;;
  s <- expect "Z" s ;;
  let day := day_of_civil y m d in
  let t := MakeDate day (hh * 3600000 + mm * 60000 + ss * 1000 + ms) in
  if String.eqb s ""
     && (1 <=? m) && (m <=? 12) && (1 <=? d) && (d <=? DaysInMonth y m)
     && (hh <? 24) && (mm <? 60) && (ss <? 60)
     && (Z.abs t <=? maxTime)
  then Some t else None.

(** ** Chart rows

    A [ChartData] object: the [timestamp] property and one property per
    series label, in insertion order. *)

Inductive value : Set :=
| VDate (d : Date)
| VNumber (n : number).

Definition ChartData : Set := list (string * value).

Definition obj_get (k : string) (o : ChartData) : option value :=
  Map_get String.eqb k o.

Definition obj_set (k : string) (v : value) (o : ChartData) : ChartData :=
  Map_set String.eqb k v o.

(** [row.timestamp] of a chart row. *)
Definition timestamp (row : ChartData) : Date :=
  match obj_get "timestamp" row with
  | Some (VDate d) => d
  | _ => None
  end.

(** The comparator [(a, b) => a.timestamp.getTime() - b.timestamp.getTime()];
    [None] is NaN. Time values are integers below 2^53 in size, so the
    sign of the difference of the two numbers is the sign of the integer
    difference. *)
Definition compare_timestamps (a b : ChartData) : option Z :=
  match getTime (timestamp a), getTime (timestamp b) with
  | Some x, Some y => Some (x - y)
  | _, _ => None
  end.

(** [Array.prototype.sort(comparefn)] is stable and reads a NaN result as
    [+0]: [a] stays before [b] unless [comparefn(a, b) > 0]. *)
Section Sort.
Context {A : Type} (comparefn : A -> A -> option Z).

Definition sort_le (a b : A) : bool :=
  match comparefn a b with
  | Some v => v <=? 0
  | None => true
  end.

Fixpoint sort_insert (a : A) (sorted : list A) : list A :=
  match sorted with
  | [] => [a]
  | b :: rest => if sort_le a b then a :: sorted else b :: sort_insert a rest
  end.

Definition sort (xs : list A) : list A := fold_right sort_insert [] xs.
End Sort.

(** ** [transformPriceData] *)

Section Engine.
(** What [Date.parse] makes of a string outside the forms [parseISO]
    reads (local-time forms, legacy formats): left to the engine and its
    time zone. *)
Variable engine_parse : string -> option Z.

Definition Date_parse (s : string) : option Z :=
  match parseISO s with
  | Some t => Some t
  | None => engine_parse s
  end.

Definition new_Date (s : string) : Date := TimeClip (Date_parse s).

Definition normalizeTimestamp (timestamp : string) : completion string :=
  let date := new_Date timestamp in
  let date := setUTCHours0 date in
  toISOString date.

Definition grouped_t : Type := list (string * list (Z * number)).

(** The body of [pricePoints.forEach((point) => ...)]. *)
Definition group_point (grouped : grouped_t) (point : PricePoint.t)
  : completion grouped_t :=
  bind (normalizeTimestamp (PricePoint.timestamp point))
    (fun normalizedTimestamp =>
       let grouped :=
         if Map_has String.eqb normalizedTimestamp grouped then grouped
         else Map_set String.eqb normalizedTimestamp [] grouped in
       match Map_get String.eqb normalizedTimestamp grouped with
       | Some priceMap =>
           Normal
             (Map_set String.eqb normalizedTimestamp
                (Map_set Z.eqb (PricePoint.sneaker_id point)
                   (PricePoint.price point) priceMap)
                grouped)
       | None => Throw (TypeError "undefined has no property set")
       end).

(** The body of [priceMap.forEach((price, sneakerId) => ...)]. *)
Definition add_price (sneakers : list Sneaker.t) (dataPoint : ChartData)
           (entry : Z * number) : ChartData :=
  let '(sneakerId, price) := entry in
  match find (fun s => Sneaker.sneaker_id s =? sneakerId) sneakers with
  | Some sneaker => obj_set (series_label sneaker) (VNumber price) dataPoint
  | None => dataPoint
  end.

(** The body of [grouped.forEach((priceMap, timestamp) => ...)]. *)
Definition chart_row (sneakers : list Sneaker.t)
           (entry : string * list (Z * number)) : ChartData :=
  let '(timestamp, priceMap) := entry in
  fold_left (add_price sneakers) priceMap
            [("timestamp", VDate (new_Date timestamp))].

Definition transformPriceData (pricePoints : list PricePoint.t)
           (sneakers : list Sneaker.t) : completion (list ChartData) :=
  match pricePoints, sneakers with
  | [], _ | _, [] => Normal []
  | _, _ =>
      bind (forEach group_point pricePoints [])
        (fun grouped =>
           let chartData := map (chart_row sneakers) grouped in
           Normal (sort compare_timestamps chartData))
  end.

(** [useChartData] of [hooks/useChartData.ts]: the memoised value. *)
Definition useChartData (priceHistory : list PricePoint.t)
           (sneakers : list Sneaker.t) : completion (list ChartData) :=
  match priceHistory, sneakers with
  | [], _ | _, [] => Normal []
  | _, _ => transformPriceData priceHistory sneakers
  end.

(** The day bucket of a sample: its date at UTC midnight. *)
Definition bucket_date (point : PricePoint.t) : Date :=
setUTCHours0 (new_Date (PricePoint.timestamp point)).

(** One pass of the grouping loop for a sample whose bucket key is [k]. *)
Definition group_at (k : string) (id : Z) (price : number)
         (grouped : grouped_t) : grouped_t :=
Map_set String.eqb k
  (Map_set Z.eqb id price
     (match Map_get String.eqb k grouped with
      | Some priceMap => priceMap
      | None => []
      end))
  grouped.

(** Is [point] a sample of entity [id] in the bucket dated [day]? *)
Definition in_bucket (day id : Z) (point : PricePoint.t) : bool :=
(PricePoint.sneaker_id point =? id)
&& match bucket_date point with
   | Some b => b =? day
   | None => false
   end.
End Engine.

(** ** Notions used in the statements *)

(** The order of numbers, and the numbers that are not NaN. *)
Definition fle (x y : number) : Prop := PrimFloat.leb x y = true.
Definition not_nan (x : number) : Prop := is_nan x = false.

Definition keys {K V} (m : list (K * V)) : list K := map fst m.

(** The price grouped under bucket key [k] for entity [id]. *)
Definition lookup (k : string) (id : Z) (grouped : grouped_t) : option number :=
  match Map_get String.eqb k grouped with
  | Some priceMap => Map_get Z.eqb id priceMap
  | None => None
  end.

(** Keys are not repeated, in the map of buckets or inside a bucket. *)
Definition wf_grouped (grouped : grouped_t) : Prop :=
  NoDup (keys grouped)
  /\ forall k priceMap,
       Map_get String.eqb k grouped = Some priceMap -> NoDup (keys priceMap).

(** The last element of a list, if any. *)
Definition last_opt {A} (l : list A) : option A := last (map Some l) None.

(** The rows of a chart dated [day]. *)
Definition dated (day : Z) (row : ChartData) : bool :=
  match timestamp row with
  | Some t => t =? day
  | None => false
  end.

(** The property names of a row other than [timestamp]. *)
Definition series_keys (row : ChartData) : list string :=
  filter (fun k => negb (String.eqb k "timestamp")) (keys row).

(** The time value of a row's date ([0] for an Invalid Date). *)
Definition row_date (row : ChartData) : Z :=
  match timestamp row with
  | Some t => t
  | None => 0
  end.

(** The time value of a sample's own timestamp ([0] when unreadable). *)
Definition sample_time (engine_parse : string -> option Z) (p : PricePoint.t)
  : Z :=
  match new_Date engine_parse (PricePoint.timestamp p) with
  | Some t => t
  | None => 0
  end.

(** Does the string hold the character? *)
Fixpoint contains (c : ascii) (s : string) : bool :=
  match s with
  | EmptyString => false
  | String c' rest => Ascii.eqb c' c || contains c rest
  end.

(** Does the entry of a bucket resolve to an entity labelled [label]? *)
Definition resolves (sneakers : list Sneaker.t) (label : string)
           (entry : Z * number) : bool :=
  match find (fun s => Sneaker.sneaker_id s =? fst entry) sneakers with
  | Some sneaker => String.eqb (series_label sneaker) label
  | None => false
  end.

(** No entity of another id carries the label of [e]. *)
Definition label_of_one_entity (E : list Sneaker.t) (e : Sneaker.t) : Prop :=
  forall e', In e' E -> series_label e' = series_label e ->
             Sneaker.sneaker_id e' = Sneaker.sneaker_id e.

(** ** Sample data *)

Definition ex_sneaker (id : Z) (nm : string) (cw : option string) (p : number)
  : Sneaker.t :=
  Sneaker.mk id nm "SKU" None cw None p None 1 "Brand" 1.

Definition ex_sample (ts : string) (p : number) (id : Z) : PricePoint.t :=
  PricePoint.mk ts p id.

(** An engine that reads nothing beyond [parseISO]. *)
Definition no_engine (_ : string) : option Z := None.

Definition air_max : Sneaker.t := ex_sneaker 1 "Air Max" (Some "Red") 100%float.
Definition dunk_low : Sneaker.t := ex_sneaker 2 "Dunk Low" None 120%float.

Definition morning_100 : PricePoint.t :=
  ex_sample "2025-01-01T02:00:00Z" 100%float 1.
Definition evening_110 : PricePoint.t :=
  ex_sample "2025-01-01T23:00:00Z" 110%float 1.
Definition late_140 : PricePoint.t :=
  ex_sample "2025-01-03T08:00:00Z" 140%float 1.
Definition dunk_sample : PricePoint.t :=
  ex_sample "2025-01-02T12:00:00.500Z" 125%float 2.
Definition stranger_99 : PricePoint.t :=
  ex_sample "2025-01-03T09:30:00Z" 80%float 99.

(** UTC midnight of the first days of January 2025. *)
Definition jan_1 : Z := 1735689600000.
Definition jan_2 : Z := 1735776000000.
Definition jan_3 : Z := 1735862400000.

(** ** Statements that fail on the code *)

(** A zero retail price would make [price_change_percent] the NaN
    sentinel. *)
Definition zero_retail_sentinel : Prop :=
  forall (sneaker : Sneaker.t) (pricePoints : list PricePoint.t),
    is_zero (Sneaker.price sneaker) = true ->
    sneakerPrices sneaker pricePoints <> [] ->
    is_nan (SneakerStats.price_change_percent
              (calculateStats sneaker pricePoints)) = true.

(** Within a bucket, the sample with the latest timestamp would give the
    value shown for its entity, whatever the order of the input. *)
Definition latest_timestamp_wins : Prop :=
  forall engine_parse S E rows p q e day,
    transformPriceData engine_parse S E = Normal rows ->
    find (fun s => Sneaker.sneaker_id s =? PricePoint.sneaker_id p) E = Some e ->
    label_of_one_entity E e ->
    In p S -> bucket_date engine_parse p = Some day ->
    In q S -> in_bucket engine_parse day (PricePoint.sneaker_id p) q = true ->
    (forall r, In r S ->
               in_bucket engine_parse day (PricePoint.sneaker_id p) r = true ->
               sample_time engine_parse r <= sample_time engine_parse q) ->
    exists row,
      filter (dated day) rows = [row]
      /\ obj_get (series_label e) row = Some (VNumber (PricePoint.price q)).

(** * The chart, the select control, the cards and their wiring *)

(** ** [getChartColor] *)

Definition CHART_COLORS : list string :=
  ["#3b82f6"; "#ef4444"; "#10b981"; "#f59e0b";
   "#8b5cf6"; "#ec4899"; "#14b8a6"; "#f97316"].

(** [CHART_COLORS[index % CHART_COLORS.length]] for an integer [index]:
    [%] takes the sign of the dividend, and a negative subscript names no
    element ([undefined], here [None]). *)
Definition getChartColor (index : Z) : option string :=
  let i := Z.rem index (Z.of_nat (List.length CHART_COLORS)) in
  if i <? 0 then None else nth_error CHART_COLORS (Z.to_nat i).

(** ** [Object.keys]

    The own string keys of an object: array indices first, in ascending
    order, then the other keys in insertion order. An array index is a
    decimal numeral without leading zero, below 2^32 - 1. *)

Fixpoint digits_value (acc : Z) (s : string) : option Z :=
  match s with
  | EmptyString => Some acc
  | String c rest =>
      match digit_val c with
      | Some d => digits_value (10 * acc + d) rest
      | None => None
      end
  end.

Definition array_index (k : string) : option Z :=
  match k with
  | EmptyString => None
  | String c rest =>
      if Ascii.eqb c "0" && negb (String.eqb rest "") then None
      else match digits_value 0 k with
           | Some n => if n <? 4294967295 then Some n else None
           | None => None
           end
  end.

Definition is_array_index (k : string) : bool :=
  match array_index k with
  | Some _ => true
  | None => false
  end.

Definition compare_index (a b : string) : option Z :=
  match array_index a, array_index b with
  | Some x, Some y => Some (x - y)
  | _, _ => None
  end.

Definition Object_keys {V} (o : list (string * V)) : list string :=
  (sort compare_index (filter is_array_index (keys o))
   ++ filter (fun k => negb (is_array_index k)) (keys o))%list.

(** ** [PriceChart] of [components/PriceChart.tsx]

    What the component decides: the panel it shows and, for the chart, one
    line per data key with its stroke colour. *)

Inductive PriceChartView : Set :=
| LoadingPanel
| NoDataPanel
| LineChartPanel (lines : list (string * option string)).

(** [xs.map((x, index) => f(x, index))] *)
Fixpoint map_index {A B} (f : A -> Z -> B) (index : Z) (xs : list A) : list B :=
  match xs with
  | [] => []
  | x :: rest => f x index :: map_index f (index + 1) rest
  end.

Definition dataKeys (first : ChartData) : list string :=
  filter (fun key => negb (String.eqb key "timestamp")) (Object_keys first).

Definition PriceChart (data : list ChartData) (isLoading : bool)
  : PriceChartView :=
  if isLoading then LoadingPanel
  else match data with
       | [] => NoDataPanel
       | first :: _ =>
           LineChartPanel
             (map_index (fun key index => (key, getChartColor index)) 0
                        (dataKeys first))
       end.

(** ** [SneakerSelect] of [components/SneakerSelect.tsx] *)

Module SelectOption.
Record t : Set := mk {
  value : Z;
  label : string;
  brand : string;
  colorway : option string
}.
End SelectOption.

(** The decimal numeral of a natural number. *)
Fixpoint decimal_width (fuel : nat) (n : Z) : nat :=
  match fuel with
  | O => 1
  | S fuel' => if n <? 10 then 1%nat else S (decimal_width fuel' (n / 10))
  end.

Definition decimal (n : Z) : string :=
  pad (decimal_width (Z.to_nat (Z.log2 n)) n) n.

(** [String(n)] for an integer [n]. *)
Definition integer_string (n : Z) : string :=
  if n <? 0 then "-" ++ decimal (- n) else decimal n.

Definition YearFromTime (t : Z) : Z := fst (fst (civil_of_day (Day t))).

Section Select.
Variable engine_parse : string -> option Z.
(** The offset of local time from UTC, in milliseconds, at a time value. *)
Variable LocalTZA : Z -> Z.

(** [new Date(s).getFullYear().toString()] *)
Definition full_year_string (s : string) : string :=
  match new_Date engine_parse s with
  | Some t => integer_string (YearFromTime (t + LocalTZA t))
  | None => "NaN"
  end.

Definition select_option (sneaker : Sneaker.t) : SelectOption.t :=
  let releaseYear :=
    match Sneaker.release_date sneaker with
    | Some d => if String.eqb d "" then "Unknown" else full_year_string d
    | None => "Unknown"
    end in
  {| SelectOption.value := Sneaker.sneaker_id sneaker;
     SelectOption.label :=
       Sneaker.name sneaker ++ " (" ++ releaseYear ++ ") - "
         ++ or_string (Sneaker.colorway sneaker) "Default";
     SelectOption.brand := Sneaker.brand_name sneaker;
     SelectOption.colorway := Sneaker.colorway sneaker |}.

Definition select_options (sneakers : list Sneaker.t) : list SelectOption.t :=
  map select_option sneakers.
End Select.

Definition option_group : Set := string * list SelectOption.t.

(** The reducer of [options.reduce]: push the option to the first group
    labelled with its brand, or add a group for it at the end. *)
Fixpoint add_to_groups (acc : list option_group) (option : SelectOption.t)
  : list option_group :=
  match acc with
  | [] => [(SelectOption.brand option, [option])]
  | (group_label, group_options) :: rest =>
      if String.eqb group_label (SelectOption.brand option)
      then (group_label, (group_options ++ [option])%list) :: rest
      else (group_label, group_options) :: add_to_groups rest option
  end.

Definition groupedOptions (options : list SelectOption.t) : list option_group :=
  fold_left add_to_groups options [].

(** The controls that depend on the size of the selection. *)
Definition isOptionDisabled (selectedSneakers : list SelectOption.t) : bool :=
  5 <=? Z.of_nat (List.length selectedSneakers).

(** ** [useSelection] and the wiring of [App.tsx] *)

Definition selectedIds (selectedSneakers : list SelectOption.t) : list Z :=
  map SelectOption.value selectedSneakers.

(** [selectedIds.includes(id)] *)
Definition includes (ids : list Z) (id : Z) : bool := existsb (Z.eqb id) ids.

Definition selectedSneakerObjects (sneakers : list Sneaker.t) (ids : list Z)
  : list Sneaker.t :=
  filter (fun s => includes ids (Sneaker.sneaker_id s)) sneakers.

(** The values in a list of strings, each once, in the order of their
    first occurrences. *)
Fixpoint first_occurrences (l : list string) : list string :=
  match l with
  | [] => []
  | x :: rest =>
      x :: filter (fun y => negb (String.eqb y x)) (first_occurrences rest)
  end.

(** The options of one brand, in their order. *)
Definition brand_group (options : list SelectOption.t) (brand : string)
  : option_group :=
  (brand, filter (fun o => String.eqb (SelectOption.brand o) brand) options).

(** ** Notions used in the statements about the chart and the controls *)

Section BucketDays.
Variable engine_parse : string -> option Z.

(** The days that have a readable sample, each once. *)
Definition bucket_days (S : list PricePoint.t) : list Z :=
  nodup Z.eq_dec
    (flat_map (fun p => match bucket_date engine_parse p with
                        | Some day => [day]
                        | None => []
                        end) S).
End BucketDays.

(** The property names of a row [transformPriceData] builds. *)
Definition row_key (sneakers : list Sneaker.t) (k : string) : Prop :=
  k = "timestamp" \/ exists e, In e sneakers /\ k = series_label e.

(** ** [Number.prototype.toFixed] and [formatPrice] *)

(** The integer nearest to [|x| * 10^f], the larger of two equally near;
    [|x|] is [m * 2^e] exactly. *)
Definition scaled_nearest (x : number) (f : nat) : Z :=
  match Prim2SF x with
  | S754_finite _ m e =>
      if 0 <=? e then Z.pos m * 2 ^ e * 10 ^ Z.of_nat f
      else (2 * Z.pos m * 10 ^ Z.of_nat f + 2 ^ (- e)) / (2 * 2 ^ (- e))
  | _ => 0
  end.

Fixpoint zeros (n : nat) : string :=
  match n with
  | O => ""
  | S n' => String "0" (zeros n')
  end.

Section NumberText.
(** [String(x)] for a finite [x] of 1e21 or more, in exponent notation:
    left to the engine. *)
Variable large_number_string : number -> string.

Definition toFixed (x : number) (f : nat) : string :=
  if is_nan x then "NaN"
  else
    let s := if PrimFloat.ltb x 0 then "-" else "" in
    if is_infinity x then s ++ "Infinity"
    else if PrimFloat.leb 1e21 (abs x) then s ++ large_number_string (abs x)
    else
      let n := scaled_nearest x f in
      let m := decimal n in
      let m :=
        match f with
        | O => m
        | _ =>
            let k := String.length m in
            let m := if (k <=? f)%nat then zeros (f + 1 - k) ++ m else m in
            let k := String.length m in
            substring 0 (k - f) m ++ "." ++ substring (k - f) f m
        end in
      s ++ m.

Definition formatPrice (price : number) : string := "$" ++ toFixed price 2.

(** ** [StatisticsCards]: the price texts of one card *)

Record StatCard : Set := mkStatCard {
  card_key : Z;
  card_name : string;
  card_current_price : string;
  card_retail_price : string;
  card_change_class : string;
  card_change_sign : string;
  card_price_change : string;
  card_percent_sign : string;
  card_percent : string;
  card_min_price : string;
  card_max_price : string;
  card_avg_price : string
}.

Definition stat_card (stat : SneakerStats.t) : StatCard :=
  {| card_key := SneakerStats.sneaker_id stat;
     card_name := SneakerStats.name stat;
     card_current_price := formatPrice (SneakerStats.current_price stat);
     card_retail_price := formatPrice (SneakerStats.retail_price stat);
     card_change_class :=
       if PrimFloat.leb 0 (SneakerStats.price_change stat)
       then "text-green-600" else "text-red-600";
     card_change_sign :=
       if PrimFloat.leb 0 (SneakerStats.price_change stat) then "+" else "";
     card_price_change := formatPrice (SneakerStats.price_change stat);
     card_percent_sign :=
       if PrimFloat.leb 0 (SneakerStats.price_change_percent stat)
       then "+" else "";
     card_percent := toFixed (SneakerStats.price_change_percent stat) 1;
     card_min_price := formatPrice (SneakerStats.min_price stat);
     card_max_price := formatPrice (SneakerStats.max_price stat);
     card_avg_price := formatPrice (SneakerStats.avg_price stat) |}.

(** [null] when there is no sneaker, one card per sneaker otherwise. *)
Definition StatisticsCards (sneakers : list Sneaker.t)
           (priceHistory : list PricePoint.t) : option (list StatCard) :=
  match sneakers with
  | [] => None
  | _ => Some (map (fun sneaker => stat_card (calculateStats sneaker priceHistory))
                   sneakers)
  end.

(** ** [App]: what the chart and the cards are given *)

Record AppView : Set := mkAppView {
  chart_panel : PriceChartView;
  statistics : option (list StatCard)
}.

Section AppWiring.
Variable engine_parse : string -> option Z.

Definition App (sneakers : list Sneaker.t) (selectedSneakers : list SelectOption.t)
           (priceHistory : list PricePoint.t) (priceLoading : bool)
  : completion AppView :=
  let selectedIds := selectedIds selectedSneakers in
  let selectedSneakerObjects := selectedSneakerObjects sneakers selectedIds in
  bind (useChartData engine_parse priceHistory selectedSneakerObjects)
    (fun chartData =>
       Normal
         {| chart_panel := PriceChart chartData priceLoading;
            statistics :=
              if (0 <? List.length selectedSneakerObjects)%nat
              then StatisticsCards selectedSneakerObjects priceHistory
              else None |}).
End AppWiring.
End NumberText.

(** The magnitude of a number as a rational ([0] when it is not finite). *)
Definition magnitude (x : number) : Q :=
  match Prim2SF x with
  | S754_finite _ m e => (inject_Z (Z.pos m) * Qpower 2 e)%Q
  | _ => 0%Q
  end.

Definition nolarge (_ : number) : string := "?".

(** ** More sample data *)

(** Samples of three days, received out of order, and their rows. *)
Definition three_days : list PricePoint.t :=
  [dunk_sample; stranger_99; morning_100; evening_110].

Definition row_jan_1 : ChartData :=
  [("timestamp", VDate (Some jan_1)); ("Air Max - Red", VNumber 110%float)].
Definition row_jan_2 : ChartData :=
  [("timestamp", VDate (Some jan_2));
   ("Dunk Low - undefined", VNumber 125%float)].
Definition row_jan_3 : ChartData := [("timestamp", VDate (Some jan_3))].

(** A sneaker given away, and a sample of it. *)
Definition free_pair : Sneaker.t := ex_sneaker 3 "Free Pair" None 0%float.
Definition free_pair_50 : PricePoint.t :=
  ex_sample "2025-01-01T02:00:00Z" 50%float 3.

(** The option of a sneaker where local time is UTC. *)
Definition ex_option (sneaker : Sneaker.t) : SelectOption.t :=
  select_option no_engine (fun _ => 0) sneaker.

(** An eighth of a dollar: between 12 and 13 cents. *)
Definition eighth : number := 0.125%float.

(** ** Whole numbers and exact values, for the statements about the mean *)





(** * Numbers: order, [Math.min] and [Math.max], the statistics *)

Ltac sf_cases :=
  repeat match goal with
         | s : bool |- _ => destruct s
         | |- context [(?a ?= ?b)%Z] => destruct (Z.compare_spec a b)
         | |- context [(?a ?= ?b)%positive] => destruct (Pos.compare_spec a b)
         end; simpl in *; try congruence; try lia.

Lemma SFleb_trans (x y z : spec_float) :
  SFleb x y = true -> SFleb y z = true -> SFleb x z = true.
Proof.
  unfold SFleb, SFcompare.
  destruct x as [sx|sx| |sx mx ex], y as [sy|sy| |sy my ey],
      z as [sz|sz| |sz mz ez]; simpl; try congruence;
    change (PosDef.Pos.compare_cont Eq) with Pos.compare; sf_cases.
Qed.

Lemma SFleb_total (x y : spec_float) :
  x <> S754_nan -> y <> S754_nan -> SFltb x y = false -> SFleb y x = true.
Proof.
  unfold SFleb, SFltb, SFcompare.
  destruct x as [sx|sx| |sx mx ex], y as [sy|sy| |sy my ey]; simpl; try congruence;
    change (PosDef.Pos.compare_cont Eq) with Pos.compare; intros _ _; sf_cases.
Qed.

Lemma SFltb_leb (x y : spec_float) : SFltb x y = true -> SFleb x y = true.
Proof.
  unfold SFleb, SFltb. destruct (SFcompare x y) as [[]|]; congruence.
Qed.

Lemma is_nan_spec (x : number) : is_nan x = true <-> Prim2SF x = S754_nan.
Proof.
  unfold is_nan. rewrite FloatAxioms.eqb_spec. unfold SFeqb, SFcompare.
  destruct (Prim2SF x) as [s|s| |s m e]; simpl; try (split; congruence).
  - destruct s; simpl; split; congruence.
  - destruct s; simpl; rewrite Z.compare_refl;
      change (PosDef.Pos.compare_cont Eq) with Pos.compare;
      rewrite Pos.compare_refl; simpl; split; congruence.
Qed.


Lemma not_nan_spec (x : number) : not_nan x <-> Prim2SF x <> S754_nan.
Proof.
  unfold not_nan. rewrite <- is_nan_spec. destruct (is_nan x); split; congruence.
Qed.

Lemma fle_trans (x y z : number) : fle x y -> fle y z -> fle x z.
Proof. unfold fle. rewrite !leb_spec. apply SFleb_trans. Qed.

Lemma fle_of_not_ltb (x y : number) :
  not_nan x -> not_nan y -> PrimFloat.ltb x y = false -> fle y x.
Proof.
  unfold fle. rewrite !not_nan_spec, leb_spec, ltb_spec. apply SFleb_total.
Qed.

Lemma fle_of_ltb (x y : number) : PrimFloat.ltb x y = true -> fle x y.
Proof. unfold fle. rewrite leb_spec, ltb_spec. apply SFltb_leb. Qed.

Lemma is_zero_spec (x : number) :
  is_zero x = true <-> exists s, Prim2SF x = S754_zero s.
Proof.
  unfold is_zero. rewrite FloatAxioms.eqb_spec.
  change (Prim2SF PrimFloat.zero) with (S754_zero false).
  unfold SFeqb, SFcompare.
  destruct (Prim2SF x) as [s|[]| |[] m e]; simpl;
    (split; [try discriminate; eauto | intros [? ?]; try discriminate; reflexivity]).
Qed.

Lemma fle_zeros (x y : number) : is_zero x = true -> is_zero y = true -> fle x y.
Proof.
  rewrite !is_zero_spec. intros [sx Hx] [sy Hy]. unfold fle.
  rewrite leb_spec, Hx, Hy. reflexivity.
Qed.

Lemma fle_infinity (x : number) : fle Infinity x -> x = Infinity.
Proof.
  unfold fle. rewrite leb_spec. intros H. apply Prim2SF_inj.
  change (Prim2SF Infinity) with (S754_infinity false) in *.
  destruct (Prim2SF x) as [s|[]| |s m e]; simpl in H; try discriminate.
  reflexivity.
Qed.

Lemma fle_neg_infinity (x : number) : fle x neg_infinity -> x = neg_infinity.
Proof.
  unfold fle. rewrite leb_spec. intros H. apply Prim2SF_inj.
  change (Prim2SF neg_infinity) with (S754_infinity true) in *.
  destruct (Prim2SF x) as [s|[]| |[] m e]; simpl in H; try discriminate.
  reflexivity.
Qed.

Lemma fle_refl (x : number) : not_nan x -> fle x x.
Proof.
  rewrite not_nan_spec. unfold fle. rewrite leb_spec. unfold SFleb, SFcompare.
  destruct (Prim2SF x) as [s|[]| |[] m e]; try congruence; intros _;
    change (PosDef.Pos.compare_cont Eq) with Pos.compare;
    rewrite ?Z.compare_refl, ?Pos.compare_refl; reflexivity.
Qed.

Lemma Math_min_from_spec (xs : list number) : forall lowest,
  not_nan lowest -> Forall not_nan xs ->
  let r := Math_min_from lowest xs in
  In r (lowest :: xs) /\ fle r lowest /\ Forall (fle r) xs.
Proof.
  induction xs as [|x rest IH]; intros lowest Hl Hxs; simpl.
  - split; [auto|]. split; [|constructor].
    apply fle_refl; assumption.
  - inversion Hxs as [|? ? Hx Hrest]; subst.
    unfold not_nan in Hx. rewrite Hx.
    assert (pick_x : fle x lowest ->
              In (Math_min_from x rest) (lowest :: x :: rest) /\
              fle (Math_min_from x rest) lowest /\
              Forall (fle (Math_min_from x rest)) (x :: rest)).
    { intros Hxl. destruct (IH x Hx Hrest) as (Hin & Hle & Hall).
      split; [right; exact Hin|]. split; [eapply fle_trans; eauto|].
      constructor; assumption. }
    destruct (is_neg_zero x && is_pos_zero lowest) eqn:Hz.
    { apply pick_x. apply andb_true_iff in Hz as [Hz1 Hz2].
      apply andb_true_iff in Hz1 as [Hz1 _]. apply andb_true_iff in Hz2 as [Hz2 _].
      apply fle_zeros; assumption. }
    destruct (PrimFloat.ltb x lowest) eqn:Hlt.
    { apply pick_x. apply fle_of_ltb. exact Hlt. }
    destruct (IH lowest Hl Hrest) as (Hin & Hle & Hall).
    split; [destruct Hin as [Hin|Hin]; [left; exact Hin | right; right; exact Hin]|].
    split; [exact Hle|]. constructor; [|exact Hall].
    eapply fle_trans; [exact Hle|]. apply fle_of_not_ltb; assumption.
Qed.

Lemma Math_max_from_spec (xs : list number) : forall highest,
  not_nan highest -> Forall not_nan xs ->
  let r := Math_max_from highest xs in
  In r (highest :: xs) /\ fle highest r /\ Forall (fun x => fle x r) xs.
Proof.
  induction xs as [|x rest IH]; intros highest Hh Hxs; simpl.
  - split; [auto|]. split; [apply fle_refl; assumption | constructor].
  - inversion Hxs as [|? ? Hx Hrest]; subst.
    unfold not_nan in Hx. rewrite Hx.
    assert (pick_x : fle highest x ->
              In (Math_max_from x rest) (highest :: x :: rest) /\
              fle highest (Math_max_from x rest) /\
              Forall (fun y => fle y (Math_max_from x rest)) (x :: rest)).
    { intros Hhx. destruct (IH x Hx Hrest) as (Hin & Hle & Hall).
      split; [right; exact Hin|]. split; [eapply fle_trans; eauto|].
      constructor; assumption. }
    destruct (is_pos_zero x && is_neg_zero highest) eqn:Hz.
    { apply pick_x. apply andb_true_iff in Hz as [Hz1 Hz2].
      apply andb_true_iff in Hz1 as [Hz1 _]. apply andb_true_iff in Hz2 as [Hz2 _].
      apply fle_zeros; assumption. }
    destruct (PrimFloat.ltb highest x) eqn:Hlt.
    { apply pick_x. apply fle_of_ltb. exact Hlt. }
    destruct (IH highest Hh Hrest) as (Hin & Hle & Hall).
    split; [destruct Hin as [Hin|Hin]; [left; exact Hin | right; right; exact Hin]|].
    split; [exact Hle|]. constructor; [|exact Hall].
    eapply fle_trans; [|exact Hle]. apply fle_of_not_ltb; assumption.
Qed.

Lemma Math_min_least (xs : list number) :
  xs <> [] -> Forall not_nan xs ->
  In (Math_min xs) xs /\ Forall (fle (Math_min xs)) xs.
Proof.
  intros Hne Hxs. unfold Math_min.
  destruct (Math_min_from_spec xs Infinity eq_refl Hxs) as (Hin & _ & Hall).
  split; [|exact Hall].
  destruct Hin as [Hin|Hin]; [|exact Hin].
  destruct xs as [|x rest]; [congruence|].
  rewrite <- Hin in Hall |- *. inversion Hall as [|? ? Hx _]; subst.
  left. apply fle_infinity. exact Hx.
Qed.

Lemma Math_max_greatest (xs : list number) :
  xs <> [] -> Forall not_nan xs ->
  In (Math_max xs) xs /\ Forall (fun x => fle x (Math_max xs)) xs.
Proof.
  intros Hne Hxs. unfold Math_max.
  destruct (Math_max_from_spec xs neg_infinity eq_refl Hxs) as (Hin & _ & Hall).
  split; [|exact Hall].
  destruct Hin as [Hin|Hin]; [|exact Hin].
  destruct xs as [|x rest]; [congruence|].
  rewrite <- Hin in Hall |- *. inversion Hall as [|? ? Hx _]; subst.
  left. apply fle_neg_infinity. exact Hx.
Qed.




(** * Sums of whole numbers are exact *)















Lemma cond_Zopp_abs (z : Z) : cond_Zopp (z <? 0) (Z.abs z) = z.
Proof. unfold cond_Zopp. destruct (Z.ltb_spec z 0); lia. Qed.






(** * Division rounds to the nearest number *)




















(** Prices 100 and 110: the average is 105. *)
Lemma calculateStats_mean_example :
  SneakerStats.avg_price (calculateStats air_max [morning_100; evening_110])
  = 105%float.
Proof. reflexivity. Qed.

(** C3. With no sample of the sneaker, [calculateStats] gives its retail
    price as current, retail, minimum, maximum and average price, and 0 as
    price change and as price change percent. *)
Theorem calculateStats_no_samples
        (sneaker : Sneaker.t) (pricePoints : list PricePoint.t) :
  let stats := calculateStats sneaker pricePoints in
  sneakerPrices sneaker pricePoints = [] ->
  SneakerStats.current_price stats = Sneaker.price sneaker
  /\ SneakerStats.retail_price stats = Sneaker.price sneaker
  /\ SneakerStats.min_price stats = Sneaker.price sneaker
  /\ SneakerStats.max_price stats = Sneaker.price sneaker
  /\ SneakerStats.avg_price stats = Sneaker.price sneaker
  /\ SneakerStats.price_change stats = 0%float
  /\ SneakerStats.price_change_percent stats = 0%float.
Proof.
  intros stats Hempty. subst stats. unfold calculateStats.
  rewrite Hempty. cbn. repeat split.
Qed.


(** The fallback for a sneaker of retail price 120 whose list holds only
    another sneaker's sample. *)
Lemma calculateStats_no_samples_witness :
  let entity := ex_sneaker 1 "Air Max" (Some "Red") 120%float in
  let samples := [ex_sample "2025-01-01T02:00:00Z" 95%float 2] in
  let stats := calculateStats entity samples in
  sneakerPrices entity samples = [] /\
  calculateStats entity [] = stats /\
  SneakerStats.current_price stats = 120%float
  /\ SneakerStats.retail_price stats = 120%float
  /\ SneakerStats.min_price stats = 120%float
  /\ SneakerStats.max_price stats = 120%float
  /\ SneakerStats.avg_price stats = 120%float
  /\ SneakerStats.price_change stats = 0%float
  /\ SneakerStats.price_change_percent stats = 0%float.
Proof.
  intros entity samples stats.
  split; [reflexivity|]. split; [reflexivity|].
  exact (calculateStats_no_samples entity samples eq_refl).
Defined.

(** C4, as stated, fails: a retail price of 0 and one sample at 100 give
    [price_change_percent = Infinity], which is not the NaN sentinel. *)
Lemma zero_retail_gives_infinity :
  let entity := ex_sneaker 1 "Air Max" (Some "Red") 0%float in
  let samples := [ex_sample "2025-01-01T02:00:00Z" 100%float 1] in
  SneakerStats.price_change_percent (calculateStats entity samples) = Infinity
  /\ ~ zero_retail_sentinel.
Proof.
  intros entity samples. split; [reflexivity|].
  intros H. specialize (H entity samples eq_refl).
  assert (Hne : sneakerPrices entity samples <> []) by discriminate.
  apply H in Hne. vm_compute in Hne. discriminate.
Qed.

Lemma calculatePriceChange_zero (oldPrice newPrice : number) (s0 : bool) :
  Prim2SF oldPrice = S754_zero s0 ->
  calculatePriceChange oldPrice newPrice =
    match Prim2SF newPrice with
    | S754_finite s _ _ | S754_infinity s =>
        if xorb s s0 then neg_infinity else Infinity
    | S754_zero _ | S754_nan => NaN
    end.
Proof.
  intros H0. apply Prim2SF_inj. unfold calculatePriceChange.
  rewrite mul_spec, div_spec, sub_spec, H0.
  change (Prim2SF 100) with (S754_finite false 7036874417766400 (-46)).
  destruct (Prim2SF newPrice) as [s|s| |s m e]; 
    repeat match goal with b : bool |- _ => destruct b end; reflexivity.
Qed.

Lemma calculateStats_percent (sneaker : Sneaker.t) (pricePoints : list PricePoint.t) :
  sneakerPrices sneaker pricePoints <> [] ->
  SneakerStats.price_change_percent (calculateStats sneaker pricePoints)
  = calculatePriceChange (Sneaker.price sneaker)
      (SneakerStats.current_price (calculateStats sneaker pricePoints)).
Proof.
  intros Hne. unfold calculateStats.
  destruct (sneakerPrices sneaker pricePoints); [congruence | reflexivity].
Qed.

Lemma ltb_zero_l (x : number) :
  PrimFloat.ltb 0 x = true ->
  exists s, (Prim2SF x = S754_infinity s \/ exists m e, Prim2SF x = S754_finite s m e)
            /\ s = false.
Proof.
  rewrite ltb_spec. change (Prim2SF 0) with (S754_zero false).
  unfold SFltb, SFcompare.
  destruct (Prim2SF x) as [s|[]| |[] m e]; try discriminate; intros _;
    exists false; split; eauto.
Qed.

Lemma ltb_zero_r (x : number) :
  PrimFloat.ltb x 0 = true ->
  exists s, (Prim2SF x = S754_infinity s \/ exists m e, Prim2SF x = S754_finite s m e)
            /\ s = true.
Proof.
  rewrite ltb_spec. change (Prim2SF 0) with (S754_zero false).
  unfold SFltb, SFcompare.
  destruct (Prim2SF x) as [s|[]| |[] m e]; try discriminate; intros _;
    exists true; split; eauto.
Qed.

(** C4, amended. [calculateStats] has no guard for a zero retail price:
    with samples present, [price_change_percent] is the IEEE-754 value of
    [(current - 0) / 0 * 100]. It is NaN exactly when the current price is
    zero or NaN, and an infinity otherwise: [Infinity] for a positive
    current price over [+0], [-Infinity] for a negative one. *)
Theorem calculateStats_zero_retail
        (sneaker : Sneaker.t) (pricePoints : list PricePoint.t) :
  let stats := calculateStats sneaker pricePoints in
  let current := SneakerStats.current_price stats in
  let percent := SneakerStats.price_change_percent stats in
  is_zero (Sneaker.price sneaker) = true ->
  sneakerPrices sneaker pricePoints <> [] ->
  is_nan percent = is_nan current || is_zero current
  /\ (is_nan percent = false -> percent = Infinity \/ percent = neg_infinity)
  /\ (Sneaker.price sneaker = 0%float ->
      (PrimFloat.ltb 0 current = true -> percent = Infinity)
      /\ (PrimFloat.ltb current 0 = true -> percent = neg_infinity)).
Proof.
  intros stats current percent Hzero Hne.
  apply is_zero_spec in Hzero as [s0 H0].
  assert (Hp : percent = calculatePriceChange (Sneaker.price sneaker) current)
    by (apply calculateStats_percent; exact Hne).
  rewrite (calculatePriceChange_zero _ current s0 H0) in Hp.
  split; [|split].
  - rewrite Hp.
    destruct (Prim2SF current) as [s|s| |s m e] eqn:Hc.
    + assert (Hz : is_zero current = true) by (apply is_zero_spec; eauto).
      rewrite Hz, orb_true_r. reflexivity.
    + assert (Hn : is_nan current = false).
      { apply not_nan_spec. congruence. }
      assert (Hz : is_zero current = false).
      { destruct (is_zero current) eqn:E; [|reflexivity].
        apply is_zero_spec in E as [? E]. congruence. }
      rewrite Hn, Hz. destruct (xorb s s0); reflexivity.
    + assert (Hn : is_nan current = true) by (apply is_nan_spec; exact Hc).
      rewrite Hn. reflexivity.
    + assert (Hn : is_nan current = false).
      { apply not_nan_spec. congruence. }
      assert (Hz : is_zero current = false).
      { destruct (is_zero current) eqn:E; [|reflexivity].
        apply is_zero_spec in E as [? E]. congruence. }
      rewrite Hn, Hz. destruct (xorb s s0); reflexivity.
  - rewrite Hp. destruct (Prim2SF current) as [s|s| |s m e];
      try (intros Hn; vm_compute in Hn; discriminate);
      destruct (xorb s s0); auto.
  - intros Hpos. rewrite Hpos in H0.
    change (Prim2SF 0) with (S754_zero false) in H0.
    injection H0 as <-. split; intros Hlt.
    + apply ltb_zero_l in Hlt as (s & [Hc|(m & e & Hc)] & ->);
        rewrite Hp, Hc; reflexivity.
    + apply ltb_zero_r in Hlt as (s & [Hc|(m & e & Hc)] & ->);
        rewrite Hp, Hc; reflexivity.
Qed.

(** A retail price of 0 and a current price of 100. *)
Lemma calculateStats_zero_retail_witness :
  let entity := ex_sneaker 1 "Air Max" (Some "Red") 0%float in
  let samples := [ex_sample "2025-01-01T02:00:00Z" 100%float 1] in
  let stats := calculateStats entity samples in
  (is_zero (Sneaker.price entity) = true /\ sneakerPrices entity samples <> [])
  /\ SneakerStats.price_change_percent stats = Infinity.
Proof.
  intros entity samples stats.
  assert (Hz : is_zero (Sneaker.price entity) = true) by reflexivity.
  assert (Hne : sneakerPrices entity samples <> []) by discriminate.
  split; [split; assumption|].
  destruct (calculateStats_zero_retail entity samples Hz Hne) as (_ & _ & H).
  apply (H eq_refl). reflexivity.
Defined.

(** * Dates: a written ISO string reads back *)

Lemma civil_of_day_inverse (day : Z) :
  let '(y, m, d) := civil_of_day day in
  day_of_civil y m d = day /\ 1 <= m <= 12 /\ 1 <= d <= 31.
Proof.
  unfold civil_of_day, day_of_civil.
  set (z := day + 719468).
  set (era := z / 146097).
  set (doe := z - era * 146097).
  set (yoe := (doe - doe / 1460 + doe / 36524 - doe / 146096) / 365).
  set (doy := doe - (365 * yoe + yoe / 4 - yoe / 100)).
  set (mp := (5 * doy + 2) / 153).
  set (d := doy - (153 * mp + 2) / 5 + 1).
  assert (Hdoe : 0 <= doe <= 146096) by (subst doe era; Z.to_euclidean_division_equations; lia).
  assert (Hyoe : 0 <= yoe <= 399) by (subst yoe; Z.to_euclidean_division_equations; lia).
  assert (Hdoy : 0 <= doy <= 365).
  { subst doy yoe. Z.to_euclidean_division_equations; lia. }
  assert (Hmp : 0 <= mp <= 11) by (subst mp; Z.to_euclidean_division_equations; lia).
  assert (Hd : 1 <= d <= 31) by (subst d mp; Z.to_euclidean_division_equations; lia).
  destruct (mp <? 10) eqn:Hmp10; [apply Z.ltb_lt in Hmp10 | apply Z.ltb_ge in Hmp10].
  - replace (mp + 3 <=? 2) with false by (symmetry; apply Z.leb_gt; lia).
    replace (2 <? mp + 3) with true by (symmetry; apply Z.ltb_lt; lia).
    replace (mp + 3 - 3) with mp by lia.
    replace ((yoe + era * 400) / 400) with era by (Z.to_euclidean_division_equations; lia).
    replace (yoe + era * 400 - era * 400) with yoe by lia.
    split; [|lia]. subst d doy doe z. lia.
  - replace (mp - 9 <=? 2) with true by (symmetry; apply Z.leb_le; lia).
    replace (2 <? mp - 9) with false by (symmetry; apply Z.ltb_ge; lia).
    replace (mp - 9 + 9) with mp by lia.
    replace (yoe + era * 400 + 1 - 1) with (yoe + era * 400) by lia.
    replace ((yoe + era * 400) / 400) with era by (Z.to_euclidean_division_equations; lia).
    replace (yoe + era * 400 - era * 400) with yoe by lia.
    split; [|lia]. subst d doy doe z. lia.
Qed.

Lemma civil_of_day_valid (day : Z) :
  let '(y, m, d) := civil_of_day day in
  d <= DaysInMonth y m.
Proof.
  unfold civil_of_day.
  set (z := day + 719468).
  set (era := z / 146097).
  set (doe := z - era * 146097).
  set (yoe := (doe - doe / 1460 + doe / 36524 - doe / 146096) / 365).
  set (doy := doe - (365 * yoe + yoe / 4 - yoe / 100)).
  set (mp := (5 * doy + 2) / 153).
  set (d := doy - (153 * mp + 2) / 5 + 1).
  assert (Hdoe : 0 <= doe <= 146096) by (subst doe era; Z.to_euclidean_division_equations; lia).
  assert (Hyoe : 0 <= yoe <= 399) by (subst yoe; Z.to_euclidean_division_equations; lia).
  assert (Hdoy : 0 <= doy <= 365).
  { subst doy yoe. Z.to_euclidean_division_equations; lia. }
  assert (Hleap : doy = 365 -> (yoe + 1) mod 4 = 0 /\ ((yoe + 1) mod 100 <> 0 \/ yoe = 399)).
  { subst doy yoe. Z.to_euclidean_division_equations; lia. }
  assert (Hmp : 0 <= mp <= 11) by (subst mp; Z.to_euclidean_division_equations; lia).
  assert (Hd : 1 <= d <= 31) by (subst d mp; Z.to_euclidean_division_equations; lia).
  assert (Hmonth : (mp = 0 \/ mp = 2 \/ mp = 4 \/ mp = 5 \/ mp = 7 \/ mp = 9 \/ mp = 10) \/
                   ((mp = 1 \/ mp = 3 \/ mp = 6 \/ mp = 8) /\ d <= 30) \/
                   (mp = 11 /\ d <= 29 /\ (d = 29 -> doy = 365))).
  { subst d mp. Z.to_euclidean_division_equations; lia. }
  unfold DaysInMonth, InLeapYear.
  destruct (mp <? 10) eqn:Hmp10; [apply Z.ltb_lt in Hmp10 | apply Z.ltb_ge in Hmp10].
  - replace (mp + 3 <=? 2) with false by (symmetry; apply Z.leb_gt; lia).
    replace (mp + 3 =? 2) with false by (symmetry; apply Z.eqb_neq; lia).
    destruct ((mp + 3 =? 4) || (mp + 3 =? 6) || (mp + 3 =? 9) || (mp + 3 =? 11)) eqn:E; [|lia].
    rewrite !orb_true_iff, !Z.eqb_eq in E. lia.
  - replace (mp - 9 <=? 2) with true by (symmetry; apply Z.leb_le; lia).
    destruct (mp - 9 =? 2) eqn:E2.
    + apply Z.eqb_eq in E2.
      destruct ((((yoe + era * 400 + 1) mod 4 =? 0) &&
   negb ((yoe + era * 400 + 1) mod 100 =? 0)
   || ((yoe + era * 400 + 1) mod 400 =? 0))) eqn:L; [lia|].
      rewrite orb_false_iff, andb_false_iff, negb_false_iff, !Z.eqb_neq, Z.eqb_eq in L.
      assert (d <> 29); [|lia]. intros Hd29.
      assert (H365 : doy = 365) by lia. apply Hleap in H365.
      clear - L H365 Hyoe. Z.to_euclidean_division_equations; lia.
    + apply Z.eqb_neq in E2. 
      replace ((mp - 9 =? 4) || (mp - 9 =? 6) || (mp - 9 =? 9) || (mp - 9 =? 11)) with false; [lia|].
      symmetry. rewrite !orb_false_iff, !Z.eqb_neq. lia.
Qed.

Lemma digit_cases (P : Z -> Prop) :
  (forall k : nat, (k <= 9)%nat -> P (Z.of_nat k)) ->
  forall n, 0 <= n <= 9 -> P n.
Proof.
  intros HP n Hn. rewrite <- (Z2Nat.id n) by lia. apply HP. lia.
Qed.

Lemma digit_val_digit (n : Z) : 0 <= n <= 9 -> digit_val (digit n) = Some n.
Proof.
  revert n. apply digit_cases. intros k Hk.
  do 10 (destruct k as [|k]; [reflexivity|]). lia.
Qed.

Lemma read_digits_pad (w : nat) : forall n acc rest,
  read_digits w acc (pad w n ++ rest)
  = Some (acc * 10 ^ Z.of_nat w + n mod 10 ^ Z.of_nat w, rest).
Proof.
  induction w as [|w IH]; intros n acc rest.
  - simpl. rewrite Z.mod_1_r. do 2 f_equal. lia.
  - cbn [pad read_digits append].
    rewrite digit_val_digit
      by (pose proof (Z.mod_pos_bound (n / 10 ^ Z.of_nat w) 10); lia).
    rewrite IH. do 2 f_equal.
    rewrite Nat2Z.inj_succ, Z.pow_succ_r by lia.
    rewrite (Z.mul_comm 10 (10 ^ Z.of_nat w)).
    rewrite (Z.rem_mul_r n (10 ^ Z.of_nat w) 10) by lia.
    ring.
Qed.

Lemma read_digits_pad_small (w : nat) (n : Z) (rest : string) :
  0 <= n < 10 ^ Z.of_nat w ->
  read_digits w 0 (pad w n ++ rest) = Some (n, rest).
Proof.
  intros H. rewrite read_digits_pad, Z.mod_small by exact H. reflexivity.
Qed.

Lemma read_year_digit (k : Z) (rest : string) :
  0 <= k <= 9 ->
  read_year (String (digit k) rest) = read_digits 4 0 (String (digit k) rest).
Proof.
  revert k. apply digit_cases. intros k Hk.
  do 10 (destruct k as [|k]; [reflexivity|]). lia.
Qed.

Lemma read_year_year_string (y : Z) (rest : string) :
  -999999 <= y <= 999999 ->
  read_year (year_string y ++ rest) = Some (y, rest).
Proof.
  intros Hy. unfold year_string.
  destruct ((0 <=? y) && (y <=? 9999)) eqn:Hsmall.
  - apply andb_true_iff in Hsmall as [H0 H1].
    apply Z.leb_le in H0. apply Z.leb_le in H1.
    pose proof (read_digits_pad_small 4 y rest) as Hr.
    change (pad 4 y ++ rest) with
      (String (digit ((y / 10 ^ Z.of_nat 3) mod 10)) (pad 3 y ++ rest)) in *.
    rewrite read_year_digit
      by (pose proof (Z.mod_pos_bound (y / 10 ^ Z.of_nat 3) 10); lia).
    apply Hr. simpl. lia.
  - apply andb_false_iff in Hsmall.
    rewrite Z.leb_gt, Z.leb_gt in Hsmall.
    destruct (y <? 0) eqn:Hneg.
    + apply Z.ltb_lt in Hneg.
      change (("-" ++ pad 6 (Z.abs y)) ++ rest) with
        (String "-" (pad 6 (Z.abs y) ++ rest)).
      cbn [read_year].
      rewrite read_digits_pad_small by (simpl; lia).
      replace (Z.abs y =? 0) with false by (symmetry; apply Z.eqb_neq; lia).
      do 2 f_equal. lia.
    + apply Z.ltb_ge in Hneg.
      change (("+" ++ pad 6 (Z.abs y)) ++ rest) with
        (String "+" (pad 6 (Z.abs y) ++ rest)).
      cbn [read_year].
      rewrite read_digits_pad_small by (simpl; lia).
      do 2 f_equal. lia.
Qed.

Lemma expect_here (c : ascii) (rest : string) : expect c (String c rest) = Some rest.
Proof. simpl. rewrite Ascii.eqb_refl. reflexivity. Qed.

Lemma civil_of_day_year (day : Z) :
  -100000000 <= day <= 100000000 ->
  -999999 <= fst (fst (civil_of_day day)) <= 999999.
Proof.
  intros H. unfold civil_of_day. cbn [fst].
  set (z := day + 719468).
  set (era := z / 146097).
  set (doe := z - era * 146097).
  set (yoe := (doe - doe / 1460 + doe / 36524 - doe / 146096) / 365).
  assert (Hera : -700 <= era <= 700) by (subst era z; Z.to_euclidean_division_equations; lia).
  assert (Hdoe : 0 <= doe <= 146096) by (subst doe era; Z.to_euclidean_division_equations; lia).
  assert (Hyoe : 0 <= yoe <= 399) by (subst yoe; Z.to_euclidean_division_equations; lia).
  match goal with |- context [if ?b then _ else _] => destruct b end; lia.
Qed.

Lemma parseISO_iso_string (t : Z) :
  Z.abs t <= maxTime -> parseISO (iso_string t) = Some t.
Proof.
  intros Ht. unfold maxTime in Ht.
  assert (Hday : -100000000 <= Day t <= 100000000).
  { unfold Day, msPerDay. Z.to_euclidean_division_equations; lia. }
  pose proof (civil_of_day_year (Day t) Hday) as Hyear.
  pose proof (civil_of_day_inverse (Day t)) as Hinv.
  pose proof (civil_of_day_valid (Day t)) as Hvalid.
  unfold iso_string.
  destruct (civil_of_day (Day t)) as [[y m] d]. cbn [fst] in Hyear.
  destruct Hinv as (Hback & Hm & Hd).
  set (ms := TimeWithinDay t).
  assert (Hms : 0 <= ms < 86400000).
  { subst ms. unfold TimeWithinDay, msPerDay. apply Z.mod_pos_bound. lia. }
  unfold parseISO.
  rewrite read_year_year_string by exact Hyear.
  change ("-" ++ ?x) with (String "-" x). rewrite expect_here.
  rewrite read_digits_pad_small by (simpl; lia).
  change ("-" ++ ?x) with (String "-" x). rewrite expect_here.
  rewrite read_digits_pad_small by (simpl; lia).
  change ("T" ++ ?x) with (String "T" x). rewrite expect_here.
  rewrite read_digits_pad_small by (simpl; Z.to_euclidean_division_equations; lia).
  change (":" ++ ?x) with (String ":" x). rewrite expect_here.
  rewrite read_digits_pad_small by (simpl; Z.to_euclidean_division_equations; lia).
  change (":" ++ ?x) with (String ":" x). rewrite expect_here.
  rewrite read_digits_pad_small by (simpl; Z.to_euclidean_division_equations; lia).
  change ("." ++ ?x) with (String "." x). cbn [read_millis].
  pose proof (read_digits_pad_small 3 (ms mod 1000) "Z") as Hr.
  rewrite Hr by (simpl; Z.to_euclidean_division_equations; lia).
  rewrite expect_here.
  rewrite Hback.
  assert (Htime : ms / 3600000 * 3600000 + (ms / 60000) mod 60 * 60000
                  + (ms / 1000) mod 60 * 1000 + ms mod 1000 = ms).
  { Z.to_euclidean_division_equations; lia. }
  rewrite Htime.
  assert (Hmake : MakeDate (Day t) ms = t).
  { subst ms. unfold MakeDate, Day, TimeWithinDay, msPerDay.
    Z.to_euclidean_division_equations; lia. }
  rewrite Hmake.
  replace (String.eqb "" "") with true by reflexivity.
  replace (1 <=? m) with true by (symmetry; apply Z.leb_le; lia).
  replace (m <=? 12) with true by (symmetry; apply Z.leb_le; lia).
  replace (1 <=? d) with true by (symmetry; apply Z.leb_le; lia).
  replace (d <=? DaysInMonth y m) with true by (symmetry; apply Z.leb_le; lia).
  replace (ms / 3600000 <? 24) with true
    by (symmetry; apply Z.ltb_lt; Z.to_euclidean_division_equations; lia).
  replace ((ms / 60000) mod 60 <? 60) with true
    by (symmetry; apply Z.ltb_lt; Z.to_euclidean_division_equations; lia).
  replace ((ms / 1000) mod 60 <? 60) with true
    by (symmetry; apply Z.ltb_lt; Z.to_euclidean_division_equations; lia).
  replace (Z.abs t <=? maxTime) with true
    by (symmetry; apply Z.leb_le; unfold maxTime; lia).
  reflexivity.
Qed.

(** * Insertion-ordered maps *)

Section MapFacts.
Context {K V : Type} (eqb : K -> K -> bool).
Hypothesis eqb_eq : forall a b, eqb a b = true <-> a = b.


Lemma eqb_same (k : K) : eqb k k = true.
Proof. apply eqb_eq. reflexivity. Qed.

Lemma eqb_other (a b : K) : a <> b -> eqb a b = false.
Proof.
  intros H. destruct (eqb a b) eqn:E; [|reflexivity].
  apply eqb_eq in E. contradiction.
Qed.

Lemma Map_get_set_same (k : K) (v : V) (m : list (K * V)) :
  Map_get eqb k (Map_set eqb k v m) = Some v.
Proof.
  induction m as [|[k' v'] rest IH]; simpl.
  - rewrite eqb_same. reflexivity.
  - destruct (eqb k' k) eqn:E; simpl; rewrite E; [reflexivity | exact IH].
Qed.

Lemma Map_get_set_other (k k' : K) (v : V) (m : list (K * V)) :
  k' <> k -> Map_get eqb k' (Map_set eqb k v m) = Map_get eqb k' m.
Proof.
  intros Hne. induction m as [|[k0 v0] rest IH]; simpl.
  - rewrite eqb_other by congruence. reflexivity.
  - destruct (eqb k0 k) eqn:E; simpl.
    + apply eqb_eq in E. subst k0.
      rewrite eqb_other by congruence. reflexivity.
    + rewrite IH. reflexivity.
Qed.

Lemma Map_set_set (k : K) (v v' : V) (m : list (K * V)) :
  Map_set eqb k v' (Map_set eqb k v m) = Map_set eqb k v' m.
Proof.
  induction m as [|[k0 v0] rest IH]; simpl.
  - rewrite eqb_same. reflexivity.
  - destruct (eqb k0 k) eqn:E; simpl; rewrite E; [reflexivity|].
    rewrite IH. reflexivity.
Qed.

Lemma Map_get_In (k : K) (v : V) (m : list (K * V)) :
  Map_get eqb k m = Some v -> In (k, v) m.
Proof.
  induction m as [|[k0 v0] rest IH]; simpl; [discriminate|].
  destruct (eqb k0 k) eqn:E.
  - apply eqb_eq in E. intros [= <-]. left. congruence.
  - intros H. right. apply IH. exact H.
Qed.

Lemma In_Map_get (k : K) (v : V) (m : list (K * V)) :
  NoDup (keys m) -> In (k, v) m -> Map_get eqb k m = Some v.
Proof.
  induction m as [|[k0 v0] rest IH]; simpl; [contradiction|].
  intros Hnd Hin. inversion Hnd as [|? ? Hnotin Hnd']; subst.
  destruct Hin as [[= -> ->] | Hin].
  - rewrite eqb_same. reflexivity.
  - destruct (eqb k0 k) eqn:E.
    + apply eqb_eq in E. subst k0. exfalso. apply Hnotin.
      apply (in_map fst) in Hin. exact Hin.
    + apply IH; assumption.
Qed.

Lemma Map_get_None (k : K) (m : list (K * V)) :
  Map_get eqb k m = None <-> ~ In k (keys m).
Proof.
  induction m as [|[k0 v0] rest IH]; simpl; [tauto|].
  destruct (eqb k0 k) eqn:E.
  - apply eqb_eq in E. split; [discriminate | intros H; exfalso; apply H; auto].
  - rewrite IH. split.
    + intros H [H1|H1]; [|tauto]. subst k0. rewrite eqb_same in E. discriminate.
    + tauto.
Qed.

Lemma keys_Map_set (k : K) (v : V) (m : list (K * V)) :
  keys (Map_set eqb k v m)
  = if Map_has eqb k m then keys m else (keys m ++ [k])%list.
Proof.
  unfold Map_has. induction m as [|[k0 v0] rest IH]; simpl; [reflexivity|].
  destruct (eqb k0 k) eqn:E; simpl; [reflexivity|].
  rewrite IH. destruct (Map_get eqb k rest); reflexivity.
Qed.

Lemma NoDup_keys_Map_set (k : K) (v : V) (m : list (K * V)) :
  NoDup (keys m) -> NoDup (keys (Map_set eqb k v m)).
Proof.
  intros Hnd. rewrite keys_Map_set. unfold Map_has.
  destruct (Map_get eqb k m) eqn:E; [exact Hnd|].
  apply Map_get_None in E.
  apply NoDup_rev in Hnd. rewrite <- (rev_involutive (keys m ++ [k])).
  apply NoDup_rev. rewrite rev_app_distr. simpl. constructor; [|exact Hnd].
  rewrite <- in_rev. exact E.
Qed.

End MapFacts.

(** * The grouping loop *)

Lemma string_eqb_eq (a b : string) : String.eqb a b = true <-> a = b.
Proof. apply String.eqb_eq. Qed.

Lemma last_opt_cons {A} (x : A) (l : list A) :
  last_opt (x :: l) = match last_opt l with Some y => Some y | None => Some x end.
Proof.
  unfold last_opt. destruct l as [|y l]; [reflexivity|].
  change (map Some (x :: y :: l)) with (Some x :: map Some (y :: l)).
  change (last (Some x :: map Some (y :: l)) None)
    with (last (map Some (y :: l)) None).
  destruct (exists_last (l := y :: l)) as (front & z & E); [discriminate|].
  rewrite E, map_app. simpl. rewrite last_last. reflexivity.
Qed.

Lemma last_opt_In {A} (x : A) (l : list A) : last_opt l = Some x -> In x l.
Proof.
  induction l as [|y l IH]; [discriminate|].
  rewrite last_opt_cons. destruct (last_opt l) as [z|].
  - intros [= ->]. right. apply IH. reflexivity.
  - intros [= ->]. left. reflexivity.
Qed.

Lemma last_opt_None {A} (l : list A) : last_opt l = None -> l = [].
Proof.
  destruct l as [|y l]; [reflexivity|]. rewrite last_opt_cons.
  destruct (last_opt l); discriminate.
Qed.

Lemma TimeClip_range (d : option Z) (t : Z) :
  TimeClip d = Some t -> d = Some t /\ Z.abs t <= maxTime.
Proof.
  destruct d as [t'|]; simpl; [|discriminate].
  destruct (Z.abs t' <=? maxTime) eqn:E; [|discriminate].
  intros [= ->]. apply Z.leb_le in E. auto.
Qed.

Lemma setUTCHours0_valid (t : Z) :
  Z.abs t <= maxTime ->
  setUTCHours0 (Some t) = Some (MakeDate (Day t) 0)
  /\ Z.abs (MakeDate (Day t) 0) <= maxTime.
Proof.
  intros Ht. unfold setUTCHours0, TimeClip.
  assert (H : Z.abs (MakeDate (Day t) 0) <= maxTime).
  { unfold MakeDate, Day, msPerDay, maxTime in *.
    Z.to_euclidean_division_equations; lia. }
  apply Z.leb_le in H. rewrite H. apply Z.leb_le in H. auto.
Qed.

Lemma iso_string_inj (a b : Z) :
  Z.abs a <= maxTime -> Z.abs b <= maxTime ->
  iso_string a = iso_string b -> a = b.
Proof.
  intros Ha Hb E. apply parseISO_iso_string in Ha, Hb.
  rewrite E in Ha. congruence.
Qed.

Lemma Z_eqb_eq (a b : Z) : Z.eqb a b = true <-> a = b.
Proof. apply Z.eqb_eq. Qed.

Lemma lookup_group_at_same (k : string) (id : Z) (v : number) (G : grouped_t) :
  lookup k id (group_at k id v G) = Some v.
Proof.
  unfold lookup, group_at.
  rewrite (Map_get_set_same String.eqb string_eqb_eq).
  apply (Map_get_set_same Z.eqb Z_eqb_eq).
Qed.

Lemma lookup_group_at_other (k k' : string) (id id' : Z) (v : number)
      (G : grouped_t) :
  k' <> k \/ id' <> id ->
  lookup k' id' (group_at k id v G) = lookup k' id' G.
Proof.
  intros Hne. unfold lookup, group_at.
  destruct (String.eqb_spec k' k) as [->|Hk].
  - destruct Hne as [Hne|Hne]; [congruence|].
    rewrite (Map_get_set_same String.eqb string_eqb_eq).
    rewrite (Map_get_set_other Z.eqb Z_eqb_eq) by exact Hne.
    destruct (Map_get String.eqb k G); reflexivity.
  - rewrite (Map_get_set_other String.eqb string_eqb_eq) by exact Hk.
    reflexivity.
Qed.

Lemma Map_has_group_at (k k' : string) (id : Z) (v : number) (G : grouped_t) :
  Map_has String.eqb k' (group_at k id v G)
  = String.eqb k' k || Map_has String.eqb k' G.
Proof.
  unfold Map_has, group_at.
  destruct (String.eqb_spec k' k) as [->|Hk].
  - rewrite (Map_get_set_same String.eqb string_eqb_eq). reflexivity.
  - rewrite (Map_get_set_other String.eqb string_eqb_eq) by exact Hk.
    reflexivity.
Qed.

Lemma wf_grouped_group_at (k : string) (id : Z) (v : number) (G : grouped_t) :
  wf_grouped G -> wf_grouped (group_at k id v G).
Proof.
  intros [Hkeys Hinner]. split.
  - apply (NoDup_keys_Map_set String.eqb string_eqb_eq). exact Hkeys.
  - intros k' pm. unfold group_at.
    destruct (String.eqb_spec k' k) as [->|Hk].
    + rewrite (Map_get_set_same String.eqb string_eqb_eq). intros [= <-].
      apply (NoDup_keys_Map_set Z.eqb Z_eqb_eq).
      destruct (Map_get String.eqb k G) as [pm0|] eqn:E.
      * apply (Hinner k). exact E.
      * constructor.
    + rewrite (Map_get_set_other String.eqb string_eqb_eq) by exact Hk.
      apply Hinner.
Qed.

Lemma wf_grouped_nil : wf_grouped [].
Proof. split; [constructor | discriminate]. Qed.

Section EngineFacts.
Variable engine_parse : string -> option Z.

Lemma new_Date_range (s : string) (t : Z) :
  new_Date engine_parse s = Some t -> Z.abs t <= maxTime.
Proof. unfold new_Date. intros H. apply TimeClip_range in H. tauto. Qed.

Lemma new_Date_iso_string (t : Z) :
  Z.abs t <= maxTime -> new_Date engine_parse (iso_string t) = Some t.
Proof.
  intros Ht. unfold new_Date, Date_parse.
  rewrite parseISO_iso_string by exact Ht. simpl.
  apply Z.leb_le in Ht. rewrite Ht. reflexivity.
Qed.

Lemma bucket_date_spec (p : PricePoint.t) :
  bucket_date engine_parse p
  = match new_Date engine_parse (PricePoint.timestamp p) with
    | Some t => Some (MakeDate (Day t) 0)
    | None => None
    end.
Proof.
  unfold bucket_date.
  destruct (new_Date engine_parse (PricePoint.timestamp p)) as [t|] eqn:E;
    [|reflexivity].
  apply new_Date_range in E. apply setUTCHours0_valid in E. tauto.
Qed.

Lemma bucket_date_range (p : PricePoint.t) (b : Z) :
  bucket_date engine_parse p = Some b -> Z.abs b <= maxTime.
Proof.
  rewrite bucket_date_spec.
  destruct (new_Date engine_parse (PricePoint.timestamp p)) as [t|] eqn:E;
    [|discriminate].
  intros [= <-]. apply new_Date_range in E. apply setUTCHours0_valid in E. tauto.
Qed.

Lemma normalizeTimestamp_spec (p : PricePoint.t) :
  normalizeTimestamp engine_parse (PricePoint.timestamp p)
  = toISOString (bucket_date engine_parse p).
Proof. reflexivity. Qed.

Lemma group_point_spec (grouped : grouped_t) (p : PricePoint.t) :
  group_point engine_parse grouped p
  = match bucket_date engine_parse p with
    | Some b =>
        Normal (group_at (iso_string b) (PricePoint.sneaker_id p)
                         (PricePoint.price p) grouped)
    | None => Throw (RangeError "Invalid time value")
    end.
Proof.
  unfold group_point. rewrite normalizeTimestamp_spec.
  destruct (bucket_date engine_parse p) as [b|]; [|reflexivity].
  cbn [toISOString bind]. unfold group_at, Map_has.
  destruct (Map_get String.eqb (iso_string b) grouped) as [pm|] eqn:E.
  - rewrite E. reflexivity.
  - rewrite (Map_get_set_same String.eqb string_eqb_eq).
    rewrite (Map_set_set String.eqb string_eqb_eq). reflexivity.
Qed.


Lemma forEach_group_cons (p : PricePoint.t) (rest : list PricePoint.t)
      (G0 G : grouped_t) :
  forEach (group_point engine_parse) (p :: rest) G0 = Normal G ->
  exists b,
    bucket_date engine_parse p = Some b /\
    forEach (group_point engine_parse) rest
            (group_at (iso_string b) (PricePoint.sneaker_id p)
                      (PricePoint.price p) G0) = Normal G.
Proof.
  cbn [forEach]. rewrite group_point_spec.
  destruct (bucket_date engine_parse p) as [b|]; [|discriminate].
  cbn [bind]. eauto.
Qed.

Lemma forEach_group_valid (S : list PricePoint.t) : forall G0 G,
  forEach (group_point engine_parse) S G0 = Normal G ->
  forall p, In p S -> exists b, bucket_date engine_parse p = Some b.
Proof.
  induction S as [|q rest IH]; intros G0 G H p Hin; [contradiction|].
  apply forEach_group_cons in H as (b & Hb & H).
  destruct Hin as [<-|Hin]; [eauto|]. eapply IH; eauto.
Qed.

Lemma forEach_group_total (S : list PricePoint.t) : forall G0,
  (forall p, In p S -> bucket_date engine_parse p <> None) ->
  exists G, forEach (group_point engine_parse) S G0 = Normal G.
Proof.
  induction S as [|q rest IH]; intros G0 Hvalid; [simpl; eauto|].
  cbn [forEach]. rewrite group_point_spec.
  destruct (bucket_date engine_parse q) as [b|] eqn:E.
  - cbn [bind]. apply IH. intros p Hp. apply Hvalid. right. exact Hp.
  - exfalso. apply (Hvalid q); [left; reflexivity | exact E].
Qed.

Lemma forEach_group_throw (S : list PricePoint.t) : forall G0 p,
  In p S -> bucket_date engine_parse p = None ->
  forEach (group_point engine_parse) S G0
  = Throw (RangeError "Invalid time value").
Proof.
  induction S as [|q rest IH]; intros G0 p Hin Hp; [contradiction|].
  cbn [forEach]. rewrite group_point_spec.
  destruct (bucket_date engine_parse q) as [b|] eqn:E.
  - cbn [bind]. destruct Hin as [->|Hin]; [congruence|]. eapply IH; eauto.
  - reflexivity.
Qed.

Lemma forEach_group_wf (S : list PricePoint.t) : forall G0 G,
  forEach (group_point engine_parse) S G0 = Normal G ->
  wf_grouped G0 -> wf_grouped G.
Proof.
  induction S as [|q rest IH]; intros G0 G H Hwf.
  - injection H as <-. exact Hwf.
  - apply forEach_group_cons in H as (b & Hb & H).
    eapply IH; [exact H|]. apply wf_grouped_group_at. exact Hwf.
Qed.

Lemma in_bucket_true (day id : Z) (p : PricePoint.t) :
  in_bucket engine_parse day id p = true <->
  PricePoint.sneaker_id p = id /\ bucket_date engine_parse p = Some day.
Proof.
  unfold in_bucket. rewrite andb_true_iff, Z.eqb_eq.
  destruct (bucket_date engine_parse p) as [b|].
  - rewrite Z.eqb_eq. split; intros [H1 H2]; split; congruence.
  - split; intros [H1 H2]; discriminate.
Qed.

Lemma forEach_group_lookup (S : list PricePoint.t) : forall G0 G,
  forEach (group_point engine_parse) S G0 = Normal G ->
  forall day id, Z.abs day <= maxTime ->
    lookup (iso_string day) id G
    = match last_opt (filter (in_bucket engine_parse day id) S) with
      | Some q => Some (PricePoint.price q)
      | None => lookup (iso_string day) id G0
      end.
Proof.
  induction S as [|p rest IH]; intros G0 G H day id Hday.
  - injection H as <-. reflexivity.
  - apply forEach_group_cons in H as (b & Hb & H).
    rewrite (IH _ _ H day id Hday). cbn [filter].
    destruct (in_bucket engine_parse day id p) eqn:Hin.
    + rewrite last_opt_cons.
      destruct (last_opt (filter (in_bucket engine_parse day id) rest));
        [reflexivity|].
      apply in_bucket_true in Hin as [<- Hd].
      assert (b = day) by congruence. subst b.
      apply lookup_group_at_same.
    + destruct (last_opt (filter (in_bucket engine_parse day id) rest));
        [reflexivity|].
      apply lookup_group_at_other.
      destruct (Z.eq_dec id (PricePoint.sneaker_id p)) as [->|Hid]; [|auto].
      left. intros Hk. apply iso_string_inj in Hk;
        [|exact Hday | eapply bucket_date_range; exact Hb].
      subst b. assert (in_bucket engine_parse day (PricePoint.sneaker_id p) p = true).
      { apply in_bucket_true. auto. }
      congruence.
Qed.

Lemma forEach_group_has (S : list PricePoint.t) : forall G0 G,
  forEach (group_point engine_parse) S G0 = Normal G ->
  forall k, Map_has String.eqb k G = true <->
            Map_has String.eqb k G0 = true
            \/ exists p b, In p S /\ bucket_date engine_parse p = Some b
                           /\ k = iso_string b.
Proof.
  induction S as [|p rest IH]; intros G0 G H k.
  - injection H as <-. split; [auto|]. intros [H|(p & b & [] & _)]. exact H.
  - apply forEach_group_cons in H as (b & Hb & H).
    rewrite (IH _ _ H k), Map_has_group_at, orb_true_iff, String.eqb_eq.
    split.
    + intros [[->|Hk]|(q & c & Hq & Hc & ->)].
      * right. exists p, b. simpl. auto.
      * left. exact Hk.
      * right. exists q, c. simpl. auto.
    + intros [Hk|(q & c & [<-|Hq] & Hc & ->)].
      * left. right. exact Hk.
      * left. left. congruence.
      * right. exists q, c. auto.
Qed.

End EngineFacts.

(** * Building a row *)

Lemma contains_append (c : ascii) (a rest : string) :
  contains c (a ++ String c rest) = true.
Proof.
  induction a as [|c' a IH]; simpl.
  - rewrite Ascii.eqb_refl. reflexivity.
  - rewrite IH. apply orb_true_r.
Qed.

Lemma series_label_not_timestamp (sneaker : Sneaker.t) :
  series_label sneaker <> "timestamp".
Proof.
  unfold series_label. intros H.
  pose proof (contains_append " " (Sneaker.name sneaker)
                ("- " ++ template_string (Sneaker.colorway sneaker))) as Hc.
  change (Sneaker.name sneaker
          ++ String " " ("- " ++ template_string (Sneaker.colorway sneaker)))
    with (Sneaker.name sneaker ++ " - "
          ++ template_string (Sneaker.colorway sneaker)) in Hc.
  rewrite H in Hc. discriminate.
Qed.

Lemma obj_get_add_price (sneakers : list Sneaker.t) (label : string)
      (row : ChartData) (entry : Z * number) :
  obj_get label (add_price sneakers row entry)
  = if resolves sneakers label entry then Some (VNumber (snd entry))
    else obj_get label row.
Proof.
  unfold add_price, resolves. destruct entry as [id v]. cbn [fst snd].
  destruct (find (fun s => Sneaker.sneaker_id s =? id) sneakers) as [e|];
    [|reflexivity].
  unfold obj_get, obj_set.
  destruct (String.eqb_spec (series_label e) label) as [->|Hne].
  - apply (Map_get_set_same String.eqb string_eqb_eq).
  - apply (Map_get_set_other String.eqb string_eqb_eq). congruence.
Qed.

Lemma row_value (sneakers : list Sneaker.t) (label : string)
      (priceMap : list (Z * number)) : forall row,
  obj_get label (fold_left (add_price sneakers) priceMap row)
  = match last_opt (filter (resolves sneakers label) priceMap) with
    | Some entry => Some (VNumber (snd entry))
    | None => obj_get label row
    end.
Proof.
  induction priceMap as [|entry rest IH]; intros row; [reflexivity|].
  cbn [fold_left filter]. rewrite IH, obj_get_add_price.
  destruct (resolves sneakers label entry).
  - rewrite last_opt_cons.
    destruct (last_opt (filter (resolves sneakers label) rest)); reflexivity.
  - reflexivity.
Qed.

Lemma resolves_timestamp (sneakers : list Sneaker.t) (entry : Z * number) :
  resolves sneakers "timestamp" entry = false.
Proof.
  unfold resolves.
  destruct (find (fun s => Sneaker.sneaker_id s =? fst entry) sneakers) as [e|];
    [|reflexivity].
  apply String.eqb_neq. apply series_label_not_timestamp.
Qed.

Lemma filter_none_in {A} (f : A -> bool) (l : list A) :
  (forall x, In x l -> f x = false) -> filter f l = [].
Proof.
  induction l as [|x l IH]; intros H; simpl; [reflexivity|].
  rewrite H by (left; reflexivity). apply IH. intros y Hy. apply H. right. exact Hy.
Qed.

Lemma filter_none {A} (f : A -> bool) (l : list A) :
  (forall x, f x = false) -> filter f l = [].
Proof.
  intros H. induction l as [|x l IH]; simpl; [reflexivity|].
  rewrite H. exact IH.
Qed.

Section RowFacts.
Variable engine_parse : string -> option Z.
Variable sneakers : list Sneaker.t.

Lemma chart_row_timestamp (k : string) (priceMap : list (Z * number)) :
  timestamp (chart_row engine_parse sneakers (k, priceMap))
  = new_Date engine_parse k.
Proof.
  unfold timestamp, chart_row. rewrite row_value.
  rewrite filter_none by apply resolves_timestamp. reflexivity.
Qed.

Lemma chart_row_value (k label : string) (priceMap : list (Z * number)) :
  label <> "timestamp" ->
  obj_get label (chart_row engine_parse sneakers (k, priceMap))
  = match last_opt (filter (resolves sneakers label) priceMap) with
    | Some entry => Some (VNumber (snd entry))
    | None => None
    end.
Proof.
  intros Hl. unfold chart_row. rewrite row_value.
  destruct (last_opt (filter (resolves sneakers label) priceMap));
    [reflexivity|].
  unfold obj_get. cbn [Map_get]. apply String.eqb_neq in Hl.
  rewrite String.eqb_sym, Hl. reflexivity.
Qed.

Lemma filter_key_NoDup (id : Z) (v : number) (priceMap : list (Z * number)) :
  NoDup (keys priceMap) -> Map_get Z.eqb id priceMap = Some v ->
  filter (fun entry => fst entry =? id) priceMap = [(id, v)].
Proof.
  induction priceMap as [|[id' v'] rest IH]; simpl; [discriminate|].
  intros Hnd. inversion Hnd as [|? ? Hnotin Hnd']; subst.
  destruct (id' =? id) eqn:E.
  - apply Z.eqb_eq in E. subst id'. intros [= ->].
    f_equal. apply filter_none_in. intros [id' v'] Hin. simpl.
    apply Z.eqb_neq. intros ->. apply Hnotin.
    apply (in_map fst) in Hin. exact Hin.
  - intros H. apply IH; assumption.
Qed.
End RowFacts.

(** * Sorting the rows *)

Section SortFacts.
Context {A : Type} (comparefn : A -> A -> option Z).
Variable rank : A -> Z.
Variable ranked : A -> Prop.
Hypothesis comparefn_rank :
  forall a b, ranked a -> ranked b -> comparefn a b = Some (rank a - rank b).

Lemma sort_insert_perm (a : A) (l : list A) :
  Permutation (sort_insert comparefn a l) (a :: l).
Proof.
  induction l as [|b l IH]; simpl; [reflexivity|].
  destruct (sort_le comparefn a b); [reflexivity|].
  rewrite IH. apply perm_swap.
Qed.

Lemma sort_perm (l : list A) : Permutation (sort comparefn l) l.
Proof.
  induction l as [|a l IH]; simpl; [reflexivity|].
  rewrite sort_insert_perm. constructor. exact IH.
Qed.

Lemma sort_insert_sorted (a : A) (l : list A) :
  ranked a -> Forall ranked l ->
  StronglySorted (fun x y => rank x <= rank y) l ->
  StronglySorted (fun x y => rank x <= rank y) (sort_insert comparefn a l).
Proof.
  intros Ha. induction l as [|b l IH]; intros Hl Hs; simpl.
  - constructor; constructor.
  - inversion Hl as [|? ? Hb Hl']; subst.
    inversion Hs as [|? ? Hs' Hall]; subst.
    unfold sort_le. rewrite (comparefn_rank a b Ha Hb).
    destruct (rank a - rank b <=? 0) eqn:E.
    + apply Z.leb_le in E. constructor; [exact Hs|].
      constructor; [lia|].
      eapply Forall_impl; [|exact Hall]. simpl. intros; lia.
    + apply Z.leb_gt in E. constructor; [apply IH; assumption|].
      eapply Permutation_Forall; [symmetry; apply sort_insert_perm|].
      constructor; [lia | exact Hall].
Qed.

Lemma sort_sorted (l : list A) :
  Forall ranked l ->
  StronglySorted (fun x y => rank x <= rank y) (sort comparefn l).
Proof.
  induction l as [|a l IH]; intros Hl; simpl; [constructor|].
  inversion Hl as [|? ? Ha Hl']; subst.
  apply sort_insert_sorted; [exact Ha | | apply IH; exact Hl'].
  eapply Permutation_Forall; [symmetry; apply sort_perm | exact Hl'].
Qed.
End SortFacts.

Lemma sorted_NoDup_strict {A} (rank : A -> Z) (l : list A) :
  StronglySorted (fun x y => rank x <= rank y) l ->
  NoDup (map rank l) ->
  StronglySorted (fun x y => rank x < rank y) l.
Proof.
  induction 1 as [|a l Hs IH Hall]; intros Hnd; [constructor|].
  simpl in Hnd. inversion Hnd as [|? ? Hnotin Hnd']; subst.
  constructor; [apply IH; exact Hnd'|].
  rewrite Forall_forall in Hall |- *. intros x Hx.
  specialize (Hall x Hx).
  assert (rank x <> rank a); [|lia].
  intros E. apply Hnotin. rewrite <- E. apply in_map. exact Hx.
Qed.

Lemma filter_unique {A} (rank : A -> Z) (x : A) (l : list A) :
  NoDup (map rank l) -> In x l ->
  filter (fun y => rank y =? rank x) l = [x].
Proof.
  induction l as [|a l IH]; intros Hnd Hin; [contradiction|].
  simpl in Hnd. inversion Hnd as [|? ? Hnotin Hnd']; subst. simpl.
  destruct Hin as [->|Hin].
  - rewrite Z.eqb_refl. f_equal. apply filter_none_in. intros y Hy.
    apply Z.eqb_neq. intros E. apply Hnotin. rewrite <- E. apply in_map. exact Hy.
  - replace (rank a =? rank x) with false; [apply IH; assumption|].
    symmetry. apply Z.eqb_neq. intros E. apply Hnotin. rewrite E.
    apply in_map. exact Hin.
Qed.

Lemma NoDup_map_in {A B} (f : A -> B) (l : list A) :
  (forall x y, In x l -> In y l -> f x = f y -> x = y) ->
  NoDup l -> NoDup (map f l).
Proof.
  induction l as [|a l IH]; intros Hinj Hnd; simpl; [constructor|].
  inversion Hnd as [|? ? Hnotin Hnd']; subst. constructor.
  - intros Hin. apply in_map_iff in Hin as (x & Hx & Hin).
    apply Hnotin. rewrite <- (Hinj x a); auto using in_eq, in_cons.
  - apply IH; [|exact Hnd']. intros x y Hx Hy. apply Hinj; right; assumption.
Qed.

Lemma StronglySorted_map {A B} (f : A -> B) (R : B -> B -> Prop) (l : list A) :
  StronglySorted (fun x y => R (f x) (f y)) l -> StronglySorted R (map f l).
Proof.
  induction 1 as [|a l Hs IH Hall]; simpl; constructor; [exact IH|].
  rewrite Forall_forall in Hall |- *. intros y Hy.
  apply in_map_iff in Hy as (x & <- & Hx). apply Hall. exact Hx.
Qed.

Lemma StronglySorted_lt_NoDup (l : list Z) : StronglySorted Z.lt l -> NoDup l.
Proof.
  induction 1 as [|a l Hs IH Hall]; constructor; [|exact IH].
  intros Hin. rewrite Forall_forall in Hall. specialize (Hall a Hin). lia.
Qed.


Lemma compare_timestamps_rank (a b : ChartData) :
  timestamp a <> None -> timestamp b <> None ->
  compare_timestamps a b = Some (row_date a - row_date b).
Proof.
  unfold compare_timestamps, row_date, getTime.
  destruct (timestamp a), (timestamp b); congruence.
Qed.

Lemma In_keys_Map_has (k : string) (G : grouped_t) :
  In k (keys G) -> Map_has String.eqb k G = true.
Proof.
  intros Hin. unfold Map_has.
  destruct (Map_get String.eqb k G) eqn:E; [reflexivity|].
  apply (Map_get_None String.eqb string_eqb_eq) in E. contradiction.
Qed.

Section ChartFacts.
Variable engine_parse : string -> option Z.

Lemma transformPriceData_unfold (S : list PricePoint.t) (E : list Sneaker.t) :
  S <> [] -> E <> [] ->
  transformPriceData engine_parse S E
  = bind (forEach (group_point engine_parse) S [])
      (fun grouped =>
         Normal (sort compare_timestamps
                      (map (chart_row engine_parse E) grouped))).
Proof.
  intros HS HE. unfold transformPriceData.
  destruct S; [congruence|]. destruct E; [congruence|]. reflexivity.
Qed.

Lemma transformPriceData_empty (S : list PricePoint.t) (E : list Sneaker.t) :
  S = [] \/ E = [] -> transformPriceData engine_parse S E = Normal [].
Proof.
  intros [->| ->]; unfold transformPriceData; [reflexivity|].
  destruct S; reflexivity.
Qed.

Lemma grouped_key_origin (S : list PricePoint.t) (G : grouped_t) (k : string) :
  forEach (group_point engine_parse) S [] = Normal G ->
  In k (keys G) ->
  exists p b, In p S /\ bucket_date engine_parse p = Some b /\ k = iso_string b.
Proof.
  intros HG Hin. apply In_keys_Map_has in Hin.
  apply (forEach_group_has engine_parse S [] G HG) in Hin.
  destruct Hin as [Hin|Hin]; [discriminate | exact Hin].
Qed.

Lemma chart_row_date (S : list PricePoint.t) (E : list Sneaker.t)
      (G : grouped_t) (entry : string * list (Z * number)) :
  forEach (group_point engine_parse) S [] = Normal G ->
  In entry G ->
  exists p b, In p S /\ bucket_date engine_parse p = Some b
              /\ fst entry = iso_string b
              /\ timestamp (chart_row engine_parse E entry) = Some b.
Proof.
  intros HG Hin. destruct entry as [k pm].
  destruct (grouped_key_origin S G k HG) as (p & b & Hp & Hb & ->).
  { apply (in_map fst) in Hin. exact Hin. }
  exists p, b. repeat split; try assumption.
  rewrite chart_row_timestamp. apply new_Date_iso_string.
  eapply bucket_date_range. exact Hb.
Qed.

Lemma chart_rows_NoDup (S : list PricePoint.t) (E : list Sneaker.t)
      (G : grouped_t) :
  forEach (group_point engine_parse) S [] = Normal G ->
  NoDup (map row_date (map (chart_row engine_parse E) G)).
Proof.
  intros HG. rewrite map_map.
  assert (Hwf : wf_grouped G).
  { eapply forEach_group_wf; [exact HG | apply wf_grouped_nil]. }
  destruct Hwf as [Hkeys _].
  assert (Hnd : NoDup G).
  { eapply NoDup_map_inv. exact Hkeys. }
  apply NoDup_map_in; [|exact Hnd].
  intros x y Hx Hy Hxy.
  destruct (chart_row_date S E G x HG Hx) as (p & b & _ & _ & Hkx & Htx).
  destruct (chart_row_date S E G y HG Hy) as (q & c & _ & _ & Hky & Hty).
  unfold row_date in Hxy. rewrite Htx, Hty in Hxy. subst c.
  assert (Hfst : fst x = fst y) by congruence.
  destruct x as [kx pmx], y as [ky pmy]. simpl in Hfst. subst ky.
  f_equal.
  pose proof (In_Map_get String.eqb string_eqb_eq kx pmx G Hkeys Hx) as H1.
  pose proof (In_Map_get String.eqb string_eqb_eq kx pmy G Hkeys Hy) as H2.
  congruence.
Qed.

Lemma transformPriceData_chart (S : list PricePoint.t) (E : list Sneaker.t)
      (rows : list ChartData) :
  S <> [] -> E <> [] ->
  transformPriceData engine_parse S E = Normal rows ->
  exists G,
    forEach (group_point engine_parse) S [] = Normal G
    /\ wf_grouped G
    /\ Permutation rows (map (chart_row engine_parse E) G)
    /\ StronglySorted (fun a b => row_date a < row_date b) rows
    /\ Forall (fun row => timestamp row <> None) rows.
Proof.
  intros HS HE H. rewrite transformPriceData_unfold in H by assumption.
  destruct (forEach (group_point engine_parse) S []) as [G|e] eqn:HG;
    [|discriminate].
  cbn [bind] in H. injection H as <-. exists G.
  assert (Hvalid : Forall (fun row => timestamp row <> None)
                          (map (chart_row engine_parse E) G)).
  { rewrite Forall_forall. intros row Hrow.
    apply in_map_iff in Hrow as (entry & <- & Hentry).
    destruct (chart_row_date S E G entry HG Hentry) as (_ & b & _ & _ & _ & ->).
    discriminate. }
  assert (Hperm : Permutation
                    (sort compare_timestamps (map (chart_row engine_parse E) G))
                    (map (chart_row engine_parse E) G)) by apply sort_perm.
  split; [reflexivity|]. split.
  { eapply forEach_group_wf; [exact HG | apply wf_grouped_nil]. }
  split; [exact Hperm|]. split.
  - apply sorted_NoDup_strict.
    + apply (sort_sorted compare_timestamps row_date
                         (fun row => timestamp row <> None)).
      * intros a b. apply compare_timestamps_rank.
      * exact Hvalid.
    + eapply Permutation_NoDup; [symmetry; apply Permutation_map; exact Hperm|].
      eapply chart_rows_NoDup. exact HG.
  - eapply Permutation_Forall; [symmetry; exact Hperm | exact Hvalid].
Qed.

End ChartFacts.

(** * The row of a sample *)

Lemma find_id (E : list Sneaker.t) (id : Z) (e : Sneaker.t) :
  find (fun s => Sneaker.sneaker_id s =? id) E = Some e ->
  In e E /\ Sneaker.sneaker_id e = id.
Proof.
  intros H. apply find_some in H as [Hin Hid]. apply Z.eqb_eq in Hid. auto.
Qed.

Section BucketFacts.
Variable engine_parse : string -> option Z.

Lemma dated_row_date (day : Z) (row : ChartData) :
  timestamp row <> None -> dated day row = (row_date row =? day).
Proof.
  unfold dated, row_date. destruct (timestamp row); congruence.
Qed.

(** The row of a sample's day: there is exactly one, it is built from the
    bucket of that day, and the bucket holds, per entity, the price of the
    last sample received for it. *)
Lemma sample_row (S : list PricePoint.t) (E : list Sneaker.t)
      (rows : list ChartData) (p : PricePoint.t) :
  E <> [] ->
  transformPriceData engine_parse S E = Normal rows ->
  In p S ->
  exists day priceMap,
    bucket_date engine_parse p = Some day
    /\ filter (dated day) rows
       = [chart_row engine_parse E (iso_string day, priceMap)]
    /\ timestamp (chart_row engine_parse E (iso_string day, priceMap)) = Some day
    /\ NoDup (keys priceMap)
    /\ forall id,
         Map_get Z.eqb id priceMap
         = match last_opt (filter (in_bucket engine_parse day id) S) with
           | Some q => Some (PricePoint.price q)
           | None => None
           end.
Proof.
  intros HE H Hp.
  assert (HS : S <> []) by (intros ->; contradiction).
  destruct (transformPriceData_chart engine_parse S E rows HS HE H)
    as (G & HG & [Hkeys Hinner] & Hperm & Hsorted & Hvalid).
  destruct (forEach_group_valid engine_parse S [] G HG p Hp) as (day & Hday).
  pose proof (bucket_date_range engine_parse p day Hday) as Hrange.
  assert (Hhas : Map_has String.eqb (iso_string day) G = true).
  { apply (forEach_group_has engine_parse S [] G HG). right. exists p, day. auto. }
  unfold Map_has in Hhas.
  destruct (Map_get String.eqb (iso_string day) G) as [pm|] eqn:Hpm;
    [clear Hhas | discriminate].
  exists day, pm.
  assert (Hts : timestamp (chart_row engine_parse E (iso_string day, pm)) = Some day).
  { rewrite chart_row_timestamp. apply new_Date_iso_string. exact Hrange. }
  split; [exact Hday|]. split; [|split; [exact Hts|split]].
  - assert (Hin : In (chart_row engine_parse E (iso_string day, pm)) rows).
    { eapply Permutation_in; [symmetry; exact Hperm|].
      apply in_map. apply (Map_get_In String.eqb string_eqb_eq). exact Hpm. }
    rewrite (filter_ext_in (dated day) (fun row => row_date row =? day)).
    + assert (Hd : row_date (chart_row engine_parse E (iso_string day, pm)) = day)
        by (unfold row_date; rewrite Hts; reflexivity).
      pose proof (filter_unique row_date
                    (chart_row engine_parse E (iso_string day, pm)) rows) as Hu.
      rewrite Hd in Hu. apply Hu; [|exact Hin].
      apply StronglySorted_lt_NoDup. apply StronglySorted_map. exact Hsorted.
    + intros row Hrow. apply dated_row_date.
      rewrite Forall_forall in Hvalid. apply Hvalid. exact Hrow.
  - apply (Hinner _ _ Hpm).
  - intros id.
    pose proof (forEach_group_lookup engine_parse S [] G HG day id Hrange) as Hl.
    unfold lookup in Hl. rewrite Hpm in Hl. exact Hl.
Qed.

End BucketFacts.

(** * Last write wins; bucket dates *)

Lemma last_opt_sorted {A} (R : A -> A -> Prop) (f : A -> bool) (l : list A) :
  (forall x, R x x) ->
  StronglySorted R l ->
  forall w, last_opt (filter f l) = Some w ->
  forall q, In q l -> f q = true -> R q w.
Proof.
  intros Hrefl. induction 1 as [|a l Hs IH Hall]; intros w Hw q Hq Hf;
    [contradiction|].
  cbn [filter] in Hw. rewrite Forall_forall in Hall.
  destruct (f a) eqn:Ha.
  - rewrite last_opt_cons in Hw.
    destruct (last_opt (filter f l)) as [w'|] eqn:Hl.
    + injection Hw as ->. destruct Hq as [<-|Hq].
      * apply Hall. apply last_opt_In in Hl. apply filter_In in Hl. tauto.
      * eapply IH; eauto.
    + injection Hw as <-. destruct Hq as [<-|Hq]; [apply Hrefl|].
      apply last_opt_None in Hl. exfalso.
      assert (Hin : In q (filter f l)) by (apply filter_In; auto).
      rewrite Hl in Hin. contradiction.
  - destruct Hq as [<-|Hq]; [congruence|]. eapply IH; eauto.
Qed.

Section BucketValues.
Variable engine_parse : string -> option Z.

Lemma resolves_one_entity (E : list Sneaker.t) (e : Sneaker.t)
      (entry : Z * number) :
  find (fun s => Sneaker.sneaker_id s =? Sneaker.sneaker_id e) E = Some e ->
  label_of_one_entity E e ->
  resolves E (series_label e) entry = (fst entry =? Sneaker.sneaker_id e).
Proof.
  intros Hfind Hone. unfold resolves.
  destruct (Z.eqb_spec (fst entry) (Sneaker.sneaker_id e)) as [->|Hne].
  - rewrite Hfind. apply String.eqb_refl.
  - destruct (find (fun s => Sneaker.sneaker_id s =? fst entry) E) as [e'|] eqn:F;
      [|reflexivity].
    apply find_id in F as [Hin Hid].
    apply String.eqb_neq. intros Hl. apply Hne. rewrite <- Hid.
    apply Hone; assumption.
Qed.

(** C1, amended. When several samples of one entity fall on the same UTC
    day, the one received last wins: the bucket of that day maps the
    entity's id to the price of the last sample in input order among those
    of that entity and day, and the single row of that day shows that price
    under the entity's series label (the label being carried by no other
    entity id of the list). When the input is in ascending order of
    timestamp, no sample of the bucket has a later timestamp than that
    winner. *)
Theorem last_received_sample_wins
        (S : list PricePoint.t) (E : list Sneaker.t) (rows : list ChartData)
        (p : PricePoint.t) :
  transformPriceData engine_parse S E = Normal rows ->
  E <> [] ->
  In p S ->
  exists day winner grouped,
    bucket_date engine_parse p = Some day
    /\ last_opt (filter (in_bucket engine_parse day (PricePoint.sneaker_id p)) S)
       = Some winner
    /\ forEach (group_point engine_parse) S [] = Normal grouped
    /\ lookup (iso_string day) (PricePoint.sneaker_id p) grouped
       = Some (PricePoint.price winner)
    /\ (forall e,
          find (fun s => Sneaker.sneaker_id s =? PricePoint.sneaker_id p) E
          = Some e ->
          label_of_one_entity E e ->
          exists row,
            filter (dated day) rows = [row]
            /\ obj_get (series_label e) row
               = Some (VNumber (PricePoint.price winner)))
    /\ (StronglySorted
          (fun a b => sample_time engine_parse a <= sample_time engine_parse b) S ->
        forall q, In q S ->
          in_bucket engine_parse day (PricePoint.sneaker_id p) q = true ->
          sample_time engine_parse q <= sample_time engine_parse winner).
Proof.
  intros H HE Hp.
  assert (HS : S <> []) by (intros ->; contradiction).
  destruct (transformPriceData_chart engine_parse S E rows HS HE H)
    as (G & HG & _).
  destruct (sample_row engine_parse S E rows p HE H Hp)
    as (day & pm & Hday & Hrow & _ & Hnd & Hget).
  assert (Hmine : in_bucket engine_parse day (PricePoint.sneaker_id p) p = true).
  { apply in_bucket_true. auto. }
  destruct (last_opt (filter (in_bucket engine_parse day (PricePoint.sneaker_id p)) S))
    as [winner|] eqn:Hlast.
  2:{ apply last_opt_None in Hlast.
      assert (Hin : In p (filter (in_bucket engine_parse day (PricePoint.sneaker_id p)) S))
        by (apply filter_In; auto).
      rewrite Hlast in Hin. contradiction. }
  exists day, winner, G.
  split; [exact Hday|]. split; [exact Hlast|]. split; [exact HG|]. split.
  { rewrite (forEach_group_lookup engine_parse S [] G HG day)
      by (eapply bucket_date_range; exact Hday).
    rewrite Hlast. reflexivity. }
  split.
  - intros e Hfind Hone.
    destruct (find_id _ _ _ Hfind) as [_ Hid].
    exists (chart_row engine_parse E (iso_string day, pm)).
    split; [exact Hrow|].
    rewrite chart_row_value by apply series_label_not_timestamp.
    rewrite (filter_ext _ (fun entry => fst entry =? Sneaker.sneaker_id e)).
    2:{ intros entry. apply resolves_one_entity; [|exact Hone].
        rewrite Hid. exact Hfind. }
    specialize (Hget (PricePoint.sneaker_id p)). rewrite Hlast in Hget.
    rewrite Hid.
    rewrite (filter_key_NoDup _ _ _ Hnd Hget). reflexivity.
  - intros Hsorted q Hq Hbucket.
    eapply (last_opt_sorted
              (fun a b => sample_time engine_parse a <= sample_time engine_parse b));
      eauto. intros; lia.
Qed.

(** C5. The rows [transformPriceData] returns carry valid dates that are
    strictly increasing, hence pairwise distinct. *)
Theorem bucket_dates_strictly_increasing
        (S : list PricePoint.t) (E : list Sneaker.t) (rows : list ChartData) :
  transformPriceData engine_parse S E = Normal rows ->
  exists dates,
    map timestamp rows = map Some dates
    /\ StronglySorted Z.lt dates
    /\ NoDup dates.
Proof.
  intros H.
  destruct S as [|p S'].
  { rewrite transformPriceData_empty in H by auto. injection H as <-.
    exists []. repeat split; constructor. }
  destruct E as [|e E'].
  { rewrite transformPriceData_empty in H by auto. injection H as <-.
    exists []. repeat split; constructor. }
  destruct (transformPriceData_chart engine_parse (p :: S') (e :: E') rows)
    as (G & _ & _ & _ & Hsorted & Hvalid); try discriminate; [exact H|].
  exists (map row_date rows).
  assert (Hs : StronglySorted Z.lt (map row_date rows))
    by (apply StronglySorted_map; exact Hsorted).
  split; [|split; [exact Hs | apply StronglySorted_lt_NoDup; exact Hs]].
  rewrite map_map. apply map_ext_in. intros row Hrow.
  rewrite Forall_forall in Hvalid. specialize (Hvalid row Hrow).
  unfold row_date. destruct (timestamp row); congruence.
Qed.

End BucketValues.

(** * Unknown entities, empty inputs, day buckets *)

Lemma In_series_keys (label : string) (row : ChartData) :
  In label (series_keys row) ->
  label <> "timestamp" /\ obj_get label row <> None.
Proof.
  unfold series_keys. rewrite filter_In, negb_true_iff, String.eqb_neq.
  intros [Hin Hne]. split; [exact Hne|].
  intros Hnone. apply (Map_get_None String.eqb string_eqb_eq) in Hnone.
  contradiction.
Qed.

Section RowContents.
Variable engine_parse : string -> option Z.

Lemma row_origin (S : list PricePoint.t) (E : list Sneaker.t)
      (rows : list ChartData) (row : ChartData) :
  E <> [] ->
  transformPriceData engine_parse S E = Normal rows ->
  In row rows ->
  exists p day priceMap,
    In p S
    /\ bucket_date engine_parse p = Some day
    /\ row = chart_row engine_parse E (iso_string day, priceMap)
    /\ timestamp row = Some day
    /\ NoDup (keys priceMap)
    /\ forall id,
         Map_get Z.eqb id priceMap
         = match last_opt (filter (in_bucket engine_parse day id) S) with
           | Some q => Some (PricePoint.price q)
           | None => None
           end.
Proof.
  intros HE H Hrow.
  assert (HS : S <> []).
  { intros ->. rewrite transformPriceData_empty in H by auto.
    injection H as <-. contradiction. }
  destruct (transformPriceData_chart engine_parse S E rows HS HE H)
    as (G & HG & _ & Hperm & _ & _).
  pose proof (Permutation_in _ Hperm Hrow) as Hin.
  apply in_map_iff in Hin as (entry & Hentry & Hin).
  destruct (chart_row_date engine_parse S E G entry HG Hin)
    as (p & day & Hp & Hday & _ & Hts).
  rewrite Hentry in Hts.
  destruct (sample_row engine_parse S E rows p HE H Hp)
    as (day' & pm & Hday' & Hfilter & Hts' & Hnd & Hget).
  assert (day' = day) by congruence. subst day'.
  assert (Hmem : In row (filter (dated day) rows)).
  { apply filter_In. split; [exact Hrow|]. unfold dated. rewrite Hts.
    apply Z.eqb_refl. }
  rewrite Hfilter in Hmem. destruct Hmem as [<-|[]].
  exists p, day, pm. auto 10.
Qed.

Lemma sample_key_present (S : list PricePoint.t) (E : list Sneaker.t)
      (p : PricePoint.t) (e : Sneaker.t) (day : Z)
      (priceMap : list (Z * number)) :
  In p S ->
  bucket_date engine_parse p = Some day ->
  find (fun s => Sneaker.sneaker_id s =? PricePoint.sneaker_id p) E = Some e ->
  (forall id,
      Map_get Z.eqb id priceMap
      = match last_opt (filter (in_bucket engine_parse day id) S) with
        | Some q => Some (PricePoint.price q)
        | None => None
        end) ->
  exists v,
    obj_get (series_label e)
            (chart_row engine_parse E (iso_string day, priceMap))
    = Some (VNumber v).
Proof.
  intros Hp Hday Hfind Hget.
  rewrite chart_row_value by apply series_label_not_timestamp.
  specialize (Hget (PricePoint.sneaker_id p)).
  destruct (last_opt (filter (in_bucket engine_parse day (PricePoint.sneaker_id p)) S))
    as [winner|] eqn:Hlast.
  2:{ apply last_opt_None in Hlast.
      assert (Hin : In p (filter (in_bucket engine_parse day (PricePoint.sneaker_id p)) S)).
      { apply filter_In. split; [exact Hp|]. apply in_bucket_true. auto. }
      rewrite Hlast in Hin. contradiction. }
  apply (Map_get_In Z.eqb Z_eqb_eq) in Hget.
  destruct (last_opt (filter (resolves E (series_label e)) priceMap))
    as [entry|] eqn:Hres; [eauto|].
  apply last_opt_None in Hres. exfalso.
  assert (Hin : In (PricePoint.sneaker_id p, PricePoint.price winner)
                   (filter (resolves E (series_label e)) priceMap)).
  { apply filter_In. split; [exact Hget|]. unfold resolves. cbn [fst].
    rewrite Hfind. apply String.eqb_refl. }
  rewrite Hres in Hin. contradiction.
Qed.

(** C6. When every timestamp is readable, [transformPriceData] returns
    rows and throws nothing, whatever the entity ids of the samples; and
    every series key of every row is the label of an entity of the list,
    found by the id of a sample of that row's day. A sample whose id is not
    in the list therefore leaves no key. *)
Theorem unknown_entity_dropped (S : list PricePoint.t) (E : list Sneaker.t) :
  (forall p, In p S -> new_Date engine_parse (PricePoint.timestamp p) <> None) ->
  exists rows,
    transformPriceData engine_parse S E = Normal rows
    /\ forall row label,
         In row rows -> In label (series_keys row) ->
         exists p e,
           In p S
           /\ find (fun s => Sneaker.sneaker_id s =? PricePoint.sneaker_id p) E
              = Some e
           /\ label = series_label e
           /\ timestamp row = bucket_date engine_parse p.
Proof.
  intros Hvalid.
  destruct S as [|p0 S'].
  { exists []. split; [apply transformPriceData_empty; auto | contradiction]. }
  destruct E as [|e0 E'].
  { exists []. split; [apply transformPriceData_empty; auto | contradiction]. }
  set (S := p0 :: S') in *. set (E := e0 :: E') in *.
  assert (HS : S <> []) by discriminate.
  assert (HE : E <> []) by discriminate.
  destruct (forEach_group_total engine_parse S []) as (G & HG).
  { intros p Hp. rewrite bucket_date_spec.
    specialize (Hvalid p Hp).
    destruct (new_Date engine_parse (PricePoint.timestamp p)); congruence. }
  pose proof (transformPriceData_unfold engine_parse S E HS HE) as Hrows.
  rewrite HG in Hrows. cbn [bind] in Hrows.
  eexists. split; [exact Hrows|].
  intros row label Hrow Hlabel.
  destruct (row_origin S E _ row HE Hrows Hrow)
    as (p & day & pm & Hp & Hday & -> & Hts & Hnd & Hget).
  apply In_series_keys in Hlabel as [Hne Hsome].
  rewrite chart_row_value in Hsome by exact Hne.
  destruct (last_opt (filter (resolves E label) pm)) as [[id v]|] eqn:Hlast;
    [|congruence].
  apply last_opt_In in Hlast. apply filter_In in Hlast as [Hin Hres].
  unfold resolves in Hres. cbn [fst] in Hres.
  destruct (find (fun s => Sneaker.sneaker_id s =? id) E) as [e|] eqn:Hfind;
    [|discriminate].
  apply String.eqb_eq in Hres.
  apply (In_Map_get Z.eqb Z_eqb_eq _ _ _ Hnd) in Hin.
  rewrite Hget in Hin.
  destruct (last_opt (filter (in_bucket engine_parse day id) S)) as [q|] eqn:Hq;
    [|discriminate].
  apply last_opt_In in Hq. apply filter_In in Hq as [HqS Hqb].
  apply in_bucket_true in Hqb as [Hqid Hqday].
  exists q, e. rewrite Hqid. repeat split; try assumption; congruence.
Qed.

(** C7. With no sample, or with no entity, [transformPriceData] (and
    [useChartData] before it) returns the empty list. *)
Theorem empty_input_gives_no_rows (S : list PricePoint.t) (E : list Sneaker.t) :
  transformPriceData engine_parse [] E = Normal []
  /\ transformPriceData engine_parse S [] = Normal []
  /\ useChartData engine_parse [] E = Normal []
  /\ useChartData engine_parse S [] = Normal [].
Proof.
  repeat split; try reflexivity; destruct S; reflexivity.
Qed.

(** C8. Each sample lands in the row dated at UTC midnight of its own
    day: that row is the only one of its date, the date is the start of the
    day that contains the sample's time, the row holds a value under the
    label of the sample's entity when the list has it, and every sample of
    the same UTC day lands in that same row. *)
Theorem samples_collapse_to_UTC_day
        (S : list PricePoint.t) (E : list Sneaker.t) (rows : list ChartData)
        (p : PricePoint.t) :
  transformPriceData engine_parse S E = Normal rows ->
  E <> [] ->
  In p S ->
  exists t row,
    new_Date engine_parse (PricePoint.timestamp p) = Some t
    /\ filter (dated (MakeDate (Day t) 0)) rows = [row]
    /\ timestamp row = Some (MakeDate (Day t) 0)
    /\ TimeWithinDay (MakeDate (Day t) 0) = 0
    /\ MakeDate (Day t) 0 <= t < MakeDate (Day t) 0 + msPerDay
    /\ (forall e,
          find (fun s => Sneaker.sneaker_id s =? PricePoint.sneaker_id p) E
          = Some e ->
          exists v, obj_get (series_label e) row = Some (VNumber v))
    /\ (forall q t',
          In q S ->
          new_Date engine_parse (PricePoint.timestamp q) = Some t' ->
          Day t' = Day t ->
          filter (dated (MakeDate (Day t') 0)) rows = [row]).
Proof.
  intros H HE Hp.
  destruct (sample_row engine_parse S E rows p HE H Hp)
    as (day & pm & Hday & Hfilter & Hts & Hnd & Hget).
  pose proof Hday as Hday'. rewrite bucket_date_spec in Hday'.
  destruct (new_Date engine_parse (PricePoint.timestamp p)) as [t|] eqn:Ht;
    [|discriminate].
  injection Hday' as <-.
  exists t, (chart_row engine_parse E (iso_string (MakeDate (Day t) 0), pm)).
  split; [reflexivity|]. split; [exact Hfilter|]. split; [exact Hts|].
  split; [|split; [|split]].
  - unfold TimeWithinDay, MakeDate, msPerDay.
    Z.to_euclidean_division_equations; lia.
  - unfold MakeDate, Day, msPerDay. Z.to_euclidean_division_equations; lia.
  - intros e Hfind. eapply sample_key_present; eauto.
  - intros q t' _ _ ->. exact Hfilter.
Qed.

(** The one throw of [transformPriceData]: a timestamp that gives an
    Invalid Date, at [toISOString]. *)
Lemma transformPriceData_throws (S : list PricePoint.t) (E : list Sneaker.t)
      (p : PricePoint.t) :
  E <> [] -> In p S ->
  new_Date engine_parse (PricePoint.timestamp p) = None ->
  transformPriceData engine_parse S E
  = Throw (RangeError "Invalid time value").
Proof.
  intros HE Hp Hdate.
  assert (HS : S <> []) by (intros ->; contradiction).
  rewrite transformPriceData_unfold by assumption.
  rewrite (forEach_group_throw engine_parse S [] p Hp); [reflexivity|].
  rewrite bucket_date_spec, Hdate. reflexivity.
Qed.

(** A day whose samples all reference entities outside the list still has
    its row, holding the date alone. *)
Lemma row_of_unknown_entities (S : list PricePoint.t) (E : list Sneaker.t)
      (rows : list ChartData) (p : PricePoint.t) (day : Z) :
  E <> [] ->
  transformPriceData engine_parse S E = Normal rows ->
  In p S -> bucket_date engine_parse p = Some day ->
  (forall q, In q S -> bucket_date engine_parse q = Some day ->
             find (fun s => Sneaker.sneaker_id s =? PricePoint.sneaker_id q) E
             = None) ->
  filter (dated day) rows = [[("timestamp", VDate (Some day))]].
Proof.
  intros HE H Hp Hday Hnone.
  destruct (sample_row engine_parse S E rows p HE H Hp)
    as (day' & pm & Hday' & Hfilter & _ & Hnd & Hget).
  assert (day' = day) by congruence. subst day'.
  rewrite Hfilter. f_equal. unfold chart_row.
  rewrite new_Date_iso_string by (eapply bucket_date_range; exact Hday).
  assert (Hrows : forall entry, In entry pm ->
            forall row, add_price E row entry = row).
  { intros [id v] Hin row. unfold add_price.
    apply (In_Map_get Z.eqb Z_eqb_eq _ _ _ Hnd) in Hin. rewrite Hget in Hin.
    destruct (last_opt (filter (in_bucket engine_parse day id) S)) as [q|] eqn:Hq;
      [|discriminate].
    apply last_opt_In in Hq. apply filter_In in Hq as [HqS Hqb].
    apply in_bucket_true in Hqb as [<- Hqday].
    rewrite (Hnone q HqS Hqday). reflexivity. }
  clear Hget Hnd Hfilter.
  generalize [("timestamp", VDate (Some day))] as row.
  induction pm as [|entry pm IH]; intros row; [reflexivity|].
  cbn [fold_left]. rewrite Hrows by (left; reflexivity).
  apply IH. intros e He. apply Hrows. right. exact He.
Qed.

End RowContents.

(** * Worked samples, empty rows, labels *)

(** C1, as stated, fails: of two samples of one entity on 2025-01-01, the
    one of 23:00 (110) received before the one of 02:00 (100), the row shows
    100, the price received last, not 110, the price of the latest
    timestamp. *)
Lemma received_order_beats_timestamp :
  forEach (group_point no_engine) [evening_110; morning_100] []
  = Normal [("2025-01-01T00:00:00.000Z", [(1, 100%float)])]
  /\ transformPriceData no_engine [evening_110; morning_100] [air_max]
     = Normal [[("timestamp", VDate (Some jan_1));
                ("Air Max - Red", VNumber 100%float)]]
  /\ sample_time no_engine morning_100 < sample_time no_engine evening_110
  /\ ~ latest_timestamp_wins.
Proof.
  split; [reflexivity|]. split; [reflexivity|]. split; [reflexivity|].
  intros Hclaim.
  destruct (Hclaim no_engine [evening_110; morning_100] [air_max]
              [[("timestamp", VDate (Some jan_1));
                ("Air Max - Red", VNumber 100%float)]]
              morning_100 evening_110 air_max jan_1)
    as (row & Hrow & Hvalue).
  - reflexivity.
  - reflexivity.
  - intros e' [<-|[]] _. reflexivity.
  - right. left. reflexivity.
  - reflexivity.
  - left. reflexivity.
  - reflexivity.
  - intros r [<-|[<-|[]]] _; vm_compute; discriminate.
  - vm_compute in Hrow. injection Hrow as <-.
    apply (f_equal (fun o => match o with
                             | Some (VNumber n) => Prim2SF n
                             | _ => S754_nan
                             end)) in Hvalue.
    vm_compute in Hvalue. discriminate.
Qed.

(** Prices 100 then 110 on the same day, 110 observed later: the row
    shows 110. *)
Lemma last_received_sample_wins_witness :
  transformPriceData no_engine [morning_100; evening_110] [air_max]
  = Normal [[("timestamp", VDate (Some jan_1));
             ("Air Max - Red", VNumber 110%float)]]
  /\ exists day winner grouped,
      bucket_date no_engine morning_100 = Some day
      /\ last_opt (filter (in_bucket no_engine day 1) [morning_100; evening_110])
         = Some winner
      /\ forEach (group_point no_engine) [morning_100; evening_110] []
         = Normal grouped
      /\ lookup (iso_string day) 1 grouped = Some (PricePoint.price winner)
      /\ (forall e,
            find (fun s => Sneaker.sneaker_id s =? 1) [air_max] = Some e ->
            label_of_one_entity [air_max] e ->
            exists row,
              filter (dated day)
                     [[("timestamp", VDate (Some jan_1));
                       ("Air Max - Red", VNumber 110%float)]] = [row]
              /\ obj_get (series_label e) row
                 = Some (VNumber (PricePoint.price winner)))
      /\ (StronglySorted
            (fun a b => sample_time no_engine a <= sample_time no_engine b)
            [morning_100; evening_110] ->
          forall q, In q [morning_100; evening_110] ->
            in_bucket no_engine day 1 q = true ->
            sample_time no_engine q <= sample_time no_engine winner).
Proof.
  split; [reflexivity|].
  apply (last_received_sample_wins no_engine [morning_100; evening_110]
           [air_max] _ morning_100).
  - reflexivity.
  - discriminate.
  - left. reflexivity.
Defined.

(** Samples of three days, received out of order: three rows, by date. *)
Lemma bucket_dates_strictly_increasing_witness :
  transformPriceData no_engine
    [dunk_sample; stranger_99; morning_100; evening_110] [air_max; dunk_low]
  = Normal [[("timestamp", VDate (Some jan_1));
             ("Air Max - Red", VNumber 110%float)];
            [("timestamp", VDate (Some jan_2));
             ("Dunk Low - undefined", VNumber 125%float)];
            [("timestamp", VDate (Some jan_3))]]
  /\ exists dates,
      map timestamp
          [[("timestamp", VDate (Some jan_1));
            ("Air Max - Red", VNumber 110%float)];
           [("timestamp", VDate (Some jan_2));
            ("Dunk Low - undefined", VNumber 125%float)];
           [("timestamp", VDate (Some jan_3))]]
      = map Some dates
      /\ StronglySorted Z.lt dates /\ NoDup dates.
Proof.
  split; [reflexivity|].
  apply (bucket_dates_strictly_increasing no_engine
           [dunk_sample; stranger_99; morning_100; evening_110]
           [air_max; dunk_low]).
  reflexivity.
Defined.

(** A sample of entity 99 among entities 1 and 2. *)
Lemma unknown_entity_dropped_witness :
  (forall p, In p [morning_100; stranger_99; dunk_sample] ->
             new_Date no_engine (PricePoint.timestamp p) <> None)
  /\ exists rows,
      transformPriceData no_engine [morning_100; stranger_99; dunk_sample]
                         [air_max; dunk_low] = Normal rows
      /\ forall row label,
           In row rows -> In label (series_keys row) ->
           exists p e,
             In p [morning_100; stranger_99; dunk_sample]
             /\ find (fun s => Sneaker.sneaker_id s =? PricePoint.sneaker_id p)
                     [air_max; dunk_low] = Some e
             /\ label = series_label e
             /\ timestamp row = bucket_date no_engine p.
Proof.
  assert (Hvalid : forall p, In p [morning_100; stranger_99; dunk_sample] ->
                             new_Date no_engine (PricePoint.timestamp p) <> None).
  { intros p [<-|[<-|[<-|[]]]]; vm_compute; discriminate. }
  split; [exact Hvalid|].
  exact (unknown_entity_dropped no_engine [morning_100; stranger_99; dunk_sample]
           [air_max; dunk_low] Hvalid).
Defined.

(** The rows of that input: no key for entity 99, and its day is a row of
    its own. *)
Lemma missing_entity_example :
  transformPriceData no_engine [morning_100; stranger_99; dunk_sample]
                     [air_max; dunk_low]
  = Normal [[("timestamp", VDate (Some jan_1));
             ("Air Max - Red", VNumber 100%float)];
            [("timestamp", VDate (Some jan_2));
             ("Dunk Low - undefined", VNumber 125%float)];
            [("timestamp", VDate (Some jan_3))]].
Proof. reflexivity. Qed.

(** Samples at [2025-01-01T02:00:00Z] and [2025-01-01T23:00:00Z] share
    the one row dated [2025-01-01T00:00:00.000Z]. *)
Lemma samples_collapse_to_UTC_day_witness :
  transformPriceData no_engine [morning_100; evening_110] [air_max]
  = Normal [[("timestamp", VDate (Some jan_1));
             ("Air Max - Red", VNumber 110%float)]]
  /\ iso_string jan_1 = "2025-01-01T00:00:00.000Z"
  /\ exists t row,
      new_Date no_engine (PricePoint.timestamp evening_110) = Some t
      /\ filter (dated (MakeDate (Day t) 0))
                [[("timestamp", VDate (Some jan_1));
                  ("Air Max - Red", VNumber 110%float)]] = [row]
      /\ timestamp row = Some (MakeDate (Day t) 0)
      /\ TimeWithinDay (MakeDate (Day t) 0) = 0
      /\ MakeDate (Day t) 0 <= t < MakeDate (Day t) 0 + msPerDay
      /\ (forall e,
            find (fun s => Sneaker.sneaker_id s
                           =? PricePoint.sneaker_id evening_110) [air_max]
            = Some e ->
            exists v, obj_get (series_label e) row = Some (VNumber v))
      /\ (forall q t',
            In q [morning_100; evening_110] ->
            new_Date no_engine (PricePoint.timestamp q) = Some t' ->
            Day t' = Day t ->
            filter (dated (MakeDate (Day t') 0))
                   [[("timestamp", VDate (Some jan_1));
                     ("Air Max - Red", VNumber 110%float)]] = [row]).
Proof.
  split; [reflexivity|]. split; [reflexivity|].
  apply (samples_collapse_to_UTC_day no_engine [morning_100; evening_110]
           [air_max] _ evening_110).
  - reflexivity.
  - discriminate.
  - right. left. reflexivity.
Defined.

Section Labels.
Variable engine_parse : string -> option Z.

(** C9. There are a non-empty sample list and a non-empty entity list
    with a day whose samples all reference ids absent from the entity list,
    for which [transformPriceData] still returns a row for that day, with
    the [timestamp] property and no series key. *)
Theorem empty_rows_are_emitted :
  exists (S : list PricePoint.t) (E : list Sneaker.t) (day : Z)
         (rows : list ChartData),
    S <> [] /\ E <> []
    /\ (exists p, In p S /\ bucket_date engine_parse p = Some day)
    /\ (forall p, In p S -> bucket_date engine_parse p = Some day ->
                  find (fun s => Sneaker.sneaker_id s =? PricePoint.sneaker_id p) E
                  = None)
    /\ transformPriceData engine_parse S E = Normal rows
    /\ filter (dated day) rows = [[("timestamp", VDate (Some day))]]
    /\ forall row, In row rows -> dated day row = true -> series_keys row = [].
Proof.
  exists [morning_100; stranger_99; dunk_sample], [air_max; dunk_low], jan_3.
  exists [[("timestamp", VDate (Some jan_1));
           ("Air Max - Red", VNumber 100%float)];
          [("timestamp", VDate (Some jan_2));
           ("Dunk Low - undefined", VNumber 125%float)];
          [("timestamp", VDate (Some jan_3))]].
  split; [discriminate|]. split; [discriminate|]. split.
  { exists stranger_99. split; [right; left; reflexivity | reflexivity]. }
  split.
  { intros p [<-|[<-|[<-|[]]]]; vm_compute; intros H;
      try reflexivity; discriminate. }
  split; [reflexivity|]. split; [reflexivity|].
  intros row [<-|[<-|[<-|[]]]]; vm_compute; intros H;
    try reflexivity; discriminate.
Qed.

(** C10. For a sneaker without colorway, the series label is its name
    followed by [" - undefined"]: it is the [name] of the record
    [calculateStats] returns, and the key under which [transformPriceData]
    puts the price of its samples in the row of their day. *)
Theorem absent_colorway_label (sneaker : Sneaker.t) :
  Sneaker.colorway sneaker = None ->
  series_label sneaker = Sneaker.name sneaker ++ " - undefined"
  /\ (forall pricePoints,
        SneakerStats.name (calculateStats sneaker pricePoints)
        = Sneaker.name sneaker ++ " - undefined")
  /\ (forall S E rows p,
        transformPriceData engine_parse S E = Normal rows ->
        In p S ->
        find (fun s => Sneaker.sneaker_id s =? PricePoint.sneaker_id p) E
        = Some sneaker ->
        exists day row v,
          bucket_date engine_parse p = Some day
          /\ filter (dated day) rows = [row]
          /\ obj_get (Sneaker.name sneaker ++ " - undefined") row
             = Some (VNumber v)).
Proof.
  intros Hcw.
  assert (Hlabel : series_label sneaker = Sneaker.name sneaker ++ " - undefined").
  { unfold series_label. rewrite Hcw. reflexivity. }
  split; [exact Hlabel|]. split.
  - intros pricePoints. rewrite <- Hlabel. unfold calculateStats.
    destruct (sneakerPrices sneaker pricePoints); reflexivity.
  - intros S E rows p H Hp Hfind.
    assert (HE : E <> []) by (intros ->; discriminate).
    destruct (sample_row engine_parse S E rows p HE H Hp)
      as (day & pm & Hday & Hfilter & _ & _ & Hget).
    destruct (sample_key_present engine_parse S E p sneaker day pm Hp Hday Hfind Hget)
      as (v & Hv).
    exists day, (chart_row engine_parse E (iso_string day, pm)), v.
    rewrite <- Hlabel. auto.
Qed.

End Labels.

(** The Dunk Low has no colorway. *)
Lemma absent_colorway_label_witness :
  Sneaker.colorway dunk_low = None
  /\ SneakerStats.name (calculateStats dunk_low [dunk_sample]) = "Dunk Low - undefined"
  /\ transformPriceData no_engine [dunk_sample] [dunk_low]
     = Normal [[("timestamp", VDate (Some jan_2));
                ("Dunk Low - undefined", VNumber 125%float)]].
Proof.
  split; [reflexivity|].
  destruct (absent_colorway_label no_engine dunk_low eq_refl) as (_ & Hname & _).
  split; [apply Hname | reflexivity].
Defined.

(** * More on [calculateStats] *)

Lemma sneakerPrices_idem (sneaker : Sneaker.t) (pricePoints : list PricePoint.t) :
  sneakerPrices sneaker (sneakerPrices sneaker pricePoints)
  = sneakerPrices sneaker pricePoints.
Proof.
  unfold sneakerPrices. induction pricePoints as [|p rest IH]; [reflexivity|].
  simpl. destruct (PricePoint.sneaker_id p =? Sneaker.sneaker_id sneaker) eqn:E.
  - simpl. rewrite E, IH. reflexivity.
  - exact IH.
Qed.

Lemma calculateStats_of_samples (sneaker : Sneaker.t)
      (pricePoints pricePoints' : list PricePoint.t) :
  sneakerPrices sneaker pricePoints = sneakerPrices sneaker pricePoints' ->
  calculateStats sneaker pricePoints = calculateStats sneaker pricePoints'.
Proof. intros H. unfold calculateStats. rewrite H. reflexivity. Qed.

(** X1. The samples of other sneakers, wherever they stand in the price
    history, do not change the statistics [calculateStats] returns for a
    sneaker. *)
Theorem calculateStats_ignores_other_samples
        (sneaker : Sneaker.t) (before after others : list PricePoint.t) :
  (forall p, In p others ->
             PricePoint.sneaker_id p <> Sneaker.sneaker_id sneaker) ->
  calculateStats sneaker (before ++ others ++ after)%list
  = calculateStats sneaker (before ++ after)%list.
Proof.
  intros Hothers. apply calculateStats_of_samples.
  unfold sneakerPrices. rewrite !filter_app.
  replace (filter (fun p => PricePoint.sneaker_id p =? Sneaker.sneaker_id sneaker)
                  others) with (@nil PricePoint.t); [reflexivity|].
  symmetry. apply filter_none_in. intros p Hp. apply Z.eqb_neq. auto.
Qed.

Lemma last_In {A} (l : list A) (d : A) : l <> [] -> In (last l d) l.
Proof.
  intros Hne. destruct (exists_last Hne) as (front & x & ->).
  rewrite last_last. apply in_or_app. right. left. reflexivity.
Qed.

(** X2. When a sneaker has a sample and no price of its samples is NaN,
    the statistics of [calculateStats] satisfy
    [min_price <= current_price <= max_price], and neither bound is NaN. *)
Theorem calculateStats_price_bounds
        (sneaker : Sneaker.t) (pricePoints : list PricePoint.t) :
  let stats := calculateStats sneaker pricePoints in
  sneakerPrices sneaker pricePoints <> [] ->
  Forall not_nan (map PricePoint.price (sneakerPrices sneaker pricePoints)) ->
  fle (SneakerStats.min_price stats) (SneakerStats.current_price stats)
  /\ fle (SneakerStats.current_price stats) (SneakerStats.max_price stats)
  /\ fle (SneakerStats.min_price stats) (SneakerStats.max_price stats)
  /\ not_nan (SneakerStats.min_price stats)
  /\ not_nan (SneakerStats.max_price stats).
Proof.
  intros stats Hne Hnan. subst stats. unfold calculateStats.
  destruct (sneakerPrices sneaker pricePoints) as [|first rest] eqn:Hs;
    [congruence|].
  cbn [SneakerStats.min_price SneakerStats.current_price SneakerStats.max_price].
  set (prices := map PricePoint.price (first :: rest)) in *.
  assert (Hp : prices <> []) by discriminate.
  destruct (Math_min_least prices Hp Hnan) as [Hmin_in Hmin].
  destruct (Math_max_greatest prices Hp Hnan) as [Hmax_in Hmax].
  rewrite Forall_forall in Hmin, Hmax, Hnan.
  pose proof (last_In prices (PricePoint.price first) Hp) as Hlast.
  repeat split; auto.
Qed.

Lemma or_number_not_nan (x : option number) : is_nan (or_number x 0%float) = false.
Proof.
  unfold or_number. destruct x as [n|]; [|reflexivity].
  destruct (is_nan n) eqn:E; simpl; [reflexivity|].
  destruct (is_zero n); [reflexivity | exact E].
Qed.

(** X3. In the statistics of [calculateStats], with or without samples,
    a missing or empty release date reads ["Unknown"], missing or empty sizes
    read ["N/A"], a missing, zero or NaN rating is [0] (so the rating is
    never NaN), and the id, the sku and the retail price are the sneaker's. *)
Theorem calculateStats_optional_fields
        (sneaker : Sneaker.t) (pricePoints : list PricePoint.t) :
  let stats := calculateStats sneaker pricePoints in
  SneakerStats.release_date stats
  = match Sneaker.release_date sneaker with
    | Some s => if String.eqb s "" then "Unknown" else s
    | None => "Unknown"
    end
  /\ SneakerStats.available_sizes stats
     = match Sneaker.available_sizes sneaker with
       | Some s => if String.eqb s "" then "N/A" else s
       | None => "N/A"
       end
  /\ SneakerStats.ratings stats
     = match Sneaker.ratings sneaker with
       | Some r => if is_nan r || is_zero r then 0%float else r
       | None => 0%float
       end
  /\ is_nan (SneakerStats.ratings stats) = false
  /\ SneakerStats.sneaker_id stats = Sneaker.sneaker_id sneaker
  /\ SneakerStats.sku stats = Sneaker.sku sneaker
  /\ SneakerStats.retail_price stats = Sneaker.price sneaker.
Proof.
  intros stats. subst stats. unfold calculateStats.
  destruct (sneakerPrices sneaker pricePoints);
    cbn [SneakerStats.release_date SneakerStats.available_sizes
         SneakerStats.ratings SneakerStats.sneaker_id SneakerStats.sku
         SneakerStats.retail_price];
    repeat split; apply or_number_not_nan.
Qed.

Lemma SF64sub_self (s : bool) (m : positive) (e : Z) :
  SF64sub (S754_finite s m e) (S754_finite s m e) = S754_zero false.
Proof.
  unfold SF64sub, SFsub. rewrite Z.sub_diag. reflexivity.
Qed.

Lemma calculateStats_change (sneaker : Sneaker.t) (pricePoints : list PricePoint.t) :
  sneakerPrices sneaker pricePoints <> [] ->
  SneakerStats.price_change (calculateStats sneaker pricePoints)
  = PrimFloat.sub (SneakerStats.current_price (calculateStats sneaker pricePoints))
                  (Sneaker.price sneaker).
Proof.
  intros Hne. unfold calculateStats.
  destruct (sneakerPrices sneaker pricePoints); [congruence | reflexivity].
Qed.

(** X4. When the last sample of a sneaker has exactly its retail price,
    a finite price other than zero, [calculateStats] reports a change of [+0]
    and a percentage that is zero. *)
Theorem unchanged_price_shows_zero_change
        (sneaker : Sneaker.t) (pricePoints : list PricePoint.t)
        (s : bool) (m : positive) (e : Z) :
  let stats := calculateStats sneaker pricePoints in
  sneakerPrices sneaker pricePoints <> [] ->
  Prim2SF (Sneaker.price sneaker) = S754_finite s m e ->
  SneakerStats.current_price stats = Sneaker.price sneaker ->
  SneakerStats.price_change stats = 0%float
  /\ is_zero (SneakerStats.price_change_percent stats) = true.
Proof.
  intros stats Hne Hp Hcur. subst stats. split.
  - rewrite calculateStats_change, Hcur by exact Hne.
    apply Prim2SF_inj. rewrite sub_spec, Hp, SF64sub_self. reflexivity.
  - rewrite calculateStats_percent, Hcur by exact Hne.
    apply is_zero_spec. exists s.
    unfold calculatePriceChange.
    rewrite mul_spec, div_spec, sub_spec, Hp, SF64sub_self.
    change (Prim2SF 100) with (S754_finite false 7036874417766400 (-46)).
    destruct s; reflexivity.
Qed.

Lemma unchanged_price_shows_zero_change_witness :
  (sneakerPrices air_max [evening_110; morning_100] <> []
   /\ Prim2SF (Sneaker.price air_max) = S754_finite false 7036874417766400 (-46)
   /\ SneakerStats.current_price (calculateStats air_max [evening_110; morning_100])
      = Sneaker.price air_max)
  /\ SneakerStats.price_change (calculateStats air_max [evening_110; morning_100])
     = 0%float
  /\ is_zero (SneakerStats.price_change_percent
                (calculateStats air_max [evening_110; morning_100])) = true.
Proof.
  assert (H1 : sneakerPrices air_max [evening_110; morning_100] <> [])
    by discriminate.
  assert (H2 : Prim2SF (Sneaker.price air_max)
               = S754_finite false 7036874417766400 (-46)) by reflexivity.
  assert (H3 : SneakerStats.current_price
                 (calculateStats air_max [evening_110; morning_100])
               = Sneaker.price air_max) by reflexivity.
  split; [auto|].
  exact (unchanged_price_shows_zero_change air_max [evening_110; morning_100]
           false 7036874417766400 (-46) H1 H2 H3).
Defined.

Lemma calculateStats_ignores_other_samples_witness :
  (forall p, In p [dunk_sample; stranger_99] ->
             PricePoint.sneaker_id p <> Sneaker.sneaker_id air_max)
  /\ calculateStats air_max
       ([morning_100] ++ [dunk_sample; stranger_99] ++ [evening_110])%list
     = calculateStats air_max ([morning_100] ++ [evening_110])%list.
Proof.
  assert (H : forall p, In p [dunk_sample; stranger_99] ->
                        PricePoint.sneaker_id p <> Sneaker.sneaker_id air_max).
  { intros p [<-|[<-|[]]]; discriminate. }
  split; [exact H|].
  exact (calculateStats_ignores_other_samples air_max [morning_100]
           [evening_110] [dunk_sample; stranger_99] H).
Defined.

Lemma calculateStats_price_bounds_witness :
  (sneakerPrices air_max [morning_100; late_140; dunk_sample; evening_110] <> []
   /\ Forall not_nan
        (map PricePoint.price
             (sneakerPrices air_max
                [morning_100; late_140; dunk_sample; evening_110])))
  /\ fle (SneakerStats.min_price
            (calculateStats air_max
               [morning_100; late_140; dunk_sample; evening_110]))
         (SneakerStats.current_price
            (calculateStats air_max
               [morning_100; late_140; dunk_sample; evening_110]))
  /\ fle (SneakerStats.current_price
            (calculateStats air_max
               [morning_100; late_140; dunk_sample; evening_110]))
         (SneakerStats.max_price
            (calculateStats air_max
               [morning_100; late_140; dunk_sample; evening_110]))
  /\ fle (SneakerStats.min_price
            (calculateStats air_max
               [morning_100; late_140; dunk_sample; evening_110]))
         (SneakerStats.max_price
            (calculateStats air_max
               [morning_100; late_140; dunk_sample; evening_110]))
  /\ not_nan (SneakerStats.min_price
                (calculateStats air_max
                   [morning_100; late_140; dunk_sample; evening_110]))
  /\ not_nan (SneakerStats.max_price
                (calculateStats air_max
                   [morning_100; late_140; dunk_sample; evening_110])).
Proof.
  assert (H1 : sneakerPrices air_max
                 [morning_100; late_140; dunk_sample; evening_110] <> [])
    by discriminate.
  assert (H2 : Forall not_nan
                 (map PricePoint.price
                      (sneakerPrices air_max
                         [morning_100; late_140; dunk_sample; evening_110])))
    by (repeat constructor).
  split; [split; assumption|].
  exact (calculateStats_price_bounds air_max
           [morning_100; late_140; dunk_sample; evening_110] H1 H2).
Defined.

(** * More on [transformPriceData] *)

Lemma string_app_assoc (a b c : string) : (a ++ b) ++ c = a ++ b ++ c.
Proof. induction a as [|x a IH]; simpl; [reflexivity | rewrite IH; reflexivity]. Qed.

Lemma Day_MakeDate (day : Z) : Day (MakeDate day 0) = day.
Proof.
  unfold Day, MakeDate, msPerDay. Z.to_euclidean_division_equations; lia.
Qed.

Lemma iso_string_midnight (day : Z) :
  exists date, iso_string (MakeDate day 0) = date ++ "T00:00:00.000Z".
Proof.
  unfold iso_string. rewrite Day_MakeDate.
  destruct (civil_of_day day) as [[y m] d].
  replace (TimeWithinDay (MakeDate day 0)) with 0
    by (unfold TimeWithinDay, MakeDate, msPerDay;
        Z.to_euclidean_division_equations; lia).
  exists (year_string y ++ "-" ++ pad 2 m ++ "-" ++ pad 2 d).
  rewrite !string_app_assoc. reflexivity.
Qed.

Section MoreChart.
Variable engine_parse : string -> option Z.

(** X5. A key that [normalizeTimestamp] returns is the ISO text of UTC
    midnight of the day of its argument and ends in [T00:00:00.000Z];
    normalising a key gives the key back; and two timestamps get the same key
    exactly when they fall on the same UTC day. *)
Theorem normalizeTimestamp_key (a ka : string) :
  normalizeTimestamp engine_parse a = Normal ka ->
  normalizeTimestamp engine_parse ka = Normal ka
  /\ exists t,
      new_Date engine_parse a = Some t
      /\ ka = iso_string (MakeDate (Day t) 0)
      /\ (exists date, ka = date ++ "T00:00:00.000Z")
      /\ forall b kb tb,
           normalizeTimestamp engine_parse b = Normal kb ->
           new_Date engine_parse b = Some tb ->
           (ka = kb <-> Day t = Day tb).
Proof.
  unfold normalizeTimestamp. intros H.
  destruct (new_Date engine_parse a) as [t|] eqn:Ha; [|discriminate].
  pose proof (new_Date_range engine_parse a t Ha) as Ht.
  destruct (setUTCHours0_valid t Ht) as [Hset Hmid].
  rewrite Hset in H. injection H as <-.
  split.
  - rewrite (new_Date_iso_string engine_parse _ Hmid).
    destruct (setUTCHours0_valid _ Hmid) as [Hset' _].
    rewrite Hset', Day_MakeDate. reflexivity.
  - exists t. split; [reflexivity|]. split; [reflexivity|].
    split; [apply iso_string_midnight|].
    intros b kb tb Hb Htb. rewrite Htb in Hb.
    pose proof (new_Date_range engine_parse b tb Htb) as Htb'.
    destruct (setUTCHours0_valid tb Htb') as [Hsetb Hmidb].
    rewrite Hsetb in Hb. injection Hb as <-. split.
    + intros Hk. apply iso_string_inj in Hk; [|assumption..].
      rewrite <- (Day_MakeDate (Day t)), Hk. apply Day_MakeDate.
    + intros ->. reflexivity.
Qed.

(** X6. [transformPriceData] throws exactly when both lists are non-empty
    and some sample has a timestamp that [new Date] cannot read; what it
    throws then is the [RangeError] of [toISOString], "Invalid time value". *)
Theorem transformPriceData_error
        (S : list PricePoint.t) (E : list Sneaker.t) (err : error) :
  transformPriceData engine_parse S E = Throw err <->
  err = RangeError "Invalid time value"
  /\ S <> [] /\ E <> []
  /\ exists p, In p S
               /\ new_Date engine_parse (PricePoint.timestamp p) = None.
Proof.
  split.
  - intros H.
    destruct S as [|p0 S']; [discriminate|].
    destruct E as [|e0 E']; [discriminate|].
    set (S := p0 :: S') in *. set (E := e0 :: E') in *.
    assert (HS : S <> []) by discriminate.
    assert (HE : E <> []) by discriminate.
    assert (Hbad : exists p, In p S
                     /\ new_Date engine_parse (PricePoint.timestamp p) = None).
    { destruct (Exists_dec
                  (fun p => new_Date engine_parse (PricePoint.timestamp p) = None) S)
        as [Hex|Hall].
      - intros p. destruct (new_Date engine_parse (PricePoint.timestamp p));
          [right; discriminate | left; reflexivity].
      - apply Exists_exists in Hex. exact Hex.
      - exfalso.
        destruct (forEach_group_total engine_parse S []) as (G & HG).
        { intros p Hp Hnone. apply Hall. apply Exists_exists. exists p.
          split; [exact Hp|]. rewrite bucket_date_spec in Hnone.
          destruct (new_Date engine_parse (PricePoint.timestamp p));
            [discriminate | reflexivity]. }
        rewrite transformPriceData_unfold, HG in H by assumption.
        discriminate. }
    destruct Hbad as (p & Hp & Hnone).
    rewrite (transformPriceData_throws engine_parse S E p HE Hp Hnone) in H.
    injection H as <-. repeat split; eauto.
  - intros (-> & HS & HE & p & Hp & Hnone).
    apply (transformPriceData_throws engine_parse S E p HE Hp Hnone).
Qed.



Lemma In_bucket_days (S : list PricePoint.t) (day : Z) :
  In day (bucket_days engine_parse S) <->
  exists p, In p S /\ bucket_date engine_parse p = Some day.
Proof.
  unfold bucket_days. rewrite nodup_In, in_flat_map. split.
  - intros (p & Hp & Hin). exists p. split; [exact Hp|].
    destruct (bucket_date engine_parse p) as [d|]; [|contradiction].
    destruct Hin as [->|[]]. reflexivity.
  - intros (p & Hp & Hd). exists p. split; [exact Hp|]. rewrite Hd. left.
    reflexivity.
Qed.

(** X7. When [transformPriceData] returns for a non-empty sneaker list,
    its rows carry exactly the UTC days on which a sample falls, each day on
    one row: the dates of the rows are a permutation of the distinct days of
    the samples, and there are as many rows as such days. *)
Theorem one_row_per_sample_day
        (S : list PricePoint.t) (E : list Sneaker.t) (rows : list ChartData) :
  transformPriceData engine_parse S E = Normal rows ->
  E <> [] ->
  (forall day, In (Some day) (map timestamp rows) <->
               exists p, In p S /\ bucket_date engine_parse p = Some day)
  /\ Permutation (map timestamp rows) (map Some (bucket_days engine_parse S))
  /\ List.length rows = List.length (bucket_days engine_parse S).
Proof.
  intros H HE.
  assert (Hmem : forall day, In (Some day) (map timestamp rows) <->
               exists p, In p S /\ bucket_date engine_parse p = Some day).
  { intros day. split.
    - intros Hin. apply in_map_iff in Hin as (row & Hts & Hrow).
      destruct (row_origin engine_parse S E rows row HE H Hrow)
        as (p & d & pm & Hp & Hd & _ & Hts' & _).
      exists p. split; [exact Hp|]. congruence.
    - intros (p & Hp & Hd).
      destruct (sample_row engine_parse S E rows p HE H Hp)
        as (d & pm & Hd' & Hfilter & Hts & _).
      assert (d = day) by congruence. subst d.
      rewrite <- Hts. apply in_map.
      assert (Hin : In (chart_row engine_parse E (iso_string day, pm))
                       (filter (dated day) rows))
        by (rewrite Hfilter; left; reflexivity).
      apply filter_In in Hin. tauto. }
  assert (Hdates : map timestamp rows = map Some (map row_date rows)
                   /\ NoDup (map row_date rows)).
  { destruct S as [|p0 S'].
    { rewrite transformPriceData_empty in H by auto. injection H as <-.
      split; [reflexivity | constructor]. }
    destruct (transformPriceData_chart engine_parse (p0 :: S') E rows)
      as (G & _ & _ & _ & Hsorted & Hvalid); try assumption; [discriminate|].
    split.
    - rewrite map_map. apply map_ext_in. intros row Hrow.
      rewrite Forall_forall in Hvalid. specialize (Hvalid row Hrow).
      unfold row_date. destruct (timestamp row); congruence.
    - apply StronglySorted_lt_NoDup. apply StronglySorted_map. exact Hsorted. }
  destruct Hdates as [Hdates Hnd].
  assert (Hperm : Permutation (map timestamp rows) (map Some (bucket_days engine_parse S))).
  { apply NoDup_Permutation.
    - rewrite Hdates. apply NoDup_map_in; [congruence | exact Hnd].
    - apply NoDup_map_in; [congruence|]. apply NoDup_nodup.
    - intros date. split.
      + intros Hin. pose proof Hin as Hin'. rewrite Hdates in Hin'.
        apply in_map_iff in Hin' as (day & <- & Hday).
        apply in_map. apply In_bucket_days. apply Hmem. exact Hin.
      + intros Hin. apply in_map_iff in Hin as (day & <- & Hday).
        apply Hmem. apply In_bucket_days. exact Hday. }
  split; [exact Hmem|]. split; [exact Hperm|].
  apply Permutation_length in Hperm. rewrite !length_map in Hperm. exact Hperm.
Qed.

Lemma row_value_origin
      (S : list PricePoint.t) (E : list Sneaker.t) (rows : list ChartData)
      (row : ChartData) (label : string) (v : value) :
  transformPriceData engine_parse S E = Normal rows ->
  In row rows ->
  label <> "timestamp" ->
  obj_get label row = Some v ->
  exists q e,
    In q S
    /\ bucket_date engine_parse q = timestamp row
    /\ find (fun s => Sneaker.sneaker_id s =? PricePoint.sneaker_id q) E
       = Some e
    /\ series_label e = label
    /\ v = VNumber (PricePoint.price q).
Proof.
  intros H Hrow Hlabel Hv.
  assert (HE : E <> []).
  { intros ->. rewrite transformPriceData_empty in H by auto.
    injection H as <-. contradiction. }
  destruct (row_origin engine_parse S E rows row HE H Hrow)
    as (p & day & pm & Hp & Hday & -> & Hts & Hnd & Hget).
  rewrite Hts. rewrite chart_row_value in Hv by exact Hlabel.
  destruct (last_opt (filter (resolves E label) pm)) as [[id pv]|] eqn:Hlast;
    [|discriminate].
  injection Hv as <-. cbn [snd].
  apply last_opt_In in Hlast. apply filter_In in Hlast as [Hin Hres].
  unfold resolves in Hres. cbn [fst] in Hres.
  destruct (find (fun s => Sneaker.sneaker_id s =? id) E) as [e|] eqn:Hfind;
    [|discriminate].
  apply String.eqb_eq in Hres.
  apply (In_Map_get Z.eqb Z_eqb_eq _ _ _ Hnd) in Hin. rewrite Hget in Hin.
  destruct (last_opt (filter (in_bucket engine_parse day id) S)) as [q|] eqn:Hq;
    [|discriminate].
  injection Hin as <-.
  apply last_opt_In in Hq. apply filter_In in Hq as [HqS Hqb].
  apply in_bucket_true in Hqb as [Hqid Hqday].
  exists q, e. rewrite Hqid. auto.
Qed.

Lemma row_value_present
      (S : list PricePoint.t) (E : list Sneaker.t) (rows : list ChartData)
      (row : ChartData) (q : PricePoint.t) (e : Sneaker.t) :
  transformPriceData engine_parse S E = Normal rows ->
  In row rows ->
  In q S ->
  bucket_date engine_parse q = timestamp row ->
  find (fun s => Sneaker.sneaker_id s =? PricePoint.sneaker_id q) E = Some e ->
  exists v, obj_get (series_label e) row = Some (VNumber v).
Proof.
  intros H Hrow Hq Hqday Hfind.
  assert (HE : E <> []) by (intros ->; discriminate).
  destruct (row_origin engine_parse S E rows row HE H Hrow)
    as (p & day & pm & Hp & Hday & -> & Hts & Hnd & Hget).
  rewrite Hts in Hqday.
  exact (sample_key_present engine_parse S E q e day pm Hq Hqday Hfind Hget).
Qed.

(** X8. In a row of [transformPriceData], a value under a key other than
    [timestamp] is the price of a sample of the row's day whose sneaker is
    found in the list and has that key as its label; and the key is absent
    exactly when no sample of that day resolves to a sneaker with that
    label. *)
Theorem row_values_are_sample_prices
        (S : list PricePoint.t) (E : list Sneaker.t) (rows : list ChartData)
        (row : ChartData) (label : string) :
  transformPriceData engine_parse S E = Normal rows ->
  In row rows ->
  label <> "timestamp" ->
  (forall v,
      obj_get label row = Some v ->
      exists q e,
        In q S
        /\ bucket_date engine_parse q = timestamp row
        /\ find (fun s => Sneaker.sneaker_id s =? PricePoint.sneaker_id q) E
           = Some e
        /\ series_label e = label
        /\ v = VNumber (PricePoint.price q))
  /\ (obj_get label row = None <->
      forall q e,
        In q S ->
        bucket_date engine_parse q = timestamp row ->
        find (fun s => Sneaker.sneaker_id s =? PricePoint.sneaker_id q) E
        = Some e ->
        series_label e <> label).
Proof.
  intros H Hrow Hlabel. split.
  - intros v Hv. eapply row_value_origin; eauto.
  - split.
    + intros Hnone q e Hq Hqday Hfind Hl.
      destruct (row_value_present S E rows row q e H Hrow Hq Hqday Hfind)
        as (v & Hv).
      rewrite Hl in Hv. congruence.
    + intros Hno. destruct (obj_get label row) as [v|] eqn:Hv; [|reflexivity].
      destruct (row_value_origin S E rows row label v H Hrow Hlabel Hv)
        as (q & e & Hq & Hqday & Hfind & Hl & _).
      exfalso. exact (Hno q e Hq Hqday Hfind Hl).
Qed.
End MoreChart.

Lemma normalizeTimestamp_key_witness :
  normalizeTimestamp no_engine "2025-01-01T23:00:00Z"
  = Normal "2025-01-01T00:00:00.000Z"
  /\ normalizeTimestamp no_engine "2025-01-01T00:00:00.000Z"
     = Normal "2025-01-01T00:00:00.000Z"
  /\ exists t,
      new_Date no_engine "2025-01-01T23:00:00Z" = Some t
      /\ "2025-01-01T00:00:00.000Z" = iso_string (MakeDate (Day t) 0)
      /\ (exists date, "2025-01-01T00:00:00.000Z" = date ++ "T00:00:00.000Z")
      /\ forall b kb tb,
           normalizeTimestamp no_engine b = Normal kb ->
           new_Date no_engine b = Some tb ->
           ("2025-01-01T00:00:00.000Z" = kb <-> Day t = Day tb).
Proof.
  assert (H : normalizeTimestamp no_engine "2025-01-01T23:00:00Z"
              = Normal "2025-01-01T00:00:00.000Z") by reflexivity.
  split; [exact H|].
  exact (normalizeTimestamp_key no_engine "2025-01-01T23:00:00Z"
           "2025-01-01T00:00:00.000Z" H).
Defined.

Lemma one_row_per_sample_day_witness :
  (transformPriceData no_engine three_days [air_max; dunk_low]
   = Normal [row_jan_1; row_jan_2; row_jan_3]
   /\ [air_max; dunk_low] <> [])
  /\ (forall day,
        In (Some day) (map timestamp [row_jan_1; row_jan_2; row_jan_3]) <->
        exists p, In p three_days /\ bucket_date no_engine p = Some day)
  /\ Permutation (map timestamp [row_jan_1; row_jan_2; row_jan_3])
                 (map Some (bucket_days no_engine three_days))
  /\ List.length [row_jan_1; row_jan_2; row_jan_3]
     = List.length (bucket_days no_engine three_days).
Proof.
  assert (H1 : transformPriceData no_engine three_days [air_max; dunk_low]
               = Normal [row_jan_1; row_jan_2; row_jan_3]) by reflexivity.
  assert (H2 : [air_max; dunk_low] <> []) by discriminate.
  split; [split; assumption|].
  exact (one_row_per_sample_day no_engine three_days [air_max; dunk_low]
           [row_jan_1; row_jan_2; row_jan_3] H1 H2).
Defined.

Lemma row_values_are_sample_prices_witness :
  (transformPriceData no_engine three_days [air_max; dunk_low]
   = Normal [row_jan_1; row_jan_2; row_jan_3]
   /\ In row_jan_1 [row_jan_1; row_jan_2; row_jan_3]
   /\ "Air Max - Red" <> "timestamp")
  /\ (forall v,
        obj_get "Air Max - Red" row_jan_1 = Some v ->
        exists q e,
          In q three_days
          /\ bucket_date no_engine q = timestamp row_jan_1
          /\ find (fun s => Sneaker.sneaker_id s =? PricePoint.sneaker_id q)
                  [air_max; dunk_low] = Some e
          /\ series_label e = "Air Max - Red"
          /\ v = VNumber (PricePoint.price q))
  /\ (obj_get "Air Max - Red" row_jan_1 = None <->
      forall q e,
        In q three_days ->
        bucket_date no_engine q = timestamp row_jan_1 ->
        find (fun s => Sneaker.sneaker_id s =? PricePoint.sneaker_id q)
             [air_max; dunk_low] = Some e ->
        series_label e <> "Air Max - Red").
Proof.
  assert (H1 : transformPriceData no_engine three_days [air_max; dunk_low]
               = Normal [row_jan_1; row_jan_2; row_jan_3]) by reflexivity.
  assert (H2 : In row_jan_1 [row_jan_1; row_jan_2; row_jan_3])
    by (left; reflexivity).
  assert (H3 : "Air Max - Red" <> "timestamp") by discriminate.
  split; [auto|].
  exact (row_values_are_sample_prices no_engine three_days [air_max; dunk_low]
           [row_jan_1; row_jan_2; row_jan_3] row_jan_1 "Air Max - Red"
           H1 H2 H3).
Defined.

(** * [getChartColor] and [PriceChart] *)

Lemma CHART_COLORS_NoDup : NoDup CHART_COLORS.
Proof.
  unfold CHART_COLORS.
  repeat (constructor; [simpl; intros H;
    repeat (destruct H as [H|H]; [discriminate|]); exact H|]).
  constructor.
Qed.

Lemma getChartColor_nonneg (index : Z) :
  0 <= index ->
  getChartColor index = nth_error CHART_COLORS (Z.to_nat (index mod 8)).
Proof.
  intros H. unfold getChartColor.
  change (Z.of_nat (List.length CHART_COLORS)) with 8.
  rewrite Z.rem_mod_nonneg by lia.
  replace (index mod 8 <? 0) with false; [reflexivity|].
  symmetry. apply Z.ltb_ge. apply Z.mod_pos_bound. lia.
Qed.

Lemma getChartColor_same (i j : Z) :
  0 <= i -> 0 <= j ->
  getChartColor i = getChartColor j -> i mod 8 = j mod 8.
Proof.
  intros Hi Hj. rewrite !getChartColor_nonneg by lia. intros E.
  pose proof (Z.mod_pos_bound i 8). pose proof (Z.mod_pos_bound j 8).
  assert (Z.to_nat (i mod 8) = Z.to_nat (j mod 8)); [|lia].
  apply (proj1 (NoDup_nth_error CHART_COLORS) CHART_COLORS_NoDup);
    [change (List.length CHART_COLORS) with 8%nat; lia | exact E].
Qed.

Lemma getChartColor_some (i : Z) :
  0 <= i -> exists colour, getChartColor i = Some colour /\ In colour CHART_COLORS.
Proof.
  intros Hi. rewrite getChartColor_nonneg by lia.
  pose proof (Z.mod_pos_bound i 8).
  destruct (nth_error CHART_COLORS (Z.to_nat (i mod 8))) as [c|] eqn:E.
  - exists c. split; [reflexivity|]. eapply nth_error_In. exact E.
  - apply nth_error_None in E.
    change (List.length CHART_COLORS) with 8%nat in E. lia.
Qed.

(** X9. For an index of zero or more, [getChartColor] returns a colour
    of the palette, the same one again eight places further, and two indices
    get the same colour exactly when they are equal modulo 8: the eight
    colours are distinct. *)
Theorem getChartColor_cycle (i j : Z) :
  0 <= i -> 0 <= j ->
  (exists colour, getChartColor i = Some colour /\ In colour CHART_COLORS)
  /\ getChartColor (i + 8) = getChartColor i
  /\ (getChartColor i = getChartColor j <-> i mod 8 = j mod 8).
Proof.
  intros Hi Hj. split; [apply getChartColor_some; exact Hi|]. split.
  - rewrite !getChartColor_nonneg by lia.
    replace ((i + 8) mod 8) with (i mod 8); [reflexivity|].
    Z.to_euclidean_division_equations; lia.
  - split; [apply getChartColor_same; assumption|].
    rewrite !getChartColor_nonneg by lia. intros ->. reflexivity.
Qed.

(** X10. For an index below zero, [getChartColor] returns no colour
    ([undefined]), except at the multiples of 8, where the remainder is [-0]
    and the first colour is returned. *)
Theorem getChartColor_negative (index : Z) :
  index < 0 ->
  getChartColor index
  = if Z.rem index 8 =? 0 then Some "#3b82f6" else None.
Proof.
  intros H. unfold getChartColor.
  change (Z.of_nat (List.length CHART_COLORS)) with 8.
  assert (Hb : - (8) < Z.rem index 8 <= 0) by (apply Z.rem_bound_pos_neg; lia).
  destruct (Z.rem index 8 =? 0) eqn:E.
  - apply Z.eqb_eq in E. rewrite E. reflexivity.
  - apply Z.eqb_neq in E.
    replace (Z.rem index 8 <? 0) with true; [reflexivity|].
    symmetry. apply Z.ltb_lt. lia.
Qed.

Lemma digits_value_contains (c : ascii) (s : string) : forall acc,
  digit_val c = None -> contains c s = true -> digits_value acc s = None.
Proof.
  induction s as [|c' rest IH]; intros acc Hc Hin; [discriminate|].
  simpl in Hin. simpl. apply orb_true_iff in Hin as [Heq|Hin].
  - apply Ascii.eqb_eq in Heq. subst c'. rewrite Hc. reflexivity.
  - destruct (digit_val c'); [apply IH; assumption | reflexivity].
Qed.

Lemma array_index_contains (c : ascii) (k : string) :
  digit_val c = None -> contains c k = true -> array_index k = None.
Proof.
  intros Hc Hin. destruct k as [|c' rest]; [reflexivity|].
  unfold array_index.
  destruct (Ascii.eqb c' "0" && negb (String.eqb rest "")); [reflexivity|].
  rewrite (digits_value_contains c _ 0 Hc Hin). reflexivity.
Qed.

Lemma series_label_no_index (sneaker : Sneaker.t) :
  is_array_index (series_label sneaker) = false.
Proof.
  unfold is_array_index.
  rewrite (array_index_contains " "); [reflexivity | reflexivity |].
  unfold series_label.
  change (Sneaker.name sneaker ++ " - "
          ++ template_string (Sneaker.colorway sneaker))
    with (Sneaker.name sneaker
          ++ String " " ("- " ++ template_string (Sneaker.colorway sneaker))).
  apply contains_append.
Qed.

Lemma Object_keys_no_index {V} (o : list (string * V)) :
  Forall (fun k => is_array_index k = false) (keys o) ->
  Object_keys o = keys o.
Proof.
  intros H. unfold Object_keys. rewrite Forall_forall in H.
  rewrite (filter_none_in is_array_index) by exact H.
  simpl. 
  induction (keys o) as [|k l IH]; [reflexivity|].
  simpl. rewrite H by (left; reflexivity). simpl. f_equal.
  apply IH. intros x Hx. apply H. right. exact Hx.
Qed.

Lemma keys_add_price (sneakers : list Sneaker.t) (row : ChartData)
      (entry : Z * number) :
  NoDup (keys row) -> Forall (row_key sneakers) (keys row) ->
  NoDup (keys (add_price sneakers row entry))
  /\ Forall (row_key sneakers) (keys (add_price sneakers row entry)).
Proof.
  intros Hnd Hall. unfold add_price. destruct entry as [id v].
  destruct (find (fun s => Sneaker.sneaker_id s =? id) sneakers) as [e|] eqn:F;
    [|auto].
  apply find_id in F as [He _]. unfold obj_set. split.
  - apply (NoDup_keys_Map_set String.eqb string_eqb_eq). exact Hnd.
  - rewrite (keys_Map_set String.eqb).
    destruct (Map_has String.eqb (series_label e) row); [exact Hall|].
    apply Forall_app. split; [exact Hall|].
    constructor; [|constructor]. right. eauto.
Qed.

Lemma keys_chart_row (engine_parse : string -> option Z)
      (sneakers : list Sneaker.t) (entry : string * list (Z * number)) :
  NoDup (keys (chart_row engine_parse sneakers entry))
  /\ Forall (row_key sneakers) (keys (chart_row engine_parse sneakers entry)).
Proof.
  destruct entry as [k pm]. unfold chart_row.
  assert (H0 : NoDup (keys [("timestamp", VDate (new_Date engine_parse k))])
               /\ Forall (row_key sneakers)
                         (keys [("timestamp", VDate (new_Date engine_parse k))])).
  { split.
    - constructor; [intros [] | constructor].
    - constructor; [left; reflexivity | constructor]. }
  revert H0. generalize [("timestamp", VDate (new_Date engine_parse k))].
  induction pm as [|e pm IH]; intros row [Hnd Hall]; [auto|].
  cbn [fold_left]. apply IH. apply keys_add_price; assumption.
Qed.

Lemma row_key_no_index (sneakers : list Sneaker.t) (k : string) :
  row_key sneakers k -> is_array_index k = false.
Proof.
  intros [->|(e & _ & ->)]; [reflexivity | apply series_label_no_index].
Qed.

Lemma map_index_fst {A B} (f : Z -> B) (l : list A) : forall n,
  map fst (map_index (fun x index => (x, f index)) n l) = l.
Proof.
  induction l as [|x l IH]; intros n; simpl; [reflexivity|].
  rewrite IH. reflexivity.
Qed.

Lemma map_index_snd {A B} (f : Z -> B) (l : list A) : forall n,
  map snd (map_index (fun x index => (x, f index)) n l)
  = map (fun k => f (n + Z.of_nat k)) (seq 0 (List.length l)).
Proof.
  induction l as [|x l IH]; intros n; [reflexivity|].
  cbn [map_index map snd List.length seq]. rewrite IH. f_equal.
  - f_equal. lia.
  - rewrite <- seq_shift, map_map. apply map_ext. intros k. f_equal. lia.
Qed.

Lemma In_series_keys_iff (label : string) (row : ChartData) :
  In label (series_keys row) <->
  label <> "timestamp" /\ obj_get label row <> None.
Proof.
  unfold series_keys. rewrite filter_In, negb_true_iff, String.eqb_neq.
  unfold obj_get. rewrite (Map_get_None String.eqb string_eqb_eq).
  split; intros [H1 H2]; split; auto.
  destruct (in_dec string_dec label (keys row)); [assumption | contradiction].
Qed.

Section ChartPanel.
Variable engine_parse : string -> option Z.

Lemma dataKeys_chart_row (sneakers : list Sneaker.t)
      (entry : string * list (Z * number)) :
  dataKeys (chart_row engine_parse sneakers entry)
  = series_keys (chart_row engine_parse sneakers entry).
Proof.
  unfold dataKeys, series_keys. rewrite Object_keys_no_index; [reflexivity|].
  destruct (keys_chart_row engine_parse sneakers entry) as [_ Hall].
  eapply Forall_impl; [|exact Hall]. apply row_key_no_index.
Qed.

Lemma chart_rows_built (S : list PricePoint.t) (E : list Sneaker.t)
      (rows : list ChartData) (row : ChartData) :
  transformPriceData engine_parse S E = Normal rows ->
  In row rows ->
  S <> [] /\ E <> []
  /\ exists entry, row = chart_row engine_parse E entry.
Proof.
  intros H Hrow.
  assert (HS : S <> []).
  { intros ->. rewrite transformPriceData_empty in H by auto.
    injection H as <-. contradiction. }
  assert (HE : E <> []).
  { intros ->. rewrite transformPriceData_empty in H by auto.
    injection H as <-. contradiction. }
  split; [exact HS|]. split; [exact HE|].
  destruct (transformPriceData_chart engine_parse S E rows HS HE H)
    as (G & _ & _ & Hperm & _).
  pose proof (Permutation_in _ Hperm Hrow) as Hin.
  apply in_map_iff in Hin as (entry & <- & _). eauto.
Qed.

(** X11. Given the rows of [transformPriceData], when there is one,
    [PriceChart] draws one line per series key of the first row, in the order
    of that row; the first row is the one of the earliest day with a sample,
    so a sneaker gets a line exactly when a sample of that earliest day
    resolves to it. *)
Theorem PriceChart_lines
        (S : list PricePoint.t) (E : list Sneaker.t)
        (first : ChartData) (rest : list ChartData) :
  transformPriceData engine_parse S E = Normal (first :: rest) ->
  exists lines earliest,
    PriceChart (first :: rest) false = LineChartPanel lines
    /\ map fst lines = series_keys first
    /\ timestamp first = Some earliest
    /\ (forall q day, In q S -> bucket_date engine_parse q = Some day ->
                      earliest <= day)
    /\ (forall key,
          In key (map fst lines) <->
          exists q e,
            In q S
            /\ bucket_date engine_parse q = Some earliest
            /\ find (fun s => Sneaker.sneaker_id s =? PricePoint.sneaker_id q) E
               = Some e
            /\ series_label e = key).
Proof.
  intros H.
  destruct (chart_rows_built S E (first :: rest) first H (or_introl eq_refl))
    as (HS & HE & entry & Hfirst).
  destruct (transformPriceData_chart engine_parse S E _ HS HE H)
    as (G & _ & _ & _ & Hsorted & Hvalid).
  inversion Hsorted as [|? ? _ Hfirst_least]; subst a l.
  inversion Hvalid as [|? ? Hts _]; subst x l.
  destruct (timestamp first) as [earliest|] eqn:Hearliest; [|congruence].
  eexists. exists earliest. split; [reflexivity|].
  rewrite map_index_fst.
  assert (Hkeys : dataKeys first = series_keys first).
  { rewrite Hfirst. apply dataKeys_chart_row. }
  split; [exact Hkeys|]. split; [reflexivity|]. split.
  - intros q day Hq Hday.
    destruct (sample_row engine_parse S E _ q HE H Hq)
      as (day' & pm & Hday' & Hfilter & Hts' & _).
    assert (day' = day) by congruence. subst day'.
    assert (Hin : In (chart_row engine_parse E (iso_string day, pm))
                     (filter (dated day) (first :: rest)))
      by (rewrite Hfilter; left; reflexivity).
    apply filter_In in Hin as [[Heq|Hin] _].
    + assert (Some day = Some earliest) by congruence.
      assert (day = earliest) by congruence. lia.
    + rewrite Forall_forall in Hfirst_least. specialize (Hfirst_least _ Hin).
      unfold row_date in Hfirst_least. rewrite Hts', Hearliest in Hfirst_least.
      lia.
  - intros key. rewrite Hkeys, In_series_keys_iff. split.
    + intros [Hne Hsome].
      destruct (obj_get key first) as [v|] eqn:Hv; [|congruence].
      destruct (row_value_origin engine_parse S E _ first key v H
                  (or_introl eq_refl) Hne Hv)
        as (q & e & Hq & Hqday & Hfind & Hl & _).
      exists q, e. rewrite Hqday, Hearliest. auto.
    + intros (q & e & Hq & Hqday & Hfind & <-).
      split; [apply series_label_not_timestamp|].
      destruct (row_value_present engine_parse S E _ first q e H
                  (or_introl eq_refl) Hq) as (v & Hv); [congruence | exact Hfind|].
      congruence.
Qed.

(** X12. Given the rows of [transformPriceData] for at most eight
    sneakers, the lines of [PriceChart] have distinct keys, are no more than
    the sneakers, and have distinct colours, each one of the palette. *)
Theorem PriceChart_colours
        (S : list PricePoint.t) (E : list Sneaker.t)
        (first : ChartData) (rest : list ChartData) :
  transformPriceData engine_parse S E = Normal (first :: rest) ->
  (List.length E <= 8)%nat ->
  exists lines,
    PriceChart (first :: rest) false = LineChartPanel lines
    /\ NoDup (map fst lines)
    /\ (List.length lines <= List.length E)%nat
    /\ NoDup (map snd lines)
    /\ Forall (fun line => exists colour,
                   snd line = Some colour /\ In colour CHART_COLORS) lines.
Proof.
  intros H Hsize.
  destruct (chart_rows_built S E (first :: rest) first H (or_introl eq_refl))
    as (HS & HE & entry & Hfirst).
  destruct (keys_chart_row engine_parse E entry) as [Hnd Hall].
  rewrite <- Hfirst in Hnd, Hall.
  assert (Hkeys : dataKeys first = series_keys first).
  { rewrite Hfirst. apply dataKeys_chart_row. }
  eexists. split; [reflexivity|].
  assert (Hnd' : NoDup (dataKeys first)).
  { rewrite Hkeys. unfold series_keys. apply NoDup_filter. exact Hnd. }
  assert (Hlen : (List.length (dataKeys first) <= List.length E)%nat).
  { rewrite <- (length_map series_label E).
    apply NoDup_incl_length; [exact Hnd'|].
    intros k Hk. rewrite Hkeys in Hk. unfold series_keys in Hk.
    apply filter_In in Hk as [Hk Hne].
    rewrite Forall_forall in Hall. destruct (Hall k Hk) as [->|(e & He & ->)].
    - discriminate.
    - apply in_map. exact He. }
  assert (Hlines : List.length
            (map_index (fun key index => (key, getChartColor index)) 0
                       (dataKeys first))
          = List.length (dataKeys first)).
  { rewrite <- (length_map fst), map_index_fst. reflexivity. }
  split; [rewrite map_index_fst; exact Hnd'|].
  split; [rewrite Hlines; exact Hlen|]. split.
  - rewrite map_index_snd. apply NoDup_map_in; [|apply seq_NoDup].
    intros a b Ha Hb Hab. apply in_seq in Ha, Hb.
    apply getChartColor_same in Hab; [|lia..].
    Z.to_euclidean_division_equations; lia.
  - rewrite Forall_forall. intros [key colour] Hline. cbn [snd].
    assert (Hc : In colour
                    (map snd (map_index (fun key index => (key, getChartColor index))
                                        0 (dataKeys first)))).
    { apply (in_map snd) in Hline. exact Hline. }
    rewrite map_index_snd in Hc. apply in_map_iff in Hc as (k & <- & Hk).
    apply getChartColor_some. lia.
Qed.
End ChartPanel.

Lemma getChartColor_cycle_witness :
  (0 <= 3 /\ 0 <= 11)
  /\ (exists colour, getChartColor 3 = Some colour /\ In colour CHART_COLORS)
  /\ getChartColor (3 + 8) = getChartColor 3
  /\ (getChartColor 3 = getChartColor 11 <-> 3 mod 8 = 11 mod 8).
Proof.
  assert (H1 : 0 <= 3) by lia.
  assert (H2 : 0 <= 11) by lia.
  split; [split; assumption|].
  exact (getChartColor_cycle 3 11 H1 H2).
Defined.

Lemma getChartColor_negative_witness :
  -8 < 0
  /\ getChartColor (-8) = if Z.rem (-8) 8 =? 0 then Some "#3b82f6" else None.
Proof.
  assert (H : -8 < 0) by lia.
  split; [exact H|].
  exact (getChartColor_negative (-8) H).
Defined.

Lemma PriceChart_lines_witness :
  transformPriceData no_engine three_days [air_max; dunk_low]
  = Normal [row_jan_1; row_jan_2; row_jan_3]
  /\ exists lines earliest,
      PriceChart [row_jan_1; row_jan_2; row_jan_3] false = LineChartPanel lines
      /\ map fst lines = series_keys row_jan_1
      /\ timestamp row_jan_1 = Some earliest
      /\ (forall q day, In q three_days ->
                        bucket_date no_engine q = Some day -> earliest <= day)
      /\ (forall key,
            In key (map fst lines) <->
            exists q e,
              In q three_days
              /\ bucket_date no_engine q = Some earliest
              /\ find (fun s => Sneaker.sneaker_id s =? PricePoint.sneaker_id q)
                      [air_max; dunk_low] = Some e
              /\ series_label e = key).
Proof.
  assert (H : transformPriceData no_engine three_days [air_max; dunk_low]
              = Normal [row_jan_1; row_jan_2; row_jan_3]) by reflexivity.
  split; [exact H|].
  exact (PriceChart_lines no_engine three_days [air_max; dunk_low]
           row_jan_1 [row_jan_2; row_jan_3] H).
Defined.

Lemma PriceChart_colours_witness :
  (transformPriceData no_engine three_days [air_max; dunk_low]
   = Normal [row_jan_1; row_jan_2; row_jan_3]
   /\ (List.length [air_max; dunk_low] <= 8)%nat)
  /\ exists lines,
      PriceChart [row_jan_1; row_jan_2; row_jan_3] false = LineChartPanel lines
      /\ NoDup (map fst lines)
      /\ (List.length lines <= List.length [air_max; dunk_low])%nat
      /\ NoDup (map snd lines)
      /\ Forall (fun line => exists colour,
                     snd line = Some colour /\ In colour CHART_COLORS) lines.
Proof.
  assert (H1 : transformPriceData no_engine three_days [air_max; dunk_low]
               = Normal [row_jan_1; row_jan_2; row_jan_3]) by reflexivity.
  assert (H2 : (List.length [air_max; dunk_low] <= 8)%nat) by (simpl; lia).
  split; [split; assumption|].
  exact (PriceChart_colours no_engine three_days [air_max; dunk_low]
           row_jan_1 [row_jan_2; row_jan_3] H1 H2).
Defined.

(** * [SneakerSelect]: the groups of options *)

Lemma first_occurrences_In (l : list string) (x : string) :
  In x (first_occurrences l) <-> In x l.
Proof.
  induction l as [|a l IH]; simpl; [tauto|].
  rewrite filter_In, IH, negb_true_iff, String.eqb_neq.
  destruct (string_dec a x) as [->|Hne]; [tauto|].
  split; [tauto|]. intros [H|H]; [tauto|]. right. split; [exact H | congruence].
Qed.

Lemma first_occurrences_NoDup (l : list string) : NoDup (first_occurrences l).
Proof.
  induction l as [|a l IH]; simpl; constructor.
  - rewrite filter_In, negb_true_iff, String.eqb_neq. tauto.
  - apply NoDup_filter. exact IH.
Qed.

Lemma existsb_filter_other (x a : string) (bs : list string) :
  String.eqb x a = false ->
  existsb (String.eqb x) (filter (fun y => negb (String.eqb y a)) bs)
  = existsb (String.eqb x) bs.
Proof.
  intros Hne. induction bs as [|b bs IH]; [reflexivity|].
  simpl. destruct (String.eqb_spec b a) as [->|Hb]; simpl.
  - rewrite Hne. exact IH.
  - rewrite IH. reflexivity.
Qed.

Lemma first_occurrences_snoc (l : list string) (x : string) :
  first_occurrences (l ++ [x])
  = (first_occurrences l
     ++ if existsb (String.eqb x) (first_occurrences l) then [] else [x])%list.
Proof.
  induction l as [|a l IH]; [reflexivity|].
  cbn [app first_occurrences]. rewrite IH, filter_app. cbn [app]. f_equal.
  destruct (String.eqb_spec x a) as [->|Hne].
  - cbn [existsb]. rewrite String.eqb_refl. cbn [orb].
    destruct (existsb (String.eqb a) (first_occurrences l)); simpl;
      rewrite ?String.eqb_refl; simpl; rewrite app_nil_r; reflexivity.
  - cbn [existsb]. apply String.eqb_neq in Hne. rewrite Hne. cbn [orb].
    rewrite (existsb_filter_other x a _ Hne).
    destruct (existsb (String.eqb x) (first_occurrences l)); simpl;
      rewrite ?Hne; reflexivity.
Qed.

Lemma add_to_groups_brand_groups (options : list SelectOption.t)
      (option : SelectOption.t) (brands : list string) :
  NoDup brands ->
  add_to_groups (map (brand_group options) brands) option
  = (map (brand_group (options ++ [option])) brands
     ++ if existsb (String.eqb (SelectOption.brand option)) brands then []
        else [(SelectOption.brand option, [option])])%list.
Proof.
  induction brands as [|b brands IH]; intros Hnd; [reflexivity|].
  inversion Hnd as [|? ? Hnotin Hnd']; subst.
  cbn [map add_to_groups brand_group fst snd]. unfold brand_group at 1.
  cbn [existsb].
  destruct (String.eqb_spec b (SelectOption.brand option)) as [Hb|Hb].
  - rewrite <- Hb, String.eqb_refl. cbn [orb].
    rewrite app_nil_r. f_equal.
    + unfold brand_group. rewrite filter_app. cbn [filter].
      rewrite <- Hb, String.eqb_refl. reflexivity.
    + apply map_ext_in. intros b' Hb'. unfold brand_group.
      rewrite filter_app. cbn [filter].
      replace (String.eqb (SelectOption.brand option) b') with false;
        [rewrite app_nil_r; reflexivity|].
      symmetry. apply String.eqb_neq. intros E. apply Hnotin. congruence.
  - replace (String.eqb (SelectOption.brand option) b) with false
      by (symmetry; apply String.eqb_neq; congruence).
    cbn [orb app]. f_equal.
    + unfold brand_group. rewrite filter_app. cbn [filter].
      replace (String.eqb (SelectOption.brand option) b) with false
        by (symmetry; apply String.eqb_neq; congruence).
      rewrite app_nil_r. reflexivity.
    + apply IH. exact Hnd'.
Qed.

Lemma brand_groups_snoc (options : list SelectOption.t)
      (option : SelectOption.t) :
  add_to_groups
    (map (brand_group options)
         (first_occurrences (map SelectOption.brand options))) option
  = map (brand_group (options ++ [option]))
        (first_occurrences (map SelectOption.brand (options ++ [option]))).
Proof.
  rewrite add_to_groups_brand_groups by apply first_occurrences_NoDup.
  rewrite map_app. cbn [map]. rewrite first_occurrences_snoc, map_app.
  f_equal.
  destruct (existsb (String.eqb (SelectOption.brand option))
                    (first_occurrences (map SelectOption.brand options))) eqn:Ex;
    [reflexivity|].
  cbn [map]. unfold brand_group. rewrite filter_app. cbn [filter].
  rewrite String.eqb_refl. f_equal. f_equal.
  rewrite filter_none_in; [reflexivity|].
  intros o Ho. apply String.eqb_neq. intros E.
  assert (Hin : In (SelectOption.brand option)
                   (first_occurrences (map SelectOption.brand options))).
  { apply first_occurrences_In. rewrite <- E. apply in_map. exact Ho. }
  assert (Ht : existsb (String.eqb (SelectOption.brand option))
                 (first_occurrences (map SelectOption.brand options)) = true).
  { apply existsb_exists. exists (SelectOption.brand option).
    split; [exact Hin | apply String.eqb_refl]. }
  congruence.
Qed.

Lemma groupedOptions_snoc (options : list SelectOption.t)
      (option : SelectOption.t) :
  groupedOptions (options ++ [option])
  = add_to_groups (groupedOptions options) option.
Proof. unfold groupedOptions. rewrite fold_left_app. reflexivity. Qed.

(** X13. The reduction that builds [groupedOptions] yields the brands in
    the order of their first occurrence among the options, each with all the
    options of that brand in their order. *)
Theorem groupedOptions_by_brand (options : list SelectOption.t) :
  groupedOptions options
  = map (brand_group options)
        (first_occurrences (map SelectOption.brand options)).
Proof.
  induction options as [|option options IH] using rev_ind; [reflexivity|].
  rewrite groupedOptions_snoc, IH. apply brand_groups_snoc.
Qed.

Lemma add_to_groups_perm (acc : list option_group) (option : SelectOption.t) :
  Permutation (List.concat (map snd (add_to_groups acc option)))
              (option :: List.concat (map snd acc)).
Proof.
  induction acc as [|[l os] acc IH]; [reflexivity|].
  cbn [add_to_groups]. destruct (String.eqb l (SelectOption.brand option)).
  - cbn [map snd List.concat]. rewrite <- app_assoc. cbn [app].
    apply Permutation_sym. apply Permutation_middle.
  - cbn [map snd List.concat]. rewrite IH. apply Permutation_sym.
    apply Permutation_middle.
Qed.

Lemma groupedOptions_perm (options : list SelectOption.t) :
  Permutation (List.concat (map snd (groupedOptions options))) options.
Proof.
  induction options as [|option options IH] using rev_ind; [reflexivity|].
  unfold groupedOptions in *. rewrite fold_left_app. cbn [fold_left].
  rewrite add_to_groups_perm, IH. apply Permutation_cons_append.
Qed.

Section SelectFacts.
Variable engine_parse : string -> option Z.
Variable LocalTZA : Z -> Z.

(** X14. In the groups that [SneakerSelect] offers, every brand of the
    catalogue is the label of exactly one group, no group is empty, every
    option stands under its own brand, and the options of all groups
    together are the sneakers of the catalogue, each as often as it occurs
    there. *)
Theorem SneakerSelect_groups (sneakers : list Sneaker.t) :
  let groups := groupedOptions (select_options engine_parse LocalTZA sneakers) in
  NoDup (map fst groups)
  /\ (forall brand, In brand (map fst groups) <->
                    In brand (map Sneaker.brand_name sneakers))
  /\ Forall (fun g => snd g <> []
                      /\ Forall (fun o => SelectOption.brand o = fst g) (snd g))
            groups
  /\ Permutation (map SelectOption.value (List.concat (map snd groups)))
                 (map Sneaker.sneaker_id sneakers).
Proof.
  intros groups. subst groups.
  set (options := select_options engine_parse LocalTZA sneakers).
  assert (Hbrands : map SelectOption.brand options
                    = map Sneaker.brand_name sneakers).
  { unfold options, select_options. rewrite map_map. reflexivity. }
  assert (Hvalues : map SelectOption.value options
                    = map Sneaker.sneaker_id sneakers).
  { unfold options, select_options. rewrite map_map. reflexivity. }
  assert (Hall : forall opts, groupedOptions opts
                    = map (brand_group opts)
                          (first_occurrences (map SelectOption.brand opts))).
  { induction opts as [|option l IH] using rev_ind; [reflexivity|].
    rewrite groupedOptions_snoc, IH. apply brand_groups_snoc. }
  pose proof (Hall options) as Hgroups. clear Hall.
  split; [|split; [|split]].
  - rewrite Hgroups, map_map. cbn [brand_group fst]. rewrite map_id.
    apply first_occurrences_NoDup.
  - intros brand. rewrite Hgroups, map_map. cbn [brand_group fst].
    rewrite map_id, first_occurrences_In, Hbrands. reflexivity.
  - rewrite Hgroups, Forall_forall. intros g Hg.
    apply in_map_iff in Hg as (b & <- & Hb). cbn [brand_group fst snd]. split.
    + apply (proj1 (first_occurrences_In _ _)) in Hb.
      apply in_map_iff in Hb as (o & Ho & Hin).
      intros Hnil.
      assert (Hmem : In o (filter (fun o => String.eqb (SelectOption.brand o) b)
                                  options)).
      { apply filter_In. split; [exact Hin|]. rewrite Ho. apply String.eqb_refl. }
      rewrite Hnil in Hmem. contradiction.
    + rewrite Forall_forall. intros o Ho. apply filter_In in Ho as [_ Ho].
      apply String.eqb_eq. exact Ho.
  - rewrite <- Hvalues. apply Permutation_map. apply groupedOptions_perm.
Qed.
End SelectFacts.

(** * [toFixed] and [formatPrice] *)

Lemma pad_length (w : nat) (n : Z) : String.length (pad w n) = w.
Proof. induction w as [|w IH]; simpl; [reflexivity | rewrite IH; reflexivity]. Qed.

Lemma pad_split (a b : nat) (n : Z) :
  pad (a + b) n = pad a (n / 10 ^ Z.of_nat b) ++ pad b n.
Proof.
  induction a as [|a IH]; [reflexivity|].
  cbn [Nat.add pad append]. rewrite IH. f_equal. f_equal.
  rewrite Nat2Z.inj_add, Z.pow_add_r by lia.
  rewrite Z.div_div by lia.
  rewrite (Z.mul_comm (10 ^ Z.of_nat b)). reflexivity.
Qed.

Lemma pad_zero (w : nat) : pad w 0 = zeros w.
Proof.
  induction w as [|w IH]; [reflexivity|].
  cbn [pad zeros]. rewrite IH, Z.div_0_l by lia. reflexivity.
Qed.

Lemma substring_prefix (a b : string) :
  substring 0 (String.length a) (a ++ b) = a.
Proof.
  induction a as [|c a IH]; simpl.
  - destruct b; reflexivity.
  - rewrite IH. reflexivity.
Qed.

Lemma substring_all (a : string) : substring 0 (String.length a) a = a.
Proof. induction a as [|c a IH]; simpl; [reflexivity | rewrite IH; reflexivity]. Qed.

Lemma substring_suffix (a b : string) :
  substring (String.length a) (String.length b) (a ++ b) = b.
Proof.
  induction a as [|c a IH]; simpl; [|exact IH].
  induction b as [|c b IHb]; simpl; [reflexivity|]. rewrite IHb. reflexivity.
Qed.

Lemma decimal_width_spec (fuel : nat) : forall n,
  0 <= n < 2 ^ (Z.of_nat fuel + 1) ->
  let w := decimal_width fuel n in
  (1 <= w)%nat /\ n < 10 ^ Z.of_nat w
  /\ (w = 1%nat \/ 10 ^ (Z.of_nat w - 1) <= n).
Proof.
  induction fuel as [|fuel IH]; intros n Hn; cbn [decimal_width].
  - simpl in Hn. simpl. split; [lia|]. split; [lia | auto].
  - destruct (n <? 10) eqn:E.
    + apply Z.ltb_lt in E. split; [lia|]. split; [simpl; lia | auto].
    + apply Z.ltb_ge in E.
      assert (Hdiv : 0 <= n / 10 < 2 ^ (Z.of_nat fuel + 1)).
      { replace (Z.of_nat (S fuel) + 1) with (Z.of_nat fuel + 1 + 1) in Hn by lia.
        rewrite Z.pow_add_r in Hn by lia. change (2 ^ 1) with 2 in Hn.
        split; [apply Z.div_pos; lia|].
        apply Z.div_lt_upper_bound; lia. }
      destruct (IH (n / 10) Hdiv) as (Hw1 & Hlt & Hge).
      set (w := decimal_width fuel (n / 10)) in *.
      split; [lia|].
      replace (Z.of_nat (S w)) with (Z.of_nat w + 1) by lia.
      rewrite Z.pow_add_r by lia. change (10 ^ 1) with 10.
      split.
      * Z.to_euclidean_division_equations; nia.
      * right. replace (Z.of_nat w + 1 - 1) with (Z.of_nat w - 1 + 1) by lia.
        rewrite Z.pow_add_r by lia. change (10 ^ 1) with 10.
        destruct Hge as [Hone|Hge].
        -- rewrite Hone. simpl. lia.
        -- Z.to_euclidean_division_equations; nia.
Qed.

Lemma decimal_eq_pad (n : Z) (w : nat) :
  0 <= n -> (1 <= w)%nat -> n < 10 ^ Z.of_nat w ->
  (w = 1%nat \/ 10 ^ (Z.of_nat w - 1) <= n) ->
  decimal n = pad w n.
Proof.
  intros Hn Hw Hlt Hge. unfold decimal.
  assert (Hfuel : 0 <= n < 2 ^ (Z.of_nat (Z.to_nat (Z.log2 n)) + 1)).
  { split; [exact Hn|]. rewrite Z2Nat.id by apply Z.log2_nonneg.
    destruct (Z.eq_dec n 0) as [->|Hnz]; [simpl; lia|].
    replace (Z.log2 n + 1) with (Z.succ (Z.log2 n)) by lia.
    apply Z.log2_spec. lia. }
  destruct (decimal_width_spec _ n Hfuel) as (Hw1 & Hlt' & Hge').
  set (w' := decimal_width (Z.to_nat (Z.log2 n)) n) in *.
  assert (w' = w); [|congruence].
  assert (H1 : ~ (w' < w)%nat).
  { intros Hlt2. destruct Hge as [->|Hge]; [lia|].
    assert (10 ^ Z.of_nat w' <= 10 ^ (Z.of_nat w - 1))
      by (apply Z.pow_le_mono_r; lia). lia. }
  assert (H2 : ~ (w < w')%nat).
  { intros Hlt2. destruct Hge' as [Hone|Hge']; [lia|].
    assert (10 ^ Z.of_nat w <= 10 ^ (Z.of_nat w' - 1))
      by (apply Z.pow_le_mono_r; lia). lia. }
  lia.
Qed.

Lemma fixed_point_text (n : Z) (f : nat) :
  0 <= n ->
  let m := decimal n in
  let k := String.length m in
  let m' := if (k <=? S f)%nat then zeros (S f + 1 - k) ++ m else m in
  let k' := String.length m' in
  substring 0 (k' - S f) m' ++ "." ++ substring (k' - S f) (S f) m'
  = decimal (n / 10 ^ Z.of_nat (S f)) ++ "." ++ pad (S f) n.
Proof.
  intros Hn.
  assert (Hfuel : 0 <= n < 2 ^ (Z.of_nat (Z.to_nat (Z.log2 n)) + 1)).
  { split; [exact Hn|]. rewrite Z2Nat.id by apply Z.log2_nonneg.
    destruct (Z.eq_dec n 0) as [->|Hnz]; [simpl; lia|].
    replace (Z.log2 n + 1) with (Z.succ (Z.log2 n)) by lia.
    apply Z.log2_spec. lia. }
  destruct (decimal_width_spec _ n Hfuel) as (Hw1 & Hlt & Hge).
  set (w := decimal_width (Z.to_nat (Z.log2 n)) n) in *.
  assert (Hdec : decimal n = pad w n) by reflexivity.
  cbv zeta. rewrite !Hdec, pad_length.
  destruct (w <=? S f)%nat eqn:E.
  - apply Nat.leb_le in E.
    assert (Hsmall : n / 10 ^ Z.of_nat w = 0) by (apply Z.div_small; lia).
    assert (Hm : zeros (S f + 1 - w) ++ pad w n = pad (1 + S f) n).
    { rewrite <- pad_zero, <- Hsmall, <- pad_split. f_equal. lia. }
    rewrite Hm, pad_length.
    replace (1 + S f - S f)%nat with 1%nat by lia.
    rewrite (pad_split 1 (S f) n).
    assert (Hq : n / 10 ^ Z.of_nat (S f) = 0).
    { apply Z.div_small. split; [lia|].
      assert (10 ^ Z.of_nat w <= 10 ^ Z.of_nat (S f))
        by (apply Z.pow_le_mono_r; lia). lia. }
    rewrite Hq.
    change (pad 1 0) with "0". change (decimal 0) with "0".
    change (substring 0 1 ("0" ++ pad (S f) n)) with "0".
    change (substring 1 (S f) ("0" ++ pad (S f) n))
      with (substring 0 (S f) (pad (S f) n)).
    rewrite <- (pad_length (S f) n) at 1.
    rewrite substring_all. reflexivity.
  - apply Nat.leb_gt in E. rewrite pad_length.
    assert (Hm : pad w n = pad (w - S f) (n / 10 ^ Z.of_nat (S f)) ++ pad (S f) n).
    { rewrite <- pad_split. f_equal. lia. }
    rewrite Hm.
    assert (Hd : decimal (n / 10 ^ Z.of_nat (S f))
                 = pad (w - S f) (n / 10 ^ Z.of_nat (S f))).
    { destruct Hge as [Hone|Hge]; [lia|].
      assert (Hp : 10 ^ Z.of_nat w
                   = 10 ^ Z.of_nat (w - S f) * 10 ^ Z.of_nat (S f)).
      { rewrite <- Z.pow_add_r by lia. f_equal. lia. }
      assert (Hp' : 10 ^ (Z.of_nat w - 1)
                    = 10 ^ (Z.of_nat (w - S f) - 1) * 10 ^ Z.of_nat (S f)).
      { rewrite <- Z.pow_add_r by lia. f_equal. lia. }
      assert (0 < 10 ^ Z.of_nat (S f)) by (apply Z.pow_pos_nonneg; lia).
      apply decimal_eq_pad.
      - apply Z.div_pos; lia.
      - lia.
      - apply Z.div_lt_upper_bound; lia.
      - right. apply Z.div_le_lower_bound; lia. }
    rewrite Hd.
    rewrite <- (pad_length (w - S f) (n / 10 ^ Z.of_nat (S f))) at 1 3.
    rewrite substring_prefix.
    assert (Hb : S f = String.length (pad (S f) n))
      by (symmetry; apply pad_length).
    clear Hm Hd. revert Hb.
    generalize (pad (S f) n), (pad (w - S f) (n / 10 ^ Z.of_nat (S f))).
    intros b a ->. rewrite substring_suffix. reflexivity.
Qed.

(** * [toFixed]: rounding *)

Lemma scaled_nearest_nonneg (x : number) (f : nat) : 0 <= scaled_nearest x f.
Proof.
  unfold scaled_nearest. destruct (Prim2SF x) as [s|s| |s m e]; try lia.
  assert (0 < 10 ^ Z.of_nat f) by (apply Z.pow_pos_nonneg; lia).
  destruct (0 <=? e) eqn:E.
  - apply Z.leb_le in E.
    assert (0 < 2 ^ e) by (apply Z.pow_pos_nonneg; lia). nia.
  - apply Z.leb_gt in E.
    assert (0 < 2 ^ (- e)) by (apply Z.pow_pos_nonneg; lia).
    apply Z.div_pos; nia.
Qed.

Lemma Qpower_2_Z (e : Z) : 0 <= e -> (2 ^ e == inject_Z (2 ^ e))%Q.
Proof. intros He. rewrite Zpower_Qpower by exact He. reflexivity. Qed.

Lemma scaled_nearest_nearest (x : number) (f : nat) :
  (inject_Z (scaled_nearest x f) - (1 # 2)
     <= magnitude x * inject_Z (10 ^ Z.of_nat f)
   /\ magnitude x * inject_Z (10 ^ Z.of_nat f)
     < inject_Z (scaled_nearest x f) + (1 # 2))%Q.
Proof.
  unfold scaled_nearest, magnitude.
  destruct (Prim2SF x) as [s|s| |s m e];
    try (split; [discriminate | reflexivity]).
  set (T := 10 ^ Z.of_nat f).
  assert (HT : 0 < T) by (apply Z.pow_pos_nonneg; lia).
  destruct (0 <=? e) eqn:E.
  - apply Z.leb_le in E. rewrite Qpower_2_Z by exact E.
    rewrite !inject_Z_mult. split; lra.
  - apply Z.leb_gt in E.
    set (d := 2 ^ (- e)).
    assert (Hd : 0 < d) by (apply Z.pow_pos_nonneg; lia).
    assert (Hpow : (2 ^ e == / inject_Z d)%Q).
    { replace e with (- - e) at 1 by lia.
      rewrite Qpower_opp, Qpower_2_Z by lia. reflexivity. }
    rewrite Hpow.
    set (n := (2 * Z.pos m * T + d) / (2 * d)).
    assert (Hn : 2 * d * n <= 2 * Z.pos m * T + d < 2 * d * (n + 1)).
    { unfold n. Z.to_euclidean_division_equations; nia. }
    assert (HdQ : (0 < inject_Z d)%Q)
      by (change 0%Q with (inject_Z 0); rewrite <- Zlt_Qlt; exact Hd).
    assert (Heq : (inject_Z (Z.pos m) * / inject_Z d * inject_Z T
                   == inject_Z (Z.pos m) * inject_Z T / inject_Z d)%Q)
      by (field; lra).
    rewrite Heq.
    destruct Hn as [Hlo Hhi].
    rewrite Zle_Qle in Hlo. rewrite Zlt_Qlt in Hhi.
    rewrite !inject_Z_plus, !inject_Z_mult in Hlo, Hhi.
    rewrite inject_Z_plus in Hhi.
    split.
    + apply Qle_shift_div_l; [exact HdQ|].
      change (inject_Z 2) with 2%Q in *. lra.
    + apply Qlt_shift_div_r; [exact HdQ|].
      change (inject_Z 2) with 2%Q in *. change (inject_Z 1) with 1%Q in *. lra.
Qed.

Lemma abs_abs (x : number) : abs (abs x) = abs x.
Proof.
  apply Prim2SF_inj. rewrite !abs_spec.
  destruct (Prim2SF x); reflexivity.
Qed.

Lemma is_nan_abs (x : number) : is_nan (abs x) = is_nan x.
Proof.
  destruct (is_nan x) eqn:E.
  - apply is_nan_spec. apply is_nan_spec in E. rewrite abs_spec, E. reflexivity.
  - destruct (is_nan (abs x)) eqn:E'; [|reflexivity].
    apply is_nan_spec in E'. rewrite abs_spec in E'.
    assert (Prim2SF x = S754_nan) as H
      by (destruct (Prim2SF x); try discriminate; reflexivity).
    apply is_nan_spec in H. congruence.
Qed.

Lemma ltb_abs_zero (x : number) : PrimFloat.ltb (abs x) 0 = false.
Proof.
  rewrite ltb_spec, abs_spec. change (Prim2SF 0) with (S754_zero false).
  destruct (Prim2SF x); reflexivity.
Qed.

Lemma is_infinity_abs (x : number) : is_infinity (abs x) = is_infinity x.
Proof. unfold is_infinity. rewrite abs_abs. reflexivity. Qed.

Lemma scaled_nearest_abs (x : number) (f : nat) :
  scaled_nearest (abs x) f = scaled_nearest x f.
Proof.
  unfold scaled_nearest. rewrite abs_spec. destruct (Prim2SF x); reflexivity.
Qed.

Lemma leb_zero_ltb (x : number) :
  is_nan x = false -> PrimFloat.leb 0 x = negb (PrimFloat.ltb x 0).
Proof.
  intros Hx. apply not_nan_spec in Hx.
  rewrite leb_spec, ltb_spec. change (Prim2SF 0) with (S754_zero false).
  destruct (Prim2SF x) as [s|[]| |[] m e]; try reflexivity. congruence.
Qed.

Lemma leb_zero_nan (x : number) : is_nan x = true -> PrimFloat.leb 0 x = false.
Proof.
  intros Hx. apply is_nan_spec in Hx. rewrite leb_spec, Hx. reflexivity.
Qed.

Section NumberTextFacts.
Variable large_number_string : number -> string.

Lemma toFixed_abs (x : number) (f : nat) :
  is_nan x = false ->
  toFixed large_number_string x f
  = (if PrimFloat.ltb x 0 then "-" else "")
      ++ toFixed large_number_string (abs x) f.
Proof.
  intros Hx. unfold toFixed.
  rewrite is_nan_abs, Hx, ltb_abs_zero, is_infinity_abs, abs_abs,
    scaled_nearest_abs.
  destruct (is_infinity x); [reflexivity|].
  destruct (PrimFloat.leb 1e21 (abs x)); reflexivity.
Qed.

Lemma toFixed_nan (x : number) (f : nat) :
  is_nan x = true -> toFixed large_number_string x f = "NaN".
Proof. intros Hx. unfold toFixed. rewrite Hx. reflexivity. Qed.

Lemma toFixed_digits (x : number) (f : nat) :
  is_nan x = false -> is_infinity x = false ->
  PrimFloat.leb 1e21 (abs x) = false ->
  toFixed large_number_string x (S f)
  = (if PrimFloat.ltb x 0 then "-" else "")
      ++ decimal (scaled_nearest x (S f) / 10 ^ Z.of_nat (S f))
      ++ "." ++ pad (S f) (scaled_nearest x (S f)).
Proof.
  intros Hnan Hinf Hlarge. unfold toFixed. rewrite Hnan, Hinf, Hlarge.
  f_equal. apply (fixed_point_text (scaled_nearest x (S f)) f).
  apply scaled_nearest_nonneg.
Qed.

(** X15. [formatPrice] of a finite price below 1e21 in magnitude is a
    dollar sign, a minus sign when the price is below zero, the dollars
    without leading zero, a point and exactly two digits of cents, where the
    amount in cents is the integer nearest to 100 times the magnitude of the
    price (the larger one of two equally near). *)
Theorem formatPrice_nearest_cent (price : number) :
  is_nan price = false -> is_infinity price = false ->
  PrimFloat.leb 1e21 (abs price) = false ->
  let cents := scaled_nearest price 2 in
  formatPrice large_number_string price
  = "$" ++ (if PrimFloat.ltb price 0 then "-" else "")
      ++ decimal (cents / 100) ++ "." ++ pad 2 cents
  /\ 0 <= cents
  /\ (inject_Z cents - (1 # 2) <= magnitude price * 100
      /\ magnitude price * 100 < inject_Z cents + (1 # 2))%Q.
Proof.
  intros Hnan Hinf Hlarge cents. split; [|split].
  - unfold formatPrice. rewrite (toFixed_digits price 1 Hnan Hinf Hlarge).
    reflexivity.
  - apply scaled_nearest_nonneg.
  - exact (scaled_nearest_nearest price 2).
Qed.

End NumberTextFacts.

(** An eighth of a dollar lies between 12 and 13 cents: 13 are shown. *)
Lemma formatPrice_nearest_cent_witness :
  (is_nan eighth = false /\ is_infinity eighth = false
   /\ PrimFloat.leb 1e21 (abs eighth) = false)
  /\ formatPrice nolarge eighth
     = "$" ++ (if PrimFloat.ltb eighth 0 then "-" else "")
         ++ decimal (scaled_nearest eighth 2 / 100) ++ "."
         ++ pad 2 (scaled_nearest eighth 2)
  /\ 0 <= scaled_nearest eighth 2
  /\ (inject_Z (scaled_nearest eighth 2) - (1 # 2) <= magnitude eighth * 100
      /\ magnitude eighth * 100 < inject_Z (scaled_nearest eighth 2) + (1 # 2))%Q.
Proof.
  assert (H1 : is_nan eighth = false) by reflexivity.
  assert (H2 : is_infinity eighth = false) by reflexivity.
  assert (H3 : PrimFloat.leb 1e21 (abs eighth) = false) by reflexivity.
  split; [auto|].
  exact (formatPrice_nearest_cent nolarge eighth H1 H2 H3).
Defined.

Lemma formatPrice_example :
  formatPrice nolarge eighth = "$0.13"
  /\ formatPrice nolarge (-5.5)%float = "$-5.50"
  /\ formatPrice nolarge 1234.5%float = "$1234.50".
Proof. repeat split; reflexivity. Qed.

(** * [StatisticsCards] *)

Lemma sneakerPrices_none (sneaker : Sneaker.t) (pricePoints : list PricePoint.t) :
  (forall p, In p pricePoints ->
             PricePoint.sneaker_id p <> Sneaker.sneaker_id sneaker) ->
  sneakerPrices sneaker pricePoints = [].
Proof.
  intros H. unfold sneakerPrices.
  induction pricePoints as [|p rest IH]; [reflexivity|]. simpl.
  destruct (PricePoint.sneaker_id p =? Sneaker.sneaker_id sneaker) eqn:E.
  - apply Z.eqb_eq in E. exfalso. apply (H p); [left; reflexivity | exact E].
  - apply IH. intros q Hq. apply H. right. exact Hq.
Qed.

Section CardFacts.
Variable large_number_string : number -> string.

Lemma StatisticsCards_In (sneakers : list Sneaker.t)
      (priceHistory : list PricePoint.t) (cards : list StatCard)
      (sneaker : Sneaker.t) :
  StatisticsCards large_number_string sneakers priceHistory = Some cards ->
  In sneaker sneakers ->
  In (stat_card large_number_string (calculateStats sneaker priceHistory)) cards.
Proof.
  intros Hc Hin. destruct sneakers as [|s0 rest]; [destruct Hin|].
  unfold StatisticsCards in Hc. injection Hc as <-.
  exact (in_map (fun sneaker => stat_card large_number_string
                                  (calculateStats sneaker priceHistory))
                (s0 :: rest) sneaker Hin).
Qed.

(** X16. On the card of a sneaker, a price change of zero or more is
    shown in green with a plus sign before the dollar sign and the formatted
    magnitude; a change below zero is shown in red without a sign before the
    dollar sign and with a minus sign after it; a NaN change is shown in red
    as [$NaN]. *)
Theorem StatisticsCards_change_sign (sneakers : list Sneaker.t)
        (priceHistory : list PricePoint.t) (cards : list StatCard)
        (sneaker : Sneaker.t) :
  StatisticsCards large_number_string sneakers priceHistory = Some cards ->
  In sneaker sneakers ->
  exists card, In card cards
    /\ card_key card = Sneaker.sneaker_id sneaker
    /\ let change :=
         SneakerStats.price_change (calculateStats sneaker priceHistory) in
       (fle 0%float change ->
          card_change_class card = "text-green-600"
          /\ card_change_sign card = "+"
          /\ card_price_change card
             = "$" ++ toFixed large_number_string (abs change) 2)
       /\ (PrimFloat.ltb change 0 = true ->
          card_change_class card = "text-red-600"
          /\ card_change_sign card = ""
          /\ card_price_change card
             = "$-" ++ toFixed large_number_string (abs change) 2)
       /\ (is_nan change = true ->
          card_change_class card = "text-red-600"
          /\ card_change_sign card = ""
          /\ card_price_change card = "$NaN").
Proof.
  intros Hc Hin.
  exists (stat_card large_number_string (calculateStats sneaker priceHistory)).
  split; [exact (StatisticsCards_In _ _ _ _ Hc Hin)|].
  split; [destruct (sneakerPrices sneaker priceHistory) eqn:E;
          unfold calculateStats; rewrite E; reflexivity|].
  intros change. unfold stat_card, card_change_class, card_change_sign,
    card_price_change, formatPrice. fold change.
  split; [|split].
  - intros Hle. unfold fle in Hle. rewrite Hle.
    assert (Hnan : is_nan change = false).
    { destruct (is_nan change) eqn:E; [|reflexivity].
      rewrite (leb_zero_nan _ E) in Hle. discriminate. }
    rewrite (toFixed_abs _ change 2 Hnan).
    rewrite (leb_zero_ltb _ Hnan) in Hle.
    destruct (PrimFloat.ltb change 0); [discriminate|]. auto.
  - intros Hlt.
    assert (Hnan : is_nan change = false).
    { destruct (is_nan change) eqn:E; [|reflexivity].
      apply is_nan_spec in E. rewrite ltb_spec, E in Hlt. discriminate. }
    rewrite (leb_zero_ltb _ Hnan), Hlt, (toFixed_abs _ change 2 Hnan), Hlt.
    auto.
  - intros Hnan. rewrite (leb_zero_nan _ Hnan), (toFixed_nan _ change 2 Hnan).
    auto.
Qed.

(** X17. The card of a sneaker that has no sample in the price history
    shows the formatted retail price as current, minimum, maximum and average
    price, and the change [+$0.00 (+0.0%)] in green. *)
Theorem StatisticsCards_without_samples (sneakers : list Sneaker.t)
        (priceHistory : list PricePoint.t) (cards : list StatCard)
        (sneaker : Sneaker.t) :
  StatisticsCards large_number_string sneakers priceHistory = Some cards ->
  In sneaker sneakers ->
  (forall p, In p priceHistory ->
             PricePoint.sneaker_id p <> Sneaker.sneaker_id sneaker) ->
  In {| card_key := Sneaker.sneaker_id sneaker;
        card_name := series_label sneaker;
        card_current_price :=
          formatPrice large_number_string (Sneaker.price sneaker);
        card_retail_price :=
          formatPrice large_number_string (Sneaker.price sneaker);
        card_change_class := "text-green-600";
        card_change_sign := "+";
        card_price_change := "$0.00";
        card_percent_sign := "+";
        card_percent := "0.0";
        card_min_price :=
          formatPrice large_number_string (Sneaker.price sneaker);
        card_max_price :=
          formatPrice large_number_string (Sneaker.price sneaker);
        card_avg_price :=
          formatPrice large_number_string (Sneaker.price sneaker) |} cards.
Proof.
  intros Hc Hin Hnone.
  pose proof (StatisticsCards_In _ _ _ _ Hc Hin) as Hcard.
  unfold calculateStats in Hcard.
  rewrite (sneakerPrices_none _ _ Hnone) in Hcard. exact Hcard.
Qed.

(** X18. On the card of a sneaker with samples and a retail price of
    [+0], the retail price reads [$0.00] and the percentage reads [+Infinity]
    when the current price is above zero, [-Infinity] when it is below zero,
    and [NaN] without a sign when it is zero. *)
Theorem StatisticsCards_zero_retail (sneakers : list Sneaker.t)
        (priceHistory : list PricePoint.t) (cards : list StatCard)
        (sneaker : Sneaker.t) :
  StatisticsCards large_number_string sneakers priceHistory = Some cards ->
  In sneaker sneakers ->
  sneakerPrices sneaker priceHistory <> [] ->
  is_pos_zero (Sneaker.price sneaker) = true ->
  exists card, In card cards
    /\ card_key card = Sneaker.sneaker_id sneaker
    /\ card_retail_price card = "$0.00"
    /\ let current :=
         SneakerStats.current_price (calculateStats sneaker priceHistory) in
       (PrimFloat.ltb 0 current = true ->
          card_percent_sign card = "+" /\ card_percent card = "Infinity")
       /\ (PrimFloat.ltb current 0 = true ->
          card_percent_sign card = "" /\ card_percent card = "-Infinity")
       /\ (is_zero current = true ->
          card_percent_sign card = "" /\ card_percent card = "NaN").
Proof.
  intros Hc Hin Hne Hzero.
  exists (stat_card large_number_string (calculateStats sneaker priceHistory)).
  split; [exact (StatisticsCards_In _ _ _ _ Hc Hin)|].
  split; [destruct (sneakerPrices sneaker priceHistory) eqn:E;
          unfold calculateStats; rewrite E; reflexivity|].
  unfold is_pos_zero in Hzero. apply andb_prop in Hzero as [Hz Hs].
  apply is_zero_spec in Hz as [s0 Hz].
  assert (Hs0 : s0 = false).
  { destruct s0; [|reflexivity].
    assert (Sneaker.price sneaker = (-0)%float) as Heq
      by (apply Prim2SF_inj; rewrite Hz; reflexivity).
    rewrite Heq in Hs. vm_compute in Hs. discriminate. }
  subst s0.
  assert (Hretail : Sneaker.price sneaker = 0%float)
    by (apply Prim2SF_inj; rewrite Hz; reflexivity).
  split.
  { unfold stat_card, card_retail_price.
    replace (SneakerStats.retail_price (calculateStats sneaker priceHistory))
      with (Sneaker.price sneaker)
      by (destruct (sneakerPrices sneaker priceHistory) eqn:E;
          unfold calculateStats; rewrite E; reflexivity).
    rewrite Hretail. reflexivity. }
  intros current.
  unfold stat_card, card_percent_sign, card_percent.
  rewrite (calculateStats_percent _ _ Hne). fold current.
  rewrite (calculatePriceChange_zero _ current false Hz).
  split; [|split].
  - intros Hlt. rewrite ltb_spec in Hlt.
    change (Prim2SF 0) with (S754_zero false) in Hlt.
    destruct (Prim2SF current) as [s|[]| |[] m e]; try discriminate;
      split; reflexivity.
  - intros Hlt. rewrite ltb_spec in Hlt.
    change (Prim2SF 0) with (S754_zero false) in Hlt.
    destruct (Prim2SF current) as [s|[]| |[] m e]; try discriminate;
      split; reflexivity.
  - intros Hz'. apply is_zero_spec in Hz' as [s Hz']. rewrite Hz'.
    split; reflexivity.
Qed.
End CardFacts.

(** Air Max sold at its retail price, and Dunk Low at 5 above it. *)
Lemma StatisticsCards_change_sign_witness :
  (StatisticsCards nolarge [air_max; dunk_low] [morning_100; dunk_sample]
   = Some (map (fun sneaker =>
                  stat_card nolarge
                    (calculateStats sneaker [morning_100; dunk_sample]))
               [air_max; dunk_low])
   /\ In dunk_low [air_max; dunk_low])
  /\ exists card,
      In card (map (fun sneaker =>
                      stat_card nolarge
                        (calculateStats sneaker [morning_100; dunk_sample]))
                   [air_max; dunk_low])
      /\ card_key card = Sneaker.sneaker_id dunk_low
      /\ let change :=
           SneakerStats.price_change
             (calculateStats dunk_low [morning_100; dunk_sample]) in
         (fle 0%float change ->
            card_change_class card = "text-green-600"
            /\ card_change_sign card = "+"
            /\ card_price_change card = "$" ++ toFixed nolarge (abs change) 2)
         /\ (PrimFloat.ltb change 0 = true ->
            card_change_class card = "text-red-600"
            /\ card_change_sign card = ""
            /\ card_price_change card = "$-" ++ toFixed nolarge (abs change) 2)
         /\ (is_nan change = true ->
            card_change_class card = "text-red-600"
            /\ card_change_sign card = ""
            /\ card_price_change card = "$NaN").
Proof.
  assert (H1 : StatisticsCards nolarge [air_max; dunk_low]
                 [morning_100; dunk_sample]
               = Some (map (fun sneaker =>
                              stat_card nolarge
                                (calculateStats sneaker
                                   [morning_100; dunk_sample]))
                           [air_max; dunk_low])) by reflexivity.
  assert (H2 : In dunk_low [air_max; dunk_low]) by (right; left; reflexivity).
  split; [split; assumption|].
  exact (StatisticsCards_change_sign nolarge [air_max; dunk_low]
           [morning_100; dunk_sample] _ dunk_low H1 H2).
Defined.

Lemma StatisticsCards_without_samples_witness :
  (StatisticsCards nolarge [air_max; dunk_low] [morning_100; evening_110]
   = Some (map (fun sneaker =>
                  stat_card nolarge
                    (calculateStats sneaker [morning_100; evening_110]))
               [air_max; dunk_low])
   /\ In dunk_low [air_max; dunk_low]
   /\ (forall p, In p [morning_100; evening_110] ->
                 PricePoint.sneaker_id p <> Sneaker.sneaker_id dunk_low))
  /\ In {| card_key := Sneaker.sneaker_id dunk_low;
           card_name := series_label dunk_low;
           card_current_price := formatPrice nolarge (Sneaker.price dunk_low);
           card_retail_price := formatPrice nolarge (Sneaker.price dunk_low);
           card_change_class := "text-green-600";
           card_change_sign := "+";
           card_price_change := "$0.00";
           card_percent_sign := "+";
           card_percent := "0.0";
           card_min_price := formatPrice nolarge (Sneaker.price dunk_low);
           card_max_price := formatPrice nolarge (Sneaker.price dunk_low);
           card_avg_price := formatPrice nolarge (Sneaker.price dunk_low) |}
        (map (fun sneaker =>
                stat_card nolarge
                  (calculateStats sneaker [morning_100; evening_110]))
             [air_max; dunk_low]).
Proof.
  assert (H1 : StatisticsCards nolarge [air_max; dunk_low]
                 [morning_100; evening_110]
               = Some (map (fun sneaker =>
                              stat_card nolarge
                                (calculateStats sneaker
                                   [morning_100; evening_110]))
                           [air_max; dunk_low])) by reflexivity.
  assert (H2 : In dunk_low [air_max; dunk_low]) by (right; left; reflexivity).
  assert (H3 : forall p, In p [morning_100; evening_110] ->
                 PricePoint.sneaker_id p <> Sneaker.sneaker_id dunk_low).
  { intros p [<-|[<-|[]]]; discriminate. }
  split; [auto|].
  exact (StatisticsCards_without_samples nolarge [air_max; dunk_low]
           [morning_100; evening_110] _ dunk_low H1 H2 H3).
Defined.

(** A pair with a retail price of zero, sold at 50. *)
Lemma StatisticsCards_zero_retail_witness :
  (StatisticsCards nolarge [free_pair] [free_pair_50]
   = Some [stat_card nolarge (calculateStats free_pair [free_pair_50])]
   /\ In free_pair [free_pair]
   /\ sneakerPrices free_pair [free_pair_50] <> []
   /\ is_pos_zero (Sneaker.price free_pair) = true)
  /\ exists card,
      In card [stat_card nolarge (calculateStats free_pair [free_pair_50])]
      /\ card_key card = Sneaker.sneaker_id free_pair
      /\ card_retail_price card = "$0.00"
      /\ let current :=
           SneakerStats.current_price
             (calculateStats free_pair [free_pair_50]) in
         (PrimFloat.ltb 0 current = true ->
            card_percent_sign card = "+" /\ card_percent card = "Infinity")
         /\ (PrimFloat.ltb current 0 = true ->
            card_percent_sign card = "" /\ card_percent card = "-Infinity")
         /\ (is_zero current = true ->
            card_percent_sign card = "" /\ card_percent card = "NaN").
Proof.
  assert (H1 : StatisticsCards nolarge [free_pair] [free_pair_50]
               = Some [stat_card nolarge
                         (calculateStats free_pair [free_pair_50])])
    by reflexivity.
  assert (H2 : In free_pair [free_pair]) by (left; reflexivity).
  assert (H3 : sneakerPrices free_pair [free_pair_50] <> []) by discriminate.
  assert (H4 : is_pos_zero (Sneaker.price free_pair) = true) by reflexivity.
  split; [auto|].
  exact (StatisticsCards_zero_retail nolarge [free_pair] [free_pair_50] _
           free_pair H1 H2 H3 H4).
Defined.

Lemma zero_retail_card_example :
  stat_card nolarge (calculateStats free_pair [free_pair_50])
  = {| card_key := 3;
       card_name := "Free Pair - undefined";
       card_current_price := "$50.00";
       card_retail_price := "$0.00";
       card_change_class := "text-green-600";
       card_change_sign := "+";
       card_price_change := "$50.00";
       card_percent_sign := "+";
       card_percent := "Infinity";
       card_min_price := "$50.00";
       card_max_price := "$50.00";
       card_avg_price := "$50.00" |}.
Proof. reflexivity. Qed.

(** * [App]: selection, chart and cards *)

Lemma includes_In (ids : list Z) (id : Z) : includes ids id = true <-> In id ids.
Proof.
  unfold includes. rewrite existsb_exists. split.
  - intros (x & Hx & Heq). apply Z.eqb_eq in Heq. subst x. exact Hx.
  - intros H. exists id. split; [exact H | apply Z.eqb_refl].
Qed.

Lemma selectedSneakerObjects_In (sneakers : list Sneaker.t) (ids : list Z)
      (s : Sneaker.t) :
  In s (selectedSneakerObjects sneakers ids) <->
  In s sneakers /\ In (Sneaker.sneaker_id s) ids.
Proof. unfold selectedSneakerObjects. rewrite filter_In, includes_In. tauto. Qed.

Lemma selectedSneakerObjects_nil (sneakers : list Sneaker.t) (ids : list Z) :
  selectedSneakerObjects sneakers ids = [] <->
  forall s, In s sneakers -> ~ In (Sneaker.sneaker_id s) ids.
Proof.
  split.
  - intros H s Hs Hid.
    assert (Hin : In s (selectedSneakerObjects sneakers ids))
      by (apply selectedSneakerObjects_In; auto).
    rewrite H in Hin. destruct Hin.
  - intros H. destruct (selectedSneakerObjects sneakers ids) as [|s rest] eqn:E;
      [reflexivity|].
    assert (Hin : In s (selectedSneakerObjects sneakers ids))
      by (rewrite E; left; reflexivity).
    apply selectedSneakerObjects_In in Hin as [Hs Hid].
    destruct (H s Hs Hid).
Qed.

Lemma selectedSneakerObjects_ids (sneakers : list Sneaker.t) (ids : list Z) :
  map Sneaker.sneaker_id (selectedSneakerObjects sneakers ids)
  = filter (includes ids) (map Sneaker.sneaker_id sneakers).
Proof.
  unfold selectedSneakerObjects.
  induction sneakers as [|s rest IH]; [reflexivity|]. simpl.
  destruct (includes ids (Sneaker.sneaker_id s)); simpl; rewrite IH; reflexivity.
Qed.

Section AppFacts.
Variable large_number_string : number -> string.
Variable engine_parse : string -> option Z.

Lemma useChartData_transformPriceData (priceHistory : list PricePoint.t)
      (sneakers : list Sneaker.t) :
  useChartData engine_parse priceHistory sneakers
  = transformPriceData engine_parse priceHistory sneakers.
Proof. destruct priceHistory, sneakers; reflexivity. Qed.

Lemma App_Normal (sneakers : list Sneaker.t)
      (selectedSneakers : list SelectOption.t)
      (priceHistory : list PricePoint.t) (priceLoading : bool) (view : AppView) :
  App large_number_string engine_parse sneakers selectedSneakers priceHistory
      priceLoading = Normal view ->
  let selected :=
    selectedSneakerObjects sneakers (selectedIds selectedSneakers) in
  exists chartData,
    transformPriceData engine_parse priceHistory selected = Normal chartData
    /\ chart_panel view = PriceChart chartData priceLoading
    /\ statistics view
       = if (0 <? List.length selected)%nat
         then StatisticsCards large_number_string selected priceHistory
         else None.
Proof.
  unfold App. rewrite useChartData_transformPriceData.
  destruct (transformPriceData engine_parse priceHistory
              (selectedSneakerObjects sneakers (selectedIds selectedSneakers)))
    as [chartData|err]; simpl; [|discriminate].
  intros H. injection H as <-. exists chartData. auto.
Qed.

(** X19. When no selected id belongs to a sneaker of the catalogue (as
    after clearing the selection), [App] renders without error whatever the
    price history holds, with the loading panel or the no-data panel in place
    of the chart and without statistics cards. *)
Theorem App_without_selection (sneakers : list Sneaker.t)
        (selectedSneakers : list SelectOption.t)
        (priceHistory : list PricePoint.t) (priceLoading : bool) :
  (forall s, In s sneakers ->
             ~ In (Sneaker.sneaker_id s) (selectedIds selectedSneakers)) ->
  App large_number_string engine_parse sneakers selectedSneakers priceHistory
      priceLoading
  = Normal {| chart_panel := if priceLoading then LoadingPanel else NoDataPanel;
              statistics := None |}.
Proof.
  intros H. apply selectedSneakerObjects_nil in H.
  unfold App. rewrite H, useChartData_transformPriceData,
    transformPriceData_empty by auto.
  reflexivity.
Qed.

(** X20. When [App] renders, the statistics cards are absent exactly
    when no selected id belongs to a sneaker of the catalogue; otherwise there
    is one card per selected sneaker of the catalogue, in the order of the
    catalogue rather than of the selection, named by the sneaker's label. *)
Theorem App_cards (sneakers : list Sneaker.t)
        (selectedSneakers : list SelectOption.t)
        (priceHistory : list PricePoint.t) (priceLoading : bool) (view : AppView) :
  App large_number_string engine_parse sneakers selectedSneakers priceHistory
      priceLoading = Normal view ->
  (statistics view = None <->
   forall s, In s sneakers ->
             ~ In (Sneaker.sneaker_id s) (selectedIds selectedSneakers))
  /\ forall cards, statistics view = Some cards ->
       map card_key cards
       = filter (includes (selectedIds selectedSneakers))
                (map Sneaker.sneaker_id sneakers)
       /\ map card_name cards
          = map series_label
                (selectedSneakerObjects sneakers (selectedIds selectedSneakers)).
Proof.
  intros H. destruct (App_Normal _ _ _ _ _ H) as (chartData & _ & _ & Hstat).
  rewrite <- selectedSneakerObjects_nil.
  set (selected := selectedSneakerObjects sneakers (selectedIds selectedSneakers))
    in *.
  assert (Hcards : forall l,
             map card_key
               (map (fun sneaker => stat_card large_number_string
                                      (calculateStats sneaker priceHistory)) l)
             = map Sneaker.sneaker_id l
             /\ map card_name
                  (map (fun sneaker => stat_card large_number_string
                                         (calculateStats sneaker priceHistory)) l)
                = map series_label l).
  { intros l. rewrite !map_map. split; apply map_ext; intros s;
      unfold calculateStats; destruct (sneakerPrices s priceHistory);
        reflexivity. }
  pose proof (selectedSneakerObjects_ids sneakers (selectedIds selectedSneakers))
    as Hids.
  fold selected in Hids.
  destruct selected as [|s0 rest] eqn:E.
  - simpl in Hstat. split; [split; auto|].
    intros cards Hc. congruence.
  - simpl in Hstat. split.
    + split; [congruence | discriminate].
    + intros cards Hc. rewrite Hstat in Hc. injection Hc as <-.
      rewrite <- Hids. exact (Hcards (s0 :: rest)).
Qed.

(** X21. When [App] renders a line chart, its lines have distinct keys,
    and every line is labelled by a sneaker of the catalogue whose id is
    selected and which has a sample in the price history. *)
Theorem App_chart_lines (sneakers : list Sneaker.t)
        (selectedSneakers : list SelectOption.t)
        (priceHistory : list PricePoint.t) (priceLoading : bool)
        (view : AppView) (lines : list (string * option string)) :
  App large_number_string engine_parse sneakers selectedSneakers priceHistory
      priceLoading = Normal view ->
  chart_panel view = LineChartPanel lines ->
  NoDup (map fst lines)
  /\ forall key, In key (map fst lines) ->
       exists sneaker sample,
         In sneaker sneakers
         /\ In (Sneaker.sneaker_id sneaker) (selectedIds selectedSneakers)
         /\ series_label sneaker = key
         /\ In sample priceHistory
         /\ PricePoint.sneaker_id sample = Sneaker.sneaker_id sneaker.
Proof.
  intros H Hpanel.
  destruct (App_Normal _ _ _ _ _ H) as (chartData & Hdata & Hchart & _).
  rewrite Hchart in Hpanel. unfold PriceChart in Hpanel.
  destruct priceLoading; [discriminate|].
  destruct chartData as [|first rest]; [discriminate|].
  injection Hpanel as <-. rewrite map_index_fst.
  destruct (chart_rows_built engine_parse _ _ _ first Hdata (or_introl eq_refl))
    as (_ & _ & entry & Hfirst).
  assert (Hkeys : dataKeys first = series_keys first).
  { rewrite Hfirst. apply dataKeys_chart_row. }
  rewrite Hkeys. split.
  - unfold series_keys. apply NoDup_filter.
    rewrite Hfirst. apply (keys_chart_row engine_parse).
  - intros key Hkey. apply In_series_keys_iff in Hkey as [Hne Hsome].
    destruct (obj_get key first) as [v|] eqn:Hv; [|congruence].
    destruct (row_value_origin engine_parse _ _ _ first key v Hdata
                (or_introl eq_refl) Hne Hv)
      as (q & e & Hq & _ & Hfind & Hl & _).
    apply find_some in Hfind as [He Hid]. apply Z.eqb_eq in Hid.
    apply selectedSneakerObjects_In in He as [He Hsel].
    exists e, q. auto.
Qed.
End AppFacts.

(** Only a sneaker the catalogue does not hold is selected; the history has
    a sample with an unreadable timestamp. *)
Lemma App_without_selection_witness :
  (forall s, In s [air_max; dunk_low] ->
             ~ In (Sneaker.sneaker_id s) (selectedIds [ex_option free_pair]))
  /\ App nolarge no_engine [air_max; dunk_low] [ex_option free_pair]
         [ex_sample "yesterday" 100%float 1] false
     = Normal {| chart_panel := NoDataPanel; statistics := None |}.
Proof.
  assert (H : forall s, In s [air_max; dunk_low] ->
                ~ In (Sneaker.sneaker_id s) (selectedIds [ex_option free_pair])).
  { intros s [<-|[<-|[]]] [Hid|[]]; discriminate. }
  split; [exact H|].
  exact (App_without_selection nolarge no_engine [air_max; dunk_low]
           [ex_option free_pair] [ex_sample "yesterday" 100%float 1] false H).
Defined.

(** Dunk Low selected before Air Max: the cards are in the order of the
    catalogue. *)
Lemma App_cards_witness :
  App nolarge no_engine [air_max; dunk_low]
      [ex_option dunk_low; ex_option air_max] three_days false
  = Normal {| chart_panel := LineChartPanel [("Air Max - Red", Some "#3b82f6")];
              statistics :=
                StatisticsCards nolarge [air_max; dunk_low] three_days |}
  /\ (StatisticsCards nolarge [air_max; dunk_low] three_days = None <->
      forall s, In s [air_max; dunk_low] ->
                ~ In (Sneaker.sneaker_id s)
                     (selectedIds [ex_option dunk_low; ex_option air_max]))
  /\ forall cards,
       StatisticsCards nolarge [air_max; dunk_low] three_days = Some cards ->
       map card_key cards
       = filter (includes (selectedIds [ex_option dunk_low; ex_option air_max]))
                (map Sneaker.sneaker_id [air_max; dunk_low])
       /\ map card_name cards
          = map series_label
                (selectedSneakerObjects [air_max; dunk_low]
                   (selectedIds [ex_option dunk_low; ex_option air_max])).
Proof.
  assert (H : App nolarge no_engine [air_max; dunk_low]
                  [ex_option dunk_low; ex_option air_max] three_days false
              = Normal {| chart_panel :=
                            LineChartPanel [("Air Max - Red", Some "#3b82f6")];
                          statistics :=
                            StatisticsCards nolarge [air_max; dunk_low]
                                            three_days |})
    by reflexivity.
  split; [exact H|].
  exact (App_cards nolarge no_engine [air_max; dunk_low]
           [ex_option dunk_low; ex_option air_max] three_days false _ H).
Defined.

Lemma App_chart_lines_witness :
  (App nolarge no_engine [air_max; dunk_low]
       [ex_option dunk_low; ex_option air_max] three_days false
   = Normal {| chart_panel := LineChartPanel [("Air Max - Red", Some "#3b82f6")];
               statistics :=
                 StatisticsCards nolarge [air_max; dunk_low] three_days |}
   /\ chart_panel
        {| chart_panel := LineChartPanel [("Air Max - Red", Some "#3b82f6")];
           statistics :=
             StatisticsCards nolarge [air_max; dunk_low] three_days |}
      = LineChartPanel [("Air Max - Red", Some "#3b82f6")])
  /\ NoDup (map fst [("Air Max - Red", Some "#3b82f6")])
  /\ forall key, In key (map fst [("Air Max - Red", Some "#3b82f6")]) ->
       exists sneaker sample,
         In sneaker [air_max; dunk_low]
         /\ In (Sneaker.sneaker_id sneaker)
               (selectedIds [ex_option dunk_low; ex_option air_max])
         /\ series_label sneaker = key
         /\ In sample three_days
         /\ PricePoint.sneaker_id sample = Sneaker.sneaker_id sneaker.
Proof.
  assert (H1 : App nolarge no_engine [air_max; dunk_low]
                   [ex_option dunk_low; ex_option air_max] three_days false
               = Normal {| chart_panel :=
                             LineChartPanel [("Air Max - Red", Some "#3b82f6")];
                           statistics :=
                             StatisticsCards nolarge [air_max; dunk_low]
                                             three_days |})
    by reflexivity.
  assert (H2 : chart_panel
                 {| chart_panel :=
                      LineChartPanel [("Air Max - Red", Some "#3b82f6")];
                    statistics :=
                      StatisticsCards nolarge [air_max; dunk_low] three_days |}
               = LineChartPanel [("Air Max - Red", Some "#3b82f6")])
    by reflexivity.
  split; [split; assumption|].
  exact (App_chart_lines nolarge no_engine [air_max; dunk_low]
           [ex_option dunk_low; ex_option air_max] three_days false _ _ H1 H2).
Defined.
